(** * Expense tracker: validation, aggregation and the chat dispatcher

    A shallow embedding of [ana.py], [bot.py] and [expense_tracker.py].

    Conventions of the model.
    - Amounts are modelled twice. In [Ana], [Bot] and the modules built on
      them an amount is an exact rational ([Q]): they carry what does not
      depend on how a sum rounds (validation, what is recorded where and in
      which order, the handlers and the menus). The module [Doubles] embeds
      the aggregation and the chart reductions once more on primitive floats,
      the IEEE 754 doubles Python computes with: what is said about the value
      of a sum is said there.
    - Text is a [string] whose characters are code points below 256.
    - Library functions the code calls but does not define ([float], [int],
      [str], [datetime.fromisoformat], [strftime]) are the fields of the
      class [PyBuiltins]; every theorem holds for every instance.
    - A dict whose iteration order is observed ([category_totals],
      [monthly_totals]) is an association list in insertion order; a dict
      used only through lookups is a [gmap]. *)

From Stdlib Require Import ZArith QArith List String Ascii DecimalString Lia Permutation Sorted.
From stdpp Require Import gmap strings list sorting.
From Stdlib Require Floats.

Local Open Scope Q_scope.
Local Open Scope string_scope.
Local Open Scope list_scope.

(** ** Python values and exceptions *)

(** The values a row of the remote table can hold in a column. [PComposite]
    stands for any JSON array or object. *)
Inductive pyval : Type :=
| PNone
| PBool (b : bool)
| PInt (z : Z)
| PFloat (q : Q)
| PStr (s : string)
| PComposite.

(** The exception classes that can reach an [except] clause of the code. *)
Inductive exn : Type :=
| KeyError
| ValueError
| TypeError
| AttributeError
| OverflowError.

Inductive pyresult (A : Type) : Type :=
| Ok (a : A)
| Raise (e : exn).
Arguments Ok {A} a.
Arguments Raise {A} e.

(** A raw record is one row of the table as the client returns it: a dict
    from column name to value. *)
Abbreviation raw_record := (gmap string pyval).

Class PyBuiltins : Type := {
  (** [datetime] values *)
  date : Type;
  (** [float(v)] *)
  py_float : pyval -> pyresult Q;
  (** [datetime.fromisoformat(s)] *)
  fromisoformat : string -> pyresult date;
  (** [d.strftime("%Y-%m")] *)
  strftime_Ym : date -> string;
  (** [str(v)] *)
  py_str : pyval -> string;
  (** [int(s)] on a string *)
  py_int : string -> pyresult Z
}.

(** ** Strings: [str.strip], [str.split] *)

Module Str.

(** [str.isspace] on one character (code points below 256). *)
Definition isspace (c : ascii) : bool :=
  let n := nat_of_ascii c in
  ((9 <=? n)%nat && (n <=? 13)%nat) || ((28 <=? n)%nat && (n <=? 32)%nat)
  || (n =? 133)%nat || (n =? 160)%nat.

Fixpoint lstrip_chars (l : list ascii) : list ascii :=
  match l with
  | c :: l' => if isspace c then lstrip_chars l' else l
  | [] => []
  end.

Definition rstrip_chars (l : list ascii) : list ascii :=
  rev (lstrip_chars (rev l)).

(** [s.strip()] *)
Definition strip (s : string) : string :=
  string_of_list_ascii (rstrip_chars (lstrip_chars (list_ascii_of_string s))).

(** The longest prefix without whitespace, and what follows it. *)
Fixpoint span_word (l : list ascii) : list ascii * list ascii :=
  match l with
  | c :: l' =>
      if isspace c then ([], l)
      else let (w, r) := span_word l' in (c :: w, r)
  | [] => ([], [])
  end.

(** CPython's whitespace splitting: at most [maxcount] words are cut off the
    front; what remains, once leading whitespace is skipped, is the last
    element when it is not empty. *)
Fixpoint split_chars (maxcount : nat) (l : list ascii) : list (list ascii) :=
  match lstrip_chars l with
  | [] => []
  | c :: r =>
      match maxcount with
      | O => [c :: r]
      | S n => let (w, rest) := span_word (c :: r) in w :: split_chars n rest
      end
  end.

(** [s.split(maxsplit=n)] *)
Definition split_max (n : nat) (s : string) : list string :=
  map string_of_list_ascii (split_chars n (list_ascii_of_string s)).

(** [s.split()]: no bound on the number of words. *)
Definition split (s : string) : list string :=
  split_max (String.length s) s.

(** [s.split(c)[0]]: the text before the first occurrence of [c]. *)
Fixpoint before (c : ascii) (s : string) : string :=
  match s with
  | EmptyString => EmptyString
  | String a s' => if Ascii.eqb a c then EmptyString else String a (before c s')
  end.

End Str.


(** ** [ana.py]: validation and aggregation *)

Module Ana.

(** Lines written by [print] inside [process_data]. *)
Inductive log_line : Type :=
| WarningNegative (amount : Q)      (* "Warning: Negative amount found: ..." *)
| DebugItem (item : raw_record)     (* "Debug - Data item: ..." *)
| DebugError (e : exn)              (* "Debug - Error: ..." *)
| SkippingInvalid (e : exn).        (* "Skipping invalid data point: <type>" *)

(** The lines that carry the reason a record was skipped. *)
Definition is_skip_reason (l : log_line) : bool :=
  match l with
  | DebugError _ | SkippingInvalid _ => true
  | WarningNegative _ | DebugItem _ => false
  end.

(** The number of skip reasons among the printed lines. *)
Definition skip_reasons (out : list log_line) : nat :=
  length (List.filter is_skip_reason out).

(** A [defaultdict(float)] in insertion order. *)
Abbreviation totals := (list (string * Q)).

(** [d[k] += a] on a [defaultdict(float)]: an existing bucket is updated in
    place, a missing one is created at the end from [0.0]. *)
Fixpoint add_total (k : string) (a : Q) (d : totals) : totals :=
  match d with
  | [] => [(k, 0 + a)]
  | (k', v) :: d' =>
      if String.eqb k' k then (k', v + a) :: d'
      else (k', v) :: add_total k a d'
  end.

(** [sum(xs)]: Python adds from the left, starting at 0. *)
Definition py_sum (xs : list Q) : Q := fold_left Qplus xs 0.

Definition total_values (d : totals) : list Q := map snd d.

(** [sorted(d.items(), key=lambda x: x[1], reverse=True)]. Python's sort is
    stable, also under [reverse=True]; a stable sort has one possible result,
    computed here by insertion: an entry goes in front of the first entry
    whose total is not larger than its own. *)
Fixpoint insert_desc (x : string * Q) (l : totals) : totals :=
  match l with
  | [] => [x]
  | y :: l' =>
      if Qle_bool (snd y) (snd x) then x :: y :: l'
      else y :: insert_desc x l'
  end.

Fixpoint sorted_desc (d : totals) : totals :=
  match d with
  | [] => []
  | x :: d' => insert_desc x (sorted_desc d')
  end.

(** [s] ranks the entries of [d]: the same entries, totals in descending
    order, and entries with equal totals in the order they have in [d]. *)
Definition ranks (d s : totals) : Prop :=
  Permutation d s
  /\ StronglySorted (fun a b => snd b <= snd a) s
  /\ forall v : Q,
       List.filter (fun p => Qeq_bool (snd p) v) s
       = List.filter (fun p => Qeq_bool (snd p) v) d.

(** The labels and sizes handed to [ax.pie] by [plot_category_pie]. *)
Definition plot_category_pie (category_totals : totals) : list string * list Q :=
  let categories_sorted := sorted_desc category_totals in
  if (3 <? length categories_sorted)%nat then
    let top_categories := take 3 categories_sorted in
    let other_sum := py_sum (map snd (drop 3 categories_sorted)) in
    (map fst top_categories ++ ["Other"], map snd top_categories ++ [other_sum])
  else
    (map fst categories_sorted, map snd categories_sorted).

Section ProcessData.
Context `{PyBuiltins}.

(** The five collections [process_data] builds. *)
Record aggregates : Type := {
  dates : list date;
  amounts : list Q;
  categories : list string;
  category_totals : totals;
  monthly_totals : totals
}.

Definition empty_aggregates : aggregates :=
  {| dates := []; amounts := []; categories := [];
     category_totals := []; monthly_totals := [] |}.

(** One validated expense: the values the [try] body computes before it
    touches the collections. *)
Record expense : Type := {
  e_date : date;
  e_amount : Q;
  e_category : string
}.

(** The warning printed for a negative amount. *)
Definition negative_warning (amount : Q) : list log_line :=
  if Qlt_le_dec amount 0 then [WarningNegative amount] else [].

(** [str(item['category']).strip()], replaced by the sentinel when empty. *)
Definition clean_category (v : pyval) : string :=
  let category := Str.strip (py_str v) in
  if String.eqb category "" then "Uncategorized" else category.

(** The body of the [try] up to the first [append]: either the validated
    expense or the exception raised, with the lines printed on the way. *)
Definition validate (item : raw_record) : list log_line * pyresult expense :=
  match item !! "amount", item !! "time", item !! "category" with
  | Some v_amount, Some v_time, Some v_category =>
      match py_float v_amount with
      | Raise e => ([], Raise e)
      | Ok amount =>
          let warn := negative_warning amount in
          match v_time with
          | PStr t =>
              match fromisoformat (Str.before "T" t) with
              | Raise e => (warn, Raise e)
              | Ok d =>
                  let category := clean_category v_category in
                  (warn, Ok {| e_date := d; e_amount := amount; e_category := category |})
              end
          | _ => (warn, Raise AttributeError)
          end
      end
  | _, _, _ => ([], Raise KeyError)
  end.

(** The [except Exception] clause. *)
Definition report_skip (DEBUG : bool) (item : raw_record) (e : exn) : list log_line :=
  if DEBUG then [DebugItem item; DebugError e] else [SkippingInvalid e].

(** The appends and the two [+=] of the [try] body. *)
Definition record_expense (x : expense) (st : aggregates) : aggregates :=
  {| dates := dates st ++ [e_date x];
     amounts := amounts st ++ [e_amount x];
     categories := categories st ++ [e_category x];
     category_totals := add_total (e_category x) (e_amount x) (category_totals st);
     monthly_totals := add_total (strftime_Ym (e_date x)) (e_amount x) (monthly_totals st) |}.

(** One iteration of [for item in all_data]. *)
Definition process_item (DEBUG : bool) (st : list log_line * aggregates)
    (item : raw_record) : list log_line * aggregates :=
  let (out, agg) := st in
  match validate item with
  | (warn, Ok x) => (out ++ warn, record_expense x agg)
  | (warn, Raise e) => (out ++ warn ++ report_skip DEBUG item e, agg)
  end.

(** The whole [for] loop, from empty collections. *)
Definition process_loop (DEBUG : bool) (all_data : list raw_record)
    : list log_line * aggregates :=
  fold_left (process_item DEBUG) all_data ([], empty_aggregates).

(** [process_data(all_data)]: what is printed, and either the five
    collections or the [ValueError] raised. [all_data] is a list by its type,
    so of the first guard only the emptiness test remains. *)
Definition process_data (DEBUG : bool) (all_data : list raw_record)
    : list log_line * pyresult aggregates :=
  match all_data with
  | [] => ([], Raise ValueError)       (* "Invalid or empty data received" *)
  | _ =>
      let (out, agg) := process_loop DEBUG all_data in
      match dates agg with
      | [] => (out, Raise ValueError)  (* "No valid data points found after processing" *)
      | _ => (out, Ok agg)
      end
  end.

(** The expense a record yields when it passes validation. *)
Definition accepted (item : raw_record) : option expense :=
  match validate item with
  | (_, Ok x) => Some x
  | (_, Raise _) => None
  end.

(** The records of a batch that pass validation, in order. *)
Definition validated (all_data : list raw_record) : list expense :=
  omap accepted all_data.

(** The collections after a run of accepted expenses. *)
Definition record_all (xs : list expense) (agg : aggregates) : aggregates :=
  fold_left (fun a x => record_expense x a) xs agg.

(** The invariant of the aggregation: both maps of totals sum to the sum of
    the amounts. *)
Definition balanced (agg : aggregates) : Prop :=
  py_sum (total_values (category_totals agg)) == py_sum (amounts agg)
  /\ py_sum (total_values (monthly_totals agg)) == py_sum (amounts agg).

End ProcessData.

End Ana.

(** ** Effects: the calls made to the console, the remote table and the chat *)

(** The row [store_expense] inserts. *)
Record row : Type := {
  r_time : string;
  r_category : string;
  r_amount : Q;
  r_note : string
}.

(** The conversation modes: the value of ['state'] in an entry of [user_data]. *)
Inductive mode : Type :=
| waiting_for_expense
| waiting_for_month.

(** The texts [bot.py] sends, one constructor per literal or template. *)
Inductive reply : Type :=
| WelcomeMenu                     (* "Welcome! Choose an option below:" with the four buttons *)
| Unauthorized                    (* "Unauthorized access!" *)
| AskExpense                      (* "Add New Expense ... Category Amount Note" *)
| AskMonth                        (* "Monthly Summary ... YYYY MM" *)
| BackMenu                        (* "Choose an option:" with the four buttons *)
| AnalyticsMenu                   (* "Analytics Menu ... Choose a visualization:" *)
| UseStart                        (* "Please use /start to see the menu!" *)
| InvalidExpenseFormat            (* "Invalid format! Use: Category Amount Note" *)
| ExpenseAdded (category : string) (amount : Q) (note : string)
| InvalidAmount                   (* "Invalid amount! Please enter a valid number." *)
| InvalidMonthFormat              (* "Invalid format! Use: YYYY MM" *)
| MonthOutOfRange                 (* "Month must be between 1 and 12!" *)
| MonthTotal (year month : Z) (total : Q)
| InvalidYearOrMonth              (* "Invalid year or month! Please enter valid numbers." *)
| ErrorReply (e : exn).           (* "Error: {str(e)}" *)

(** What [expense_tracker.py] prints. *)
Inductive console_line : Type :=
| RequiredFields                  (* "Error: Category and amount are required!" *)
| AttemptingStore                 (* "Attempting to store expense..." *)
| StoredOk                        (* "Successfully stored expense!" and the debug line *)
| NoDataReturned                  (* "Warning: No data returned from insert operation" *)
| DataFormatError                 (* "Error with data format: ..." *)
| StoringError                    (* "Error storing expense: ..." and the debug line *)
| MonthlyTotalLine (year month : Z) (total : Q)
| MonthlyTotalZero (year month : Z)
| MonthlyTotalError.              (* "Error fetching monthly total: ..." and the hint *)

(** The screens of [bot.py] that read all expenses and render them. *)
Inductive report : Type :=
| ShowAllExpenses                 (* show_all_expenses *)
| SendCategoryChart               (* send_category_chart *)
| SendMonthlyChart                (* send_monthly_chart *)
| SendStatistics.                 (* send_statistics *)

Inductive event : Type :=
| Printed (l : console_line)
| StoreInsert (data : row)                    (* supabase.table("labels").insert(data).execute() *)
| StoreMonthlyTotal (year month : Z)          (* supabase.rpc("get_monthly_total", ...).execute() *)
| SendMessage (chat_id : Z) (r : reply)       (* send_message *)
| AnswerCallback (callback_query_id : string) (* answer_callback_query *)
| Rendered (chat_id : Z) (r : report).        (* whatever a report screen reads and sends *)

(** The reply of the remote table to an insert: a response whose [data] is
    non-empty or empty, or an exception. *)
Inductive insert_reply : Type :=
| InsertResponse (has_data : bool)
| InsertFails (e : exn).

(** What lies outside the program during one handler call. *)
Record environment : Type := {
  (** [datetime.datetime.now().isoformat()] *)
  clock_now : string;
  (** the outcome of inserting a row *)
  remote_insert : row -> insert_reply;
  (** the outcome of the [get_monthly_total] call: [None] stands for empty data *)
  remote_monthly_total : Z -> Z -> pyresult (option Q);
  (** whether a report screen ends with an exception *)
  report_outcome : report -> Z -> option exn
}.

(** ** [expense_tracker.py] *)

Module Tracker.

Section WithEnvironment.
Variable env : environment.

(** [store_expense(category, amount, note)]: returns nothing and raises
    nothing; the result is the trace of what it did. *)
Definition store_expense (category : string) (amount : Q) (note : string) : list event :=
  if String.eqb category "" || Qeq_bool amount 0 then
    [Printed RequiredFields]
  else
    let data := {| r_time := clock_now env;
                   r_category := Str.strip category;
                   r_amount := amount;
                   r_note := if String.eqb note "" then "" else Str.strip note |} in
    [Printed AttemptingStore; StoreInsert data] ++
    match remote_insert env data with
    | InsertResponse true => [Printed StoredOk]
    | InsertResponse false => [Printed NoDataReturned]
    | InsertFails ValueError => [Printed DataFormatError]
    | InsertFails _ => [Printed StoringError]
    end.

(** [fetch_monthly_total(year, month)]: the trace and the value returned
    ([None] also when the call failed). *)
Definition fetch_monthly_total (year month : Z) : list event * option Q :=
  match remote_monthly_total env year month with
  | Ok (Some total) =>
      if Qeq_bool total 0
      then ([StoreMonthlyTotal year month; Printed (MonthlyTotalZero year month)], Some total)
      else ([StoreMonthlyTotal year month; Printed (MonthlyTotalLine year month total)], Some total)
  | Ok None =>
      ([StoreMonthlyTotal year month; Printed (MonthlyTotalZero year month)], None)
  | Raise _ =>
      ([StoreMonthlyTotal year month; Printed MonthlyTotalError], None)
  end.

End WithEnvironment.

End Tracker.

(** ** [bot.py] *)

Module Bot.

Definition AUTHORIZED_CHAT_ID : Z := 5515574299.

Definition is_authorized (chat_id : Z) : bool := (chat_id =? AUTHORIZED_CHAT_ID)%Z.

(** [user_data]: chat id to [{'state': mode}]. *)
Abbreviation user_data := (gmap Z mode).

(** [user_data[chat_id] = {'state': m}] *)
Definition set_state (chat_id : Z) (m : mode) (ud : user_data) : user_data :=
  <[chat_id := m]> ud.

(** [user_data[chat_id].get('state')], read under [chat_id in user_data]. *)
Definition get_state (chat_id : Z) (ud : user_data) : option mode :=
  ud !! chat_id.

(** [del user_data[chat_id]]: a missing key raises [KeyError]. *)
Definition del_state (chat_id : Z) (ud : user_data) : pyresult user_data :=
  match ud !! chat_id with
  | Some _ => Ok (delete chat_id ud)
  | None => Raise KeyError
  end.

(** What a handler leaves behind: its trace, the store, and the exception
    that left it, if any. *)
Record handled : Type := {
  h_events : list event;
  h_user_data : user_data;
  h_raised : option exn
}.

Definition returns (evs : list event) (ud : user_data) : handled :=
  {| h_events := evs; h_user_data := ud; h_raised := None |}.

(** [datetime(year, month, 1)] for a month already known to lie in 1..12:
    a year outside the C [int] range is an [OverflowError], one outside
    1..9999 a [ValueError]. *)
Definition datetime_first_day (year month : Z) : pyresult unit :=
  if ((year <? - 2 ^ 31) || (2 ^ 31 - 1 <? year))%Z then Raise OverflowError
  else if ((year <? 1) || (9999 <? year))%Z then Raise ValueError
  else Ok tt.

(** The handler removed the entry of [chat_id] and changed nothing else. *)
Definition cleared (chat_id : Z) (ud : user_data) (h : handled) : Prop :=
  h_user_data h = delete chat_id ud /\ get_state chat_id (h_user_data h) = None.

(** The handler left the store as it was. *)
Definition preserved (ud : user_data) (h : handled) : Prop :=
  h_user_data h = ud.

(** The handler sent [chat_id] a message and returned. *)
Definition replied (chat_id : Z) (h : handled) : Prop :=
  (exists r, In (SendMessage chat_id r) (h_events h)) /\ h_raised h = None.

(** [parts[2] if len(parts) > 2 else ""] *)
Definition note_of (rest : list string) : string :=
  match rest with
  | n :: _ => n
  | [] => ""
  end.

Section Handlers.
Context `{PyBuiltins}.
Variable env : environment.

(** [handle_start(chat_id)] *)
Definition handle_start (chat_id : Z) (ud : user_data) : handled :=
  returns [SendMessage chat_id WelcomeMenu] ud.

(** One of the four report screens. *)
Definition render (r : report) (chat_id : Z) (ud : user_data) : handled :=
  {| h_events := [Rendered chat_id r];
     h_user_data := ud;
     h_raised := report_outcome env r chat_id |}.

(** [handle_callback_query(callback_query_id, chat_id, data)] *)
Definition handle_callback_query (callback_query_id : string) (chat_id : Z)
    (data : string) (ud : user_data) : handled :=
  let ack := AnswerCallback callback_query_id in
  if negb (is_authorized chat_id) then
    returns [ack; SendMessage chat_id Unauthorized] ud
  else if String.eqb data "add_expense" then
    returns [ack; SendMessage chat_id AskExpense] (set_state chat_id waiting_for_expense ud)
  else if String.eqb data "view_expenses" then
    let h := render ShowAllExpenses chat_id ud in
    {| h_events := ack :: h_events h; h_user_data := h_user_data h; h_raised := h_raised h |}
  else if String.eqb data "monthly_summary" then
    returns [ack; SendMessage chat_id AskMonth] (set_state chat_id waiting_for_month ud)
  else if String.eqb data "analytics" then
    returns [ack; SendMessage chat_id AnalyticsMenu] ud
  else if String.eqb data "ana_category" then
    let h := render SendCategoryChart chat_id ud in
    {| h_events := ack :: h_events h; h_user_data := h_user_data h; h_raised := h_raised h |}
  else if String.eqb data "ana_monthly" then
    let h := render SendMonthlyChart chat_id ud in
    {| h_events := ack :: h_events h; h_user_data := h_user_data h; h_raised := h_raised h |}
  else if String.eqb data "ana_stats" then
    let h := render SendStatistics chat_id ud in
    {| h_events := ack :: h_events h; h_user_data := h_user_data h; h_raised := h_raised h |}
  else if String.eqb data "back_menu" then
    returns [ack; SendMessage chat_id BackMenu] ud
  else
    returns [ack] ud.

(** [handle_expense_input(chat_id, text)] *)
Definition handle_expense_input (chat_id : Z) (text : string) (ud : user_data) : handled :=
  match Str.split_max 2 text with
  | category :: amount_text :: rest =>
      match py_float (PStr amount_text) with
      | Ok amount =>
          let note := note_of rest in
          let done :=
            Tracker.store_expense env category amount note
            ++ [SendMessage chat_id (ExpenseAdded category amount note)] in
          match del_state chat_id ud with
          | Ok ud' => returns done ud'
          | Raise e => returns (done ++ [SendMessage chat_id (ErrorReply e)]) ud
          end
      | Raise ValueError => returns [SendMessage chat_id InvalidAmount] ud
      | Raise e => returns [SendMessage chat_id (ErrorReply e)] ud
      end
  | _ => returns [SendMessage chat_id InvalidExpenseFormat] ud
  end.

(** [total if total else 0] *)
Definition total_or_zero (total : option Q) : Q :=
  match total with
  | Some t => if Qeq_bool t 0 then 0 else t
  | None => 0
  end.

(** What follows a failed [int(...)] or [datetime(...)] in
    [handle_month_input]: the two [except] clauses. *)
Definition month_input_failed (chat_id : Z) (before : list event) (e : exn)
    (ud : user_data) : handled :=
  match e with
  | ValueError => returns (before ++ [SendMessage chat_id InvalidYearOrMonth]) ud
  | _ => returns (before ++ [SendMessage chat_id (ErrorReply e)]) ud
  end.

(** [handle_month_input(chat_id, text)] *)
Definition handle_month_input (chat_id : Z) (text : string) (ud : user_data) : handled :=
  match Str.split text with
  | [year_text; month_text] =>
      match py_int year_text with
      | Raise e => month_input_failed chat_id [] e ud
      | Ok year =>
          match py_int month_text with
          | Raise e => month_input_failed chat_id [] e ud
          | Ok month =>
              if negb ((1 <=? month) && (month <=? 12))%Z then
                returns [SendMessage chat_id MonthOutOfRange] ud
              else
                let (fetched, total) := Tracker.fetch_monthly_total env year month in
                match datetime_first_day year month with
                | Raise e => month_input_failed chat_id fetched e ud
                | Ok _ =>
                    let done :=
                      fetched ++ [SendMessage chat_id (MonthTotal year month (total_or_zero total))] in
                    match del_state chat_id ud with
                    | Ok ud' => returns done ud'
                    | Raise e => returns (done ++ [SendMessage chat_id (ErrorReply e)]) ud
                    end
                end
          end
      end
  | _ => returns [SendMessage chat_id InvalidMonthFormat] ud
  end.

(** [handle_text_message(chat_id, text)] *)
Definition handle_text_message (chat_id : Z) (text : string) (ud : user_data) : handled :=
  if negb (is_authorized chat_id) then
    returns [SendMessage chat_id Unauthorized] ud
  else
    match get_state chat_id ud with
    | Some waiting_for_expense => handle_expense_input chat_id text ud
    | Some waiting_for_month => handle_month_input chat_id text ud
    | None => returns [SendMessage chat_id UseStart] ud
    end.

End Handlers.

(** What an update carries: a message (with or without text), a button
    press, or neither. *)
Inductive content : Type :=
| Message (chat_id : Z) (text : option string)
| CallbackQuery (callback_query_id : string) (chat_id : Z) (data : string)
| OtherContent.

Record update : Type := {
  update_id : Z;
  u_content : content
}.


(** The body of [for update in updates] after the cursor assignment. *)
Definition handle_update `{PyBuiltins} (env : environment) (u : update)
    (ud : user_data) : handled :=
  match u_content u with
  | Message chat_id (Some text) =>
      if String.eqb text "/start" then handle_start chat_id ud
      else handle_text_message env chat_id text ud
  | Message _ None => returns [] ud
  | CallbackQuery callback_query_id chat_id data =>
      handle_callback_query env callback_query_id chat_id data ud
  | OtherContent => returns [] ud
  end.

(** The state of [main]: the cursor [last_update_id], the conversation
    store, what was done so far, and (for the proofs) the identifiers of the
    updates whose iteration has begun, in order. *)
Record bot : Type := {
  last_update_id : option Z;
  store : user_data;
  trace : list event;
  processed : list Z
}.

Definition initial : bot :=
  {| last_update_id := None; store := ∅; trace := []; processed := [] |}.

(** [for update in updates]: the cursor is moved first, then the update is
    handled; an exception leaves the loop (it is caught by the [except] of
    [while True]) and the rest of the batch is not looked at. [world] gives
    the environment met while an update is handled. *)
Fixpoint for_updates `{PyBuiltins} (world : Z -> environment)
    (updates : list update) (b : bot) : bot :=
  match updates with
  | [] => b
  | u :: rest =>
      let h := handle_update (world (update_id u)) u (store b) in
      let b' := {| last_update_id := Some (update_id u + 1)%Z;
                   store := h_user_data h;
                   trace := trace b ++ h_events h;
                   processed := processed b ++ [update_id u] |} in
      match h_raised h with
      | None => for_updates world rest b'
      | Some _ => b'
      end
  end.

(** Modelled from the spec: the chat transport, which is not part of the
    repository. A fetch with cursor [offset] returns an ordered batch of
    updates whose identifiers are at least [offset] (strictly after the
    identifier last seen); a fetch without a cursor returns any ordered
    batch. *)
Definition delivers (offset : option Z) (updates : list update) : Prop :=
  StronglySorted Z.lt (map update_id updates) /\
  match offset with
  | Some o => Forall (fun u => (o <= update_id u)%Z) updates
  | None => True
  end.

(** One turn of [while True]. *)
Inductive step `{PyBuiltins} : bot -> bot -> Prop :=
| step_batch (b : bot) (world : Z -> environment) (updates : list update) :
    (* get_updates(last_update_id) answered "ok" with [updates] *)
    delivers (last_update_id b) updates ->
    step b (for_updates world updates b)
| step_retry (b : bot) :
    (* the answer was not "ok", or get_updates raised *)
    step b b.

Definition reachable `{PyBuiltins} (b : bot) : Prop := rtc step initial b.

(** The cursor is one past the last identifier taken up, the identifiers
    taken up so far are in strictly increasing order, and before the first
    one there is no cursor. *)
Definition cursor_follows (b : bot) : Prop :=
  StronglySorted Z.lt (processed b)
  /\ last_update_id b = (fun i => (i + 1)%Z) <$> last (processed b).

(** The labels and sizes [send_category_chart] hands to [ax.pie], from the
    category totals [process_data] returned. *)
Definition send_category_chart (category_totals : Ana.totals) : list string * list Q :=
  let categories_sorted := Ana.sorted_desc category_totals in
  let labels := map fst (take 5 categories_sorted) in
  let sizes := map snd (take 5 categories_sorted) in
  if (5 <? length categories_sorted)%nat then
    let other_sum := Ana.py_sum (map snd (drop 5 categories_sorted)) in
    (labels ++ ["Other"], sizes ++ [other_sum])
  else
    (labels, sizes).

End Bot.

(** ** Reading the aggregates: statistics and the monthly series *)

Module Summary.

(** [d[k]] on a [defaultdict(float)], for reading: the value of the bucket,
    [0.0] for a key that has none. *)
Fixpoint get_total (k : string) (d : Ana.totals) : Q :=
  match d with
  | [] => 0
  | (k', v) :: d' => if String.eqb k' k then v else get_total k d'
  end.

(** The distinct elements of a list, each at the place of its first
    occurrence: the order in which a dict meets its keys. *)
Fixpoint first_occurrences (ks : list string) : list string :=
  match ks with
  | [] => []
  | k :: ks' => k :: List.filter (fun k' => negb (String.eqb k' k)) (first_occurrences ks')
  end.

(** The buckets after a run of [d[k] += a], one per pair. *)
Definition feed (ps : list (string * Q)) (d : Ana.totals) : Ana.totals :=
  fold_left (fun d p => Ana.add_total (fst p) (snd p) d) ps d.

(** [k in ks] *)
Definition mem (k : string) (ks : list string) : bool :=
  existsb (String.eqb k) ks.

(** [max(d.items(), key=lambda x: x[1])]: Python keeps the first item and
    replaces it only by an item whose key is strictly larger. *)
Fixpoint max_item_from (best : string * Q) (items : Ana.totals) : string * Q :=
  match items with
  | [] => best
  | x :: items' =>
      max_item_from (if Qle_bool (snd x) (snd best) then best else x) items'
  end.

(** [max(category_totals.items(), key=lambda x: x[1])[0]]; [None] stands for
    the [ValueError] of an empty dict. *)
Definition top_category (category_totals : Ana.totals) : option string :=
  match category_totals with
  | [] => None
  | x :: items => Some (fst (max_item_from x items))
  end.

(** [max(xs)] and [min(xs)] on numbers; [None] stands for the [ValueError]
    of an empty list. *)
Fixpoint max_from (best : Q) (xs : list Q) : Q :=
  match xs with
  | [] => best
  | x :: xs' => max_from (if Qle_bool x best then best else x) xs'
  end.

Fixpoint min_from (best : Q) (xs : list Q) : Q :=
  match xs with
  | [] => best
  | x :: xs' => min_from (if Qle_bool best x then best else x) xs'
  end.

Definition py_max (xs : list Q) : option Q :=
  match xs with
  | [] => None
  | x :: xs' => Some (max_from x xs')
  end.

Definition py_min (xs : list Q) : option Q :=
  match xs with
  | [] => None
  | x :: xs' => Some (min_from x xs')
  end.

(** The six figures of [send_statistics]. *)
Record statistics : Type := {
  total : Q;                 (* sum(amounts) *)
  average : Q;               (* sum(amounts)/len(amounts) *)
  maximum : Q;               (* max(amounts) *)
  minimum : Q;               (* min(amounts) *)
  transactions : nat;        (* len(amounts) *)
  top : string               (* the key of the largest category total *)
}.

(** The figures [send_statistics] formats, in the order the f-string
    computes them; [None] when one of them raises (a division by zero or a
    [max]/[min] of nothing), which the handler reports as an error. *)
Definition statistics_of (amounts : list Q) (category_totals : Ana.totals)
    : option statistics :=
  match amounts with
  | [] => None
  | _ :: _ =>
      match py_max amounts, py_min amounts, top_category category_totals with
      | Some hi, Some lo, Some cat =>
          Some {| total := Ana.py_sum amounts;
                  average := Ana.py_sum amounts / inject_Z (Z.of_nat (length amounts));
                  maximum := hi;
                  minimum := lo;
                  transactions := length amounts;
                  top := cat |}
      | _, _, _ => None
      end
  end.

(** [sorted(keys)] on strings: ascending by code points. *)
Fixpoint insert_asc (x : string) (l : list string) : list string :=
  match l with
  | [] => [x]
  | y :: l' => if String.ltb y x then y :: insert_asc x l' else x :: y :: l'
  end.

Fixpoint sorted_asc (l : list string) : list string :=
  match l with
  | [] => []
  | x :: l' => insert_asc x (sorted_asc l')
  end.

(** [months = sorted(monthly_totals.keys())] and
    [values = [monthly_totals[m] for m in months]], as [plot_monthly_trend]
    and [send_monthly_chart] compute them. *)
Definition monthly_series (monthly_totals : Ana.totals) : list string * list Q :=
  let months := sorted_asc (map fst monthly_totals) in
  (months, map (fun m => get_total m monthly_totals) months).

(** What one iteration of the loop of [process_data] prints for a record. *)
Definition item_lines `{PyBuiltins} (DEBUG : bool) (item : raw_record)
    : list Ana.log_line :=
  match Ana.validate item with
  | (warn, Ok _) => warn
  | (warn, Raise e) => warn ++ Ana.report_skip DEBUG item e
  end.

(** The lines that are warnings about a negative amount. *)
Definition is_warning (l : Ana.log_line) : bool :=
  match l with
  | Ana.WarningNegative _ => true
  | _ => false
  end.

End Summary.

(** ** Watching the dispatcher *)

Module Watch.

(** The chat an update comes from. *)
Definition sender (u : Bot.update) : option Z :=
  match Bot.u_content u with
  | Bot.Message chat_id _ => Some chat_id
  | Bot.CallbackQuery _ chat_id _ => Some chat_id
  | Bot.OtherContent => None
  end.

(** The events that reach the remote table. *)
Definition touches_table (e : event) : bool :=
  match e with
  | StoreInsert _ | StoreMonthlyTotal _ _ | Rendered _ _ => true
  | Printed _ | SendMessage _ _ | AnswerCallback _ => false
  end.

(** Only the authorized chat has an entry in the store. *)
Definition only_authorized (ud : Bot.user_data) : Prop :=
  forall chat_id m, ud !! chat_id = Some m -> chat_id = Bot.AUTHORIZED_CHAT_ID.

(** The cursor [c1] is not after [c2]; no cursor comes before any. *)
Definition cursor_le (c1 c2 : option Z) : Prop :=
  match c1, c2 with
  | None, _ => True
  | Some _, None => False
  | Some a, Some b => (a <= b)%Z
  end.

End Watch.

(** ** The report screens: [fetch_all_expenses] and what [bot.py] shows *)

Module Reader.

(** What the report screens meet outside the repository: the answer of the
    remote table to the select, two more library functions, and the plotting
    backend. *)
Inductive chart : Type :=
| PieChart (labels : list string) (sizes : list Q)       (* ax.pie(sizes, labels=labels, ...) *)
| LineChart (months : list string) (values : list Q).    (* ax.plot(months, values, ...) *)

Record surroundings `{PyBuiltins} : Type := {
  (** the [data] of [supabase.table("labels").select("*").order(...).execute()],
      or the exception it raises *)
  select_all : pyresult (list raw_record);
  (** [format(v, ',.2f')] *)
  format_2f : pyval -> pyresult string;
  (** [d.strftime("%d %b %Y")] *)
  strftime_day : date -> string;
  (** the exception raised while a chart is drawn and saved, if any *)
  draw : chart -> option exn
}.

(** What [fetch_all_expenses] prints. *)
Inductive fetch_line : Type :=
| AllExpensesHeader                (* "--- All Expenses ---" *)
| RowId (v : pyval)                (* "ID: ..." *)
| RowTime (v : pyval)              (* "  Time: ..." *)
| RowCategory (v : pyval)          (* "  Category: ..." *)
| RowAmount (text : string)        (* "  Amount: ..." *)
| RowNote (v : pyval)              (* "  Note: ..." *)
| NoExpensesLine                   (* "No expenses found." *)
| FetchFailedLine.                 (* "Error fetching expenses: ..." *)

(** One expense as [show_all_expenses] lists it. *)
Record listed : Type := {
  l_date : string;
  l_category : pyval;
  l_amount : string;
  l_note : pyval                   (* its line is left out when the note is falsy *)
}.

(** What a report screen can catch: an exception of the builtins, or the
    division by zero of an average over no amounts. *)
Inductive failure : Type :=
| Builtin (e : exn)
| ZeroDivisionError.

(** The texts of the report screens. *)
Inductive report_reply : Type :=
| NoExpensesFound                                   (* "No expenses found!" *)
| RecentExpenses (rows : list listed) (total : string)
| GeneratingCategoryChart                           (* "Generating category chart..." *)
| GeneratingMonthlyTrend                            (* "Generating monthly trend..." *)
| NoDataAvailable                                   (* "No data available!" *)
| ErrorGeneratingChart (e : exn)                    (* "Error generating chart: ..." *)
| StatisticsText (total average maximum minimum : string)
                 (transactions : nat) (top : string)
| ErrorGeneratingStatistics (e : failure).          (* "Error generating statistics: ..." *)

Inductive report_event : Type :=
| SelectAll                                         (* the select on the remote table *)
| Console (l : fetch_line)                          (* a line of fetch_all_expenses *)
| Logged (l : Ana.log_line)                         (* a line of process_data *)
| Say (chat_id : Z) (r : report_reply)              (* send_message *)
| Photo (chat_id : Z) (c : chart).                  (* send_photo *)

(** [int] and [bool] values as integers, and all numbers as rationals. *)
Definition as_int (v : pyval) : option Z :=
  match v with
  | PInt z => Some z
  | PBool b => Some (if b then 1 else 0)%Z
  | _ => None
  end.

Definition as_number (v : pyval) : option Q :=
  match v with
  | PInt z => Some (inject_Z z)
  | PBool b => Some (if b then 1 else 0)
  | PFloat q => Some q
  | _ => None
  end.

(** [a + b] on two column values: integers add to an integer, numbers to a
    float, anything else is a [TypeError]. *)
Definition py_add (a b : pyval) : pyresult pyval :=
  match as_int a, as_int b with
  | Some x, Some y => Ok (PInt (x + y))
  | _, _ =>
      match as_number a, as_number b with
      | Some x, Some y => Ok (PFloat (x + y))
      | _, _ => Raise TypeError
      end
  end.

(** The amount of a row, as a number. *)
Definition amount_is (row : raw_record) (a : Q) : Prop :=
  exists v, row !! "amount" = Some v /\ as_number v = Some a.

Section Screens.
Context `{PyBuiltins}.
Variable world : surroundings.

(** [format_inr(amount)] *)
Definition format_inr (amount : pyval) : pyresult string :=
  match format_2f world amount with
  | Ok digits => Ok ("₹" +:+ digits)
  | Raise e => Raise e
  end.

(** The five [print]s for one row in [fetch_all_expenses]: the lines that
    came out and the exception that stopped them, if any. *)
Definition print_row (row : raw_record) : list fetch_line * option exn :=
  match row !! "label" with
  | None => ([], Some KeyError)
  | Some label =>
  match row !! "time" with
  | None => ([RowId label], Some KeyError)
  | Some time =>
  match row !! "category" with
  | None => ([RowId label; RowTime time], Some KeyError)
  | Some category =>
  match row !! "amount" with
  | None => ([RowId label; RowTime time; RowCategory category], Some KeyError)
  | Some amount =>
  match format_inr amount with
  | Raise e => ([RowId label; RowTime time; RowCategory category], Some e)
  | Ok text =>
  match row !! "note" with
  | None =>
      ([RowId label; RowTime time; RowCategory category; RowAmount text], Some KeyError)
  | Some note =>
      ([RowId label; RowTime time; RowCategory category; RowAmount text; RowNote note],
       None)
  end end end end end end.

(** [for row in response.data], up to the first exception. *)
Fixpoint print_rows (rows : list raw_record) : list fetch_line * option exn :=
  match rows with
  | [] => ([], None)
  | row :: rest =>
      match print_row row with
      | (lines, Some e) => (lines, Some e)
      | (lines, None) =>
          let (more, raised) := print_rows rest in (lines ++ more, raised)
      end
  end.

(** [fetch_all_expenses()]: what it did, and [response.data] or [None]. *)
Definition fetch_all_expenses : list report_event * option (list raw_record) :=
  match select_all world with
  | Raise _ => ([SelectAll; Console FetchFailedLine], None)
  | Ok [] => ([SelectAll; Console AllExpensesHeader; Console NoExpensesLine], Some [])
  | Ok data =>
      match print_rows data with
      | (lines, None) =>
          (SelectAll :: Console AllExpensesHeader :: map Console lines, Some data)
      | (lines, Some _) =>
          (SelectAll :: Console AllExpensesHeader :: map Console lines
           ++ [Console FetchFailedLine], None)
      end
  end.

(** A row all of whose five prints succeed. *)
Definition printable (row : raw_record) : bool :=
  match row !! "label", row !! "time", row !! "category", row !! "amount", row !! "note" with
  | Some _, Some _, Some _, Some amount, Some _ =>
      match format_inr amount with Ok _ => true | Raise _ => false end
  | _, _, _, _, _ => false
  end.

(** One turn of the loop of [show_all_expenses]: the entry listed and the
    running total. *)
Definition list_row (expense : raw_record) (total : pyval) : pyresult (listed * pyval) :=
  match expense !! "time" with
  | None => Raise KeyError
  | Some (PStr t) =>
      match fromisoformat (Str.before "T" t) with
      | Raise e => Raise e
      | Ok d =>
          match expense !! "category" with
          | None => Raise KeyError
          | Some category =>
              match expense !! "amount" with
              | None => Raise KeyError
              | Some amount =>
                  match format_inr amount with
                  | Raise e => Raise e
                  | Ok text =>
                      match expense !! "note" with
                      | None => Raise KeyError
                      | Some note =>
                          match py_add total amount with
                          | Raise e => Raise e
                          | Ok total' =>
                              Ok ({| l_date := strftime_day world d;
                                     l_category := category;
                                     l_amount := text;
                                     l_note := note |}, total')
                          end
                      end
                  end
              end
          end
      end
  | Some _ => Raise AttributeError
  end.

(** [for expense in expenses[:10]], from the entries and total so far. *)
Fixpoint list_rows (expenses : list raw_record) (shown : list listed) (total : pyval)
    : pyresult (list listed * pyval) :=
  match expenses with
  | [] => Ok (shown, total)
  | expense :: rest =>
      match list_row expense total with
      | Raise e => Raise e
      | Ok (entry, total') => list_rows rest (shown ++ [entry]) total'
      end
  end.

(** [show_all_expenses(chat_id)]: it has no [try] of its own, so what a row
    raises leaves the function. *)
Definition show_all_expenses (chat_id : Z) : list report_event * option exn :=
  let (fetched, expenses) := fetch_all_expenses in
  match expenses with
  | None | Some [] => (fetched ++ [Say chat_id NoExpensesFound], None)
  | Some expenses =>
      match list_rows (take 10 expenses) [] (PInt 0) with
      | Raise e => (fetched, Some e)
      | Ok (shown, total) =>
          match format_inr total with
          | Raise e => (fetched, Some e)
          | Ok text => (fetched ++ [Say chat_id (RecentExpenses shown text)], None)
          end
      end
  end.

(** The body of the [try] of a chart screen after its first message, as far
    as the photo: the events, and the exception that ended it early. *)
Definition chart_screen (chat_id : Z) (plot : Ana.aggregates -> chart)
    : list report_event * option exn :=
  let (fetched, all_data) := fetch_all_expenses in
  match all_data with
  | None | Some [] => (fetched ++ [Say chat_id NoDataAvailable], None)
  | Some all_data =>
      match Ana.process_data false all_data with
      | (log, Raise e) => (fetched ++ map Logged log, Some e)
      | (log, Ok agg) =>
          match draw world (plot agg) with
          | Some e => (fetched ++ map Logged log, Some e)
          | None => (fetched ++ map Logged log ++ [Photo chat_id (plot agg)], None)
          end
      end
  end.

(** The pie [send_category_chart] draws from the aggregates. *)
Definition category_pie (agg : Ana.aggregates) : chart :=
  let (labels, sizes) := Bot.send_category_chart (Ana.category_totals agg) in
  PieChart labels sizes.

(** The line [send_monthly_chart] draws from the aggregates. *)
Definition monthly_line (agg : Ana.aggregates) : chart :=
  let (months, values) := Summary.monthly_series (Ana.monthly_totals agg) in
  LineChart months values.

(** [send_category_chart(chat_id)] *)
Definition send_category_chart (chat_id : Z) : list report_event :=
  match chart_screen chat_id category_pie with
  | (done, None) => Say chat_id GeneratingCategoryChart :: done
  | (done, Some e) =>
      Say chat_id GeneratingCategoryChart :: done ++ [Say chat_id (ErrorGeneratingChart e)]
  end.

(** [send_monthly_chart(chat_id)] *)
Definition send_monthly_chart (chat_id : Z) : list report_event :=
  match chart_screen chat_id monthly_line with
  | (done, None) => Say chat_id GeneratingMonthlyTrend :: done
  | (done, Some e) =>
      Say chat_id GeneratingMonthlyTrend :: done ++ [Say chat_id (ErrorGeneratingChart e)]
  end.

(** [sum(amounts)] as a value: the integer [0] it starts from when there
    is nothing to add. *)
Definition sum_value (amounts : list Q) : pyval :=
  match amounts with
  | [] => PInt 0
  | _ :: _ => PFloat (Ana.py_sum amounts)
  end.

(** The f-string of [send_statistics]: the figures are computed and
    formatted from left to right, and the first one that raises ends it. *)
Definition statistics_text (amounts : list Q) (category_totals : Ana.totals)
    : report_reply + failure :=
  match format_inr (sum_value amounts) with
  | Raise e => inr (Builtin e)
  | Ok total =>
  match amounts with
  | [] => inr ZeroDivisionError
  | _ :: _ =>
  match format_inr (PFloat (Ana.py_sum amounts / inject_Z (Z.of_nat (length amounts)))) with
  | Raise e => inr (Builtin e)
  | Ok average =>
  match Summary.py_max amounts with
  | None => inr (Builtin ValueError)
  | Some hi =>
  match format_inr (PFloat hi) with
  | Raise e => inr (Builtin e)
  | Ok maximum =>
  match Summary.py_min amounts with
  | None => inr (Builtin ValueError)
  | Some lo =>
  match format_inr (PFloat lo) with
  | Raise e => inr (Builtin e)
  | Ok minimum =>
  match Summary.top_category category_totals with
  | None => inr (Builtin ValueError)
  | Some top =>
      inl (StatisticsText total average maximum minimum (length amounts) top)
  end end end end end end end end.

(** [send_statistics(chat_id)] *)
Definition send_statistics (chat_id : Z) : list report_event :=
  let (fetched, all_data) := fetch_all_expenses in
  match all_data with
  | None | Some [] => fetched ++ [Say chat_id NoDataAvailable]
  | Some all_data =>
      match Ana.process_data false all_data with
      | (log, Raise e) =>
          fetched ++ map Logged log
          ++ [Say chat_id (ErrorGeneratingStatistics (Builtin e))]
      | (log, Ok agg) =>
          match statistics_text (Ana.amounts agg) (Ana.category_totals agg) with
          | inr e => fetched ++ map Logged log ++ [Say chat_id (ErrorGeneratingStatistics e)]
          | inl text => fetched ++ map Logged log ++ [Say chat_id text]
          end
      end
  end.

(** What a listed entry shows of its row. *)
Definition shows (row : raw_record) (entry : listed) : Prop :=
  row !! "category" = Some (l_category entry)
  /\ row !! "note" = Some (l_note entry)
  /\ exists amount,
       row !! "amount" = Some amount /\ format_inr amount = Ok (l_amount entry).

(** The outcome of a chart screen, after its first message: no data, the
    photo of the chart of the aggregates, or the error that was caught. *)
Definition chart_outcome (chat_id : Z) (plot : Ana.aggregates -> chart)
    (r : report_event) : Prop :=
  match r with
  | Say c NoDataAvailable =>
      c = chat_id
      /\ (snd fetch_all_expenses = None \/ snd fetch_all_expenses = Some [])
  | Say c (ErrorGeneratingChart e) =>
      c = chat_id
      /\ exists all_data,
          snd fetch_all_expenses = Some all_data /\ all_data <> []
          /\ (snd (Ana.process_data false all_data) = Raise e
              \/ exists agg, snd (Ana.process_data false all_data) = Ok agg
                             /\ draw world (plot agg) = Some e)
  | Photo c drawn =>
      c = chat_id
      /\ exists all_data agg,
          snd fetch_all_expenses = Some all_data
          /\ snd (Ana.process_data false all_data) = Ok agg
          /\ drawn = plot agg
          /\ draw world drawn = None
  | _ => False
  end.

End Screens.

(** How often the remote table was asked. *)
Definition selects (evs : list report_event) : nat :=
  length (List.filter (fun e => match e with SelectAll => true | _ => false end) evs).

(** A row has the three fields [process_data] requires. *)
Definition has_required_fields (row : raw_record) : Prop :=
  is_Some (row !! "amount") /\ is_Some (row !! "time") /\ is_Some (row !! "category").

(** The messages and photos among the events, in order. *)
Definition is_sent (e : report_event) : bool :=
  match e with
  | Say _ _ | Photo _ _ => true
  | SelectAll | Console _ | Logged _ => false
  end.

Definition sent (evs : list report_event) : list report_event :=
  List.filter is_sent evs.

End Reader.

(** ** The console menu of [expense_tracker.py] *)

Module Menu.

(** The prompts of the [input()] calls of [main]. *)
Inductive prompt : Type :=
| EnterChoice                      (* "Enter your choice (1-5): " *)
| EnterCategory                    (* "Enter category (e.g., Food, Transport): " *)
| EnterAmount                      (* "Enter amount: " *)
| EnterNote                        (* "Enter a note (optional): " *)
| EnterUpdateId                    (* "Enter the ID (label) of the expense to update: " *)
| EnterNewCategory                 (* "Enter new category (or press Enter to skip): " *)
| EnterNewAmount                   (* "Enter new amount (or press Enter to skip): " *)
| EnterNewNote                     (* "Enter new note (or press Enter to skip): " *)
| EnterYear                        (* "Enter year (YYYY): " *)
| EnterMonth.                      (* "Enter month (1-12): " *)

(** What [main] and [update_expense] print themselves. *)
Inductive menu_line : Type :=
| MenuText                         (* the title and the five choices *)
| AmountMustBeNumber               (* "Error: Amount must be a valid number!" *)
| WhatFields                       (* "What fields do you want to update?" and the hint *)
| InvalidAmountSkipped             (* "Invalid amount format. Skipping amount update." *)
| NoChangesRequested               (* "No changes requested." *)
| UpdatedOk (label_id : string)    (* "Successfully updated expense ID ..." *)
| UpdateError                      (* "Error updating expense: ..." *)
| GetTotalHeader                   (* "Get Total for a Specific Month" *)
| MonthOutOfRange                  (* "Error: Month must be between 1 and 12!" *)
| InvalidNumbers                   (* "Error: Please enter valid numbers for year and month!" *)
| Exiting                          (* "Exiting..." *)
| InvalidChoice                    (* "Invalid choice. Please enter a number between 1 and 5." *)
| UnexpectedError.                 (* "An unexpected error occurred: ..." and "Please try again." *)

(** [new_data]: the dict of changes, in insertion order. *)
Definition changes : Type := list (string * pyval).

Inductive menu_event : Type :=
| Shown (l : menu_line)                              (* print *)
| Asked (p : prompt)                                 (* the prompt of an input() *)
| Tracked (e : event)                                (* done by store_expense or fetch_monthly_total *)
| Listed (e : Reader.report_event)                   (* done by fetch_all_expenses *)
| StoreUpdate (label_id : string) (new_data : changes).
                       (* supabase.table("labels").update(new_data).eq("label", label_id).execute() *)

(** What ends a statement early: an exception of the builtins, or the
    [EOFError] of [input()] when nothing is left to read. *)
Inductive interrupt : Type :=
| Builtin (e : exn)
| EOFError.

(** A piece of [main]: from the lines still to be typed, what it did, the
    lines left, and its value or the exception that ended it. *)
Definition script (A : Type) : Type :=
  list string -> list menu_event * list string * (A + interrupt).

#[export] Instance script_ret : MRet script :=
  fun A a ins => ([], ins, inl a).

#[export] Instance script_bind : MBind script :=
  fun A B f m ins =>
    match m ins with
    | (evs, ins', inl a) =>
        match f a ins' with
        | (evs', ins'', r) => (evs ++ evs', ins'', r)
        end
    | (evs, ins', inr e) => (evs, ins', inr e)
    end.

(** [print(...)] *)
Definition print (l : menu_line) : script unit :=
  fun ins => ([Shown l], ins, inl tt).

(** [input(prompt)] *)
Definition input (p : prompt) : script string :=
  fun ins =>
    match ins with
    | [] => ([Asked p], [], inr EOFError)
    | line :: rest => ([Asked p], rest, inl line)
    end.

(** The events of a call that returns nothing and raises nothing. *)
Definition emit (evs : list menu_event) : script unit :=
  fun ins => (evs, ins, inl tt).

(** The value of a builtin, or its exception. *)
Definition lift {A : Type} (r : pyresult A) : script A :=
  fun ins =>
    match r with
    | Ok a => ([], ins, inl a)
    | Raise e => ([], ins, inr (Builtin e))
    end.

(** [try: m except ValueError: handler] *)
Definition except_ValueError {A : Type} (m handler : script A) : script A :=
  fun ins =>
    match m ins with
    | (evs, ins', inr (Builtin ValueError)) =>
        match handler ins' with
        | (evs', ins'', r) => (evs ++ evs', ins'', r)
        end
    | done => done
    end.

(** [try: m except Exception: handler] *)
Definition except_Exception {A : Type} (m handler : script A) : script A :=
  fun ins =>
    match m ins with
    | (evs, ins', inr _) =>
        match handler ins' with
        | (evs', ins'', r) => (evs ++ evs', ins'', r)
        end
    | done => done
    end.

(** What lies outside the program during one turn of the menu. *)
Record console `{PyBuiltins} : Type := {
  (** the clock and the remote table, for [store_expense] and [fetch_monthly_total] *)
  tracker_env : environment;
  (** the remote table and the formatting, for [fetch_all_expenses] *)
  reader_world : Reader.surroundings;
  (** the exception the update of a row raises, if any *)
  remote_update : string -> changes -> option exn
}.

Section Turn.
Context `{PyBuiltins}.
Variable w : console.

(** [update_expense(label_id, new_data)] *)
Definition update_expense (label_id : string) (new_data : changes) : script unit :=
  match remote_update w label_id new_data with
  | None => emit [StoreUpdate label_id new_data; Shown (UpdatedOk label_id)]
  | Some _ => emit [StoreUpdate label_id new_data; Shown UpdateError]
  end.

(** The branch [choice == '1'] of [main]. *)
Definition add_expense : script unit :=
  except_ValueError
    (category ← input EnterCategory;
     amount_text ← input EnterAmount;
     amount ← lift (py_float (PStr amount_text));
     note ← input EnterNote;
     emit (map Tracked
             (Tracker.store_expense (tracker_env w) (Str.strip category) amount
                (Str.strip note))))
    (print AmountMustBeNumber).

(** The branch [choice == '2']. *)
Definition view_expenses : script unit :=
  emit (map Listed (fst (Reader.fetch_all_expenses (reader_world w)))).

(** The branch [choice == '3']. *)
Definition change_expense : script unit :=
  label_id ← input EnterUpdateId;
  print WhatFields;;
  new_category ← input EnterNewCategory;
  let with_category : changes :=
    if String.eqb new_category "" then [] else [("category", PStr new_category)] in
  new_amount ← input EnterNewAmount;
  with_amount ←
    (if String.eqb new_amount "" then mret with_category
     else
       except_ValueError
         (amount ← lift (py_float (PStr new_amount));
          mret (with_category ++ [("amount", PFloat amount)]))
         (print InvalidAmountSkipped;; mret with_category));
  new_note ← input EnterNewNote;
  let new_data : changes :=
    if String.eqb new_note "" then with_amount else with_amount ++ [("note", PStr new_note)] in
  match new_data with
  | [] => print NoChangesRequested
  | _ :: _ => update_expense label_id new_data
  end.

(** The branch [choice == '4']. *)
Definition month_total : script unit :=
  except_ValueError
    (print GetTotalHeader;;
     year_text ← input EnterYear;
     year ← lift (py_int year_text);
     month_text ← input EnterMonth;
     month ← lift (py_int month_text);
     if (1 <=? month)%Z && (month <=? 12)%Z
     then emit (map Tracked (fst (Tracker.fetch_monthly_total (tracker_env w) year month)))
     else print MonthOutOfRange)
    (print InvalidNumbers).

(** The body of the loop of [main] after the choice is read: [true] when it
    ends with [break]. *)
Definition turn (choice : string) : script bool :=
  except_Exception
    (if String.eqb choice "1" then add_expense;; mret false
     else if String.eqb choice "2" then view_expenses;; mret false
     else if String.eqb choice "3" then change_expense;; mret false
     else if String.eqb choice "4" then month_total;; mret false
     else if String.eqb choice "5" then print Exiting;; mret true
     else print InvalidChoice;; mret false)
    (print UnexpectedError;; mret false).

End Turn.

(** How [main] ends. *)
Inductive ending : Type :=
| Returned
| Raised (e : interrupt).

(** [while True: ...], at most [fuel] times; [outside n] is the world during
    turn [n]. *)
Fixpoint menu_loop `{PyBuiltins} (outside : nat -> console) (fuel n : nat)
    (ins : list string) : option (list menu_event * ending) :=
  match fuel with
  | O => None
  | S fuel' =>
      match (print MenuText;; input EnterChoice) ins with
      | (evs, _, inr e) => Some (evs, Raised e)
      | (evs, ins', inl choice) =>
          match turn (outside n) choice ins' with
          | (evs', _, inr e) => Some (evs ++ evs', Raised e)
          | (evs', _, inl true) => Some (evs ++ evs', Returned)
          | (evs', ins'', inl false) =>
              match menu_loop outside fuel' (S n) ins'' with
              | Some (rest, e) => Some (evs ++ evs' ++ rest, e)
              | None => None
              end
          end
      end
  end.

(** [main()] on the lines typed: every turn reads at least its choice, so
    one turn more than there are lines is enough. *)
Definition main `{PyBuiltins} (outside : nat -> console) (ins : list string)
    : option (list menu_event * ending) :=
  menu_loop outside (S (length ins)) 0 ins.

(** A piece of [main] all of whose events satisfy [P], that reads lines only
    from the front, and whose value satisfies [Q]. *)
Definition meets {A : Type} (P : menu_event -> Prop) (Q : A -> Prop) (m : script A) : Prop :=
  forall ins,
    Forall P (m ins).1.1
    /\ (m ins).1.2 `suffix_of` ins
    /\ match (m ins).2 with inl a => Q a | inr _ => True end.

(** A month asked of the remote table lies between 1 and 12. *)
Definition month_in_range (ev : menu_event) : Prop :=
  match ev with
  | Tracked (StoreMonthlyTotal _ month) => (1 <= month <= 12)%Z
  | _ => True
  end.

(** One entry of [new_data]: a text that is not empty under ["category"] or
    ["note"], a number under ["amount"]. *)
Definition is_change (kv : string * pyval) : Prop :=
  match kv.2 with
  | PStr s => (kv.1 = "category" \/ kv.1 = "note") /\ s <> ""
  | PFloat _ => kv.1 = "amount"
  | _ => False
  end.

(** Changes as [main] builds them: a selection of the three keys, in their
    order, each with a value of its kind. *)
Definition well_formed (new_data : changes) : Prop :=
  sublist (map fst new_data) ["category"; "amount"; "note"]
  /\ Forall is_change new_data.

(** The changes [main] has collected after the first two questions. *)
Definition half_built (d : changes) : Prop :=
  exists c a,
    d = c ++ a
    /\ (c = [] \/ exists s, s <> "" /\ c = [("category", PStr s)])
    /\ (a = [] \/ exists q, a = [("amount", PFloat q)]).

(** An update sent to the remote table carries at least one change. *)
Definition carries_a_change (ev : menu_event) : Prop :=
  match ev with
  | StoreUpdate _ new_data => new_data <> [] /\ well_formed new_data
  | _ => True
  end.

(** A row inserted has a category, trimmed, an amount that is not zero and a
    trimmed note. *)
Definition inserts_a_full_row (ev : menu_event) : Prop :=
  match ev with
  | Tracked (StoreInsert data) =>
      r_category data <> ""
      /\ Str.strip (r_category data) = r_category data
      /\ ~ r_amount data == 0
      /\ Str.strip (r_note data) = r_note data
  | _ => True
  end.

(** [P] holds of everything a turn that goes on can do: of every line but
    the farewell, of every prompt, of what the three functions of the
    tracker do, and of every update that carries well-formed changes. *)
Definition upheld (P : menu_event -> Prop) : Prop :=
  (forall l, l <> Exiting -> P (Shown l))
  /\ (forall p, P (Asked p))
  /\ (forall e, P (Listed e))
  /\ (forall env category amount note,
        Forall P (map Tracked
                    (Tracker.store_expense env (Str.strip category) amount
                       (Str.strip note))))
  /\ (forall env year month, (1 <= month <= 12)%Z ->
        Forall P (map Tracked (fst (Tracker.fetch_monthly_total env year month))))
  /\ (forall label_id new_data, new_data <> [] -> well_formed new_data ->
        P (StoreUpdate label_id new_data)).

End Menu.

(** ** The console menu of [ana.py] *)

Module Analytics.

(** The four displays of the menu. *)
Inductive view : Type :=
| DailyExpenses                    (* plot_daily_expenses(dates, amounts) *)
| CategoryPie                      (* plot_category_pie(category_totals) *)
| MonthlyTrend                     (* plot_monthly_trend(monthly_totals) *)
| StatisticsSummary.               (* show_statistics(amounts, category_totals) *)

(** What [main] prints itself. *)
Inductive analytics_line : Type :=
| FetchingData                     (* "Fetching expense data..." *)
| NoDataFound                      (* "No data found in the database." *)
| Processing (records : nat)       (* "Processing ... records..." *)
| Processed (valid : nat)          (* "Successfully processed ... valid records." *)
| MenuText                         (* the title and the seven choices *)
| Generating (v : option view)     (* "Generating ... chart..."; [None]: all visualizations *)
| DebugMode (enabled : bool)       (* "Debug mode enabled" or "disabled" *)
| ExitingAnalytics                 (* "Exiting analytics..." *)
| InvalidChoice                    (* "Invalid choice. Please enter a number between 1 and 7." *)
| ErrorDisplaying (DEBUG : bool) (e : Menu.interrupt)
                                   (* "Error displaying chart: ..." and "Please try again." *)
| AnalyticsFailed (DEBUG : bool) (e : exn).
                                   (* "ERROR: Analytics failed to run properly!" and the error *)

Inductive analytics_event : Type :=
| Shown (l : analytics_line)                         (* print *)
| Asked                                              (* the prompt of input() *)
| Listed (e : Reader.report_event)                   (* done by fetch_all_expenses *)
| Logged (l : Ana.log_line)                          (* printed by process_data *)
| Displayed (v : view).                              (* a display was called *)

(** What lies outside the program during one turn of the menu: the remote
    table, and the exception each display raises, if any. *)
Record screen `{PyBuiltins} : Type := {
  table : Reader.surroundings;
  daily_fails : list date -> list Q -> option exn;
  pie_fails : Ana.totals -> option exn;
  trend_fails : Ana.totals -> option exn;
  statistics_fail : list Q -> Ana.totals -> option exn
}.

Section Turn.
Context `{PyBuiltins}.
Variable s : screen.
Variable agg : Ana.aggregates.

(** The call of one display on the collections [process_data] returned. *)
Definition display (v : view) : option exn :=
  match v with
  | DailyExpenses => daily_fails s (Ana.dates agg) (Ana.amounts agg)
  | CategoryPie => pie_fails s (Ana.category_totals agg)
  | MonthlyTrend => trend_fails s (Ana.monthly_totals agg)
  | StatisticsSummary => statistics_fail s (Ana.amounts agg) (Ana.category_totals agg)
  end.

(** Displays called one after the other, up to the first that raises. *)
Fixpoint display_all (views : list view) : list analytics_event * option exn :=
  match views with
  | [] => ([], None)
  | v :: rest =>
      match display v with
      | Some e => ([Displayed v], Some e)
      | None => let (evs, raised) := display_all rest in (Displayed v :: evs, raised)
      end
  end.

(** The [if]/[elif] chain on the choice: what it did, the exception that
    ended it, the value of [DEBUG] after it, and whether it ended with
    [break]. *)
Definition turn (DEBUG : bool) (choice : string)
    : list analytics_event * option exn * bool * bool :=
  if String.eqb choice "1" then
    let (evs, raised) := display_all [DailyExpenses] in
    (Shown (Generating (Some DailyExpenses)) :: evs, raised, DEBUG, false)
  else if String.eqb choice "2" then
    let (evs, raised) := display_all [CategoryPie] in
    (Shown (Generating (Some CategoryPie)) :: evs, raised, DEBUG, false)
  else if String.eqb choice "3" then
    let (evs, raised) := display_all [MonthlyTrend] in
    (Shown (Generating (Some MonthlyTrend)) :: evs, raised, DEBUG, false)
  else if String.eqb choice "4" then
    let (evs, raised) := display_all [StatisticsSummary] in
    (evs, raised, DEBUG, false)
  else if String.eqb choice "5" then
    let (evs, raised) :=
      display_all [DailyExpenses; CategoryPie; MonthlyTrend; StatisticsSummary] in
    (Shown (Generating None) :: evs, raised, DEBUG, false)
  else if String.eqb choice "6" then
    ([Shown (DebugMode (negb DEBUG))], None, negb DEBUG, false)
  else if String.eqb choice "7" then
    ([Shown ExitingAnalytics], None, DEBUG, true)
  else
    ([Shown InvalidChoice], None, DEBUG, false).

End Turn.

(** [while True: try: ... except Exception: ...], at most [fuel] times;
    [outside n] is the world during turn [n]. The prompt is inside the
    [try]: at the end of the input its [EOFError] is reported like any other
    error and the loop goes on. *)
Fixpoint analytics_loop `{PyBuiltins} (outside : nat -> screen) (agg : Ana.aggregates)
    (fuel n : nat) (DEBUG : bool) (ins : list string) : option (list analytics_event) :=
  match fuel with
  | O => None
  | S fuel' =>
      match ins with
      | [] =>
          match analytics_loop outside agg fuel' (S n) DEBUG [] with
          | Some rest =>
              Some ([Shown MenuText; Asked; Shown (ErrorDisplaying DEBUG Menu.EOFError)]
                    ++ rest)
          | None => None
          end
      | line :: ins' =>
          match turn (outside n) agg DEBUG (Str.strip line) with
          | (evs, Some e, DEBUG', _) =>
              match analytics_loop outside agg fuel' (S n) DEBUG' ins' with
              | Some rest =>
                  Some ([Shown MenuText; Asked] ++ evs
                        ++ [Shown (ErrorDisplaying DEBUG' (Menu.Builtin e))] ++ rest)
              | None => None
              end
          | (evs, None, _, true) => Some ([Shown MenuText; Asked] ++ evs)
          | (evs, None, DEBUG', false) =>
              match analytics_loop outside agg fuel' (S n) DEBUG' ins' with
              | Some rest => Some ([Shown MenuText; Asked] ++ evs ++ rest)
              | None => None
              end
          end
      end
  end.

(** [main()] on the lines typed, with at most [fuel] turns of the menu:
    [process_data] runs once, with [DEBUG] as the module sets it. *)
Definition main `{PyBuiltins} (outside : nat -> screen) (fuel : nat) (ins : list string)
    : option (list analytics_event) :=
  let (fetched, all_data) := Reader.fetch_all_expenses (table (outside 0%nat)) in
  let start := Shown FetchingData :: map Listed fetched in
  match all_data with
  | None | Some [] => Some (start ++ [Shown NoDataFound])
  | Some all_data =>
      match Ana.process_data false all_data with
      | (log, Raise e) =>
          Some (start ++ [Shown (Processing (length all_data))] ++ map Logged log
                ++ [Shown (AnalyticsFailed false e)])
      | (log, Ok agg) =>
          match analytics_loop outside agg fuel 1 false ins with
          | Some evs =>
              Some (start ++ [Shown (Processing (length all_data))] ++ map Logged log
                    ++ [Shown (Processed (length (Ana.dates agg)))] ++ evs)
          | None => None
          end
      end
  end.

(** The remote table gave rows and at least one of them is valid: the menu
    is reached. *)
Definition reaches_menu `{PyBuiltins} (outside : nat -> screen) : bool :=
  match snd (Reader.fetch_all_expenses (table (outside 0%nat))) with
  | None | Some [] => false
  | Some all_data =>
      match snd (Ana.process_data false all_data) with
      | Ok _ => true
      | Raise _ => false
      end
  end.

(** The line is the choice to leave: ['7'], whatever blanks surround it. *)
Definition leaves (line : string) : bool := String.eqb (Str.strip line) "7".

End Analytics.

(** ** The aggregation on the numbers the program computes with

    [ana.py] and [bot.py] add amounts as Python floats: IEEE 754 doubles,
    whose addition rounds and overflows and whose comparisons fail on nan.
    Whatever depends on how sums come out is stated on this second embedding
    of [process_data] and of the two chart reductions, over Rocq's primitive
    floats, which are those doubles. *)

Module Doubles.
Import PrimFloat.

(** Lines written by [print] inside [process_data]. *)
Inductive log_line : Type :=
| WarningNegative (amount : float)  (* "Warning: Negative amount found: ..." *)
| DebugItem (item : raw_record)     (* "Debug - Data item: ..." *)
| DebugError (e : exn)              (* "Debug - Error: ..." *)
| SkippingInvalid (e : exn).        (* "Skipping invalid data point: <type>" *)

(** A [defaultdict(float)] in insertion order. *)
Abbreviation totals := (list (string * float)).

(** [d[k] += a] on a [defaultdict(float)]: an existing bucket is updated in
    place, a missing one is created at the end from [0.0]. *)
Fixpoint add_total (k : string) (a : float) (d : totals) : totals :=
  match d with
  | [] => [(k, (0 + a)%float)]
  | (k', v) :: d' =>
      if String.eqb k' k then (k', (v + a)%float) :: d'
      else (k', v) :: add_total k a d'
  end.

(** [sum(xs)]: Python adds from the left, starting at 0. *)
Definition py_sum (xs : list float) : float := fold_left PrimFloat.add xs 0%float.

Definition total_values (d : totals) : list float := map snd d.

(** [sorted(d.items(), key=lambda x: x[1], reverse=True)]: the stable sort,
    computed by insertion; an entry goes in front of the first entry whose
    total is not larger than its own. With a nan among the totals the
    comparisons no longer order them, and Python's result depends on its
    sorting algorithm: the model is meant for totals without nan. *)
Fixpoint insert_desc (x : string * float) (l : totals) : totals :=
  match l with
  | [] => [x]
  | y :: l' =>
      if (snd y <=? snd x)%float then x :: y :: l'
      else y :: insert_desc x l'
  end.

Fixpoint sorted_desc (d : totals) : totals :=
  match d with
  | [] => []
  | x :: d' => insert_desc x (sorted_desc d')
  end.

(** The labels and sizes handed to [ax.pie] by [plot_category_pie]. *)
Definition plot_category_pie (category_totals : totals) : list string * list float :=
  let categories_sorted := sorted_desc category_totals in
  if (3 <? length categories_sorted)%nat then
    let top_categories := take 3 categories_sorted in
    let other_sum := py_sum (map snd (drop 3 categories_sorted)) in
    (map fst top_categories ++ ["Other"], map snd top_categories ++ [other_sum])
  else
    (map fst categories_sorted, map snd categories_sorted).

(** The labels and sizes [send_category_chart] hands to [ax.pie]. *)
Definition send_category_chart (category_totals : totals) : list string * list float :=
  let categories_sorted := sorted_desc category_totals in
  let labels := map fst (take 5 categories_sorted) in
  let sizes := map snd (take 5 categories_sorted) in
  if (5 <? length categories_sorted)%nat then
    let other_sum := py_sum (map snd (drop 5 categories_sorted)) in
    (labels ++ ["Other"], sizes ++ [other_sum])
  else
    (labels, sizes).

(** No total is nan: [x == x] holds of every total. *)
Definition no_nan (d : totals) : bool :=
  forallb (fun p => (snd p =? snd p)%float) d.

(** [s] ranks the entries of [d]: the same entries, totals in descending
    order, and entries with equal totals in the order they have in [d]. *)
Definition ranks (d s : totals) : Prop :=
  Permutation d s
  /\ StronglySorted (fun a b => (snd b <=? snd a)%float = true) s
  /\ forall v : float,
       List.filter (fun p => (snd p =? v)%float) s
       = List.filter (fun p => (snd p =? v)%float) d.

(** [labels] and [sizes] show [d] reduced to its [K] largest entries: with
    more than [K] entries, the first [K] of the ranking, none smaller than an
    entry left out, and one "Other" slice worth the sum of the entries left
    out, added in the order of the ranking; otherwise the whole ranking and
    nothing more. *)
Definition top_k_reduction (K : nat) (d : totals)
    (labels : list string) (sizes : list float) : Prop :=
  exists s, ranks d s
  /\ if (K <? length d)%nat then
       labels = map fst (take K s) ++ ["Other"]
       /\ sizes = map snd (take K s) ++ [py_sum (total_values (drop K s))]
       /\ length (take K s) = K
       /\ Forall (fun a => Forall (fun b => (snd b <=? snd a)%float = true) (drop K s))
            (take K s)
     else
       labels = map fst s /\ sizes = map snd s.

Section ProcessData.
Context `{PyBuiltins}.

(** [float(v)], with the double it returns. *)
Variable py_double : pyval -> pyresult float.

(** The five collections [process_data] builds. *)
Record aggregates : Type := {
  dates : list date;
  amounts : list float;
  categories : list string;
  category_totals : totals;
  monthly_totals : totals
}.

Definition empty_aggregates : aggregates :=
  {| dates := []; amounts := []; categories := [];
     category_totals := []; monthly_totals := [] |}.

(** One validated expense: the values the [try] body computes before it
    touches the collections. *)
Record expense : Type := {
  e_date : date;
  e_amount : float;
  e_category : string
}.

(** The warning printed for a negative amount. *)
Definition negative_warning (amount : float) : list log_line :=
  if (amount <? 0)%float then [WarningNegative amount] else [].

(** The body of the [try] up to the first [append]: either the validated
    expense or the exception raised, with the lines printed on the way. *)
Definition validate (item : raw_record) : list log_line * pyresult expense :=
  match item !! "amount", item !! "time", item !! "category" with
  | Some v_amount, Some v_time, Some v_category =>
      match py_double v_amount with
      | Raise e => ([], Raise e)
      | Ok amount =>
          let warn := negative_warning amount in
          match v_time with
          | PStr t =>
              match fromisoformat (Str.before "T" t) with
              | Raise e => (warn, Raise e)
              | Ok d =>
                  let category := Ana.clean_category v_category in
                  (warn, Ok {| e_date := d; e_amount := amount; e_category := category |})
              end
          | _ => (warn, Raise AttributeError)
          end
      end
  | _, _, _ => ([], Raise KeyError)
  end.

(** The [except Exception] clause. *)
Definition report_skip (DEBUG : bool) (item : raw_record) (e : exn) : list log_line :=
  if DEBUG then [DebugItem item; DebugError e] else [SkippingInvalid e].

(** The appends and the two [+=] of the [try] body. *)
Definition record_expense (x : expense) (st : aggregates) : aggregates :=
  {| dates := dates st ++ [e_date x];
     amounts := amounts st ++ [e_amount x];
     categories := categories st ++ [e_category x];
     category_totals := add_total (e_category x) (e_amount x) (category_totals st);
     monthly_totals := add_total (strftime_Ym (e_date x)) (e_amount x) (monthly_totals st) |}.

(** One iteration of [for item in all_data]. *)
Definition process_item (DEBUG : bool) (st : list log_line * aggregates)
    (item : raw_record) : list log_line * aggregates :=
  let (out, agg) := st in
  match validate item with
  | (warn, Ok x) => (out ++ warn, record_expense x agg)
  | (warn, Raise e) => (out ++ warn ++ report_skip DEBUG item e, agg)
  end.

(** The whole [for] loop, from empty collections. *)
Definition process_loop (DEBUG : bool) (all_data : list raw_record)
    : list log_line * aggregates :=
  fold_left (process_item DEBUG) all_data ([], empty_aggregates).

(** [process_data(all_data)]: what is printed, and either the five
    collections or the [ValueError] raised. *)
Definition process_data (DEBUG : bool) (all_data : list raw_record)
    : list log_line * pyresult aggregates :=
  match all_data with
  | [] => ([], Raise ValueError)       (* "Invalid or empty data received" *)
  | _ =>
      let (out, agg) := process_loop DEBUG all_data in
      match dates agg with
      | [] => (out, Raise ValueError)  (* "No valid data points found after processing" *)
      | _ => (out, Ok agg)
      end
  end.

(** The expense a record yields when it passes validation. *)
Definition accepted (item : raw_record) : option expense :=
  match validate item with
  | (_, Ok x) => Some x
  | (_, Raise _) => None
  end.

(** The records of a batch that pass validation, in order. *)
Definition validated (all_data : list raw_record) : list expense :=
  omap accepted all_data.

(** The collections after a run of accepted expenses. *)
Definition record_all (xs : list expense) (agg : aggregates) : aggregates :=
  fold_left (fun a x => record_expense x a) xs agg.

(** The amounts of the expenses filed under the key [k], in their order. *)
Definition amounts_under (key : expense -> string) (k : string) (xs : list expense)
    : list float :=
  map e_amount (List.filter (fun x => String.eqb (key x) k) xs).

(** One bucket per key, in the order in which the keys first occur, each
    worth the sum of the amounts filed under it. *)
Definition buckets (key : expense -> string) (xs : list expense) : totals :=
  map (fun k => (k, py_sum (amounts_under key k xs)))
      (Summary.first_occurrences (map key xs)).

End ProcessData.

End Doubles.

(** ** A small instance of the builtins

    Enough to run the scenarios of the specification: plain decimal
    numerals, [YYYY-MM-DD] dates. The theorems do not depend on it. *)

Module Plain.

Definition digits (s : string) : option Z :=
  match s with
  | "" => None
  | _ => option_map (fun u => Z.of_N (N.of_uint u)) (NilEmpty.uint_of_string s)
  end.

Definition signed (s : string) : option Z :=
  match s with
  | String "-" s' => option_map Z.opp (digits s')
  | String "+" s' => digits s'
  | _ => digits s
  end.

Definition int_of_string (s : string) : pyresult Z :=
  match signed (Str.strip s) with
  | Some z => Ok z
  | None => Raise ValueError
  end.

(** [digits "." digits] with an optional sign, either side of the point
    possibly empty but not both; no exponent. *)
Definition float_of_string (s : string) : pyresult Q :=
  let t := Str.strip s in
  let neg := match t with String "-" _ => true | _ => false end in
  let body := match t with String "-" r | String "+" r => r | _ => t end in
  let whole := Str.before "." body in
  let frac := substring (S (String.length whole)) (String.length body) body in
  if String.eqb whole body then
    match digits body with
    | Some z => Ok (inject_Z (if neg then - z else z))
    | None => Raise ValueError
    end
  else
    let scale := (10 ^ Z.of_nat (String.length frac))%Z in
    let part (x : string) := if String.eqb x "" then Some 0%Z else digits x in
    match part whole, part frac with
    | Some z, Some f =>
        if String.eqb whole "" && String.eqb frac "" then Raise ValueError
        else
          let n := (z * scale + f)%Z in
          Ok (Qmake (if neg then - n else n) (Z.to_pos scale))
    | _, _ => Raise ValueError
    end.

Definition float_of (v : pyval) : pyresult Q :=
  match v with
  | PBool b => Ok (if b then 1 else 0)
  | PInt z => Ok (inject_Z z)
  | PFloat q => Ok q
  | PStr s => float_of_string s
  | PNone | PComposite => Raise TypeError
  end.

Definition days_in_month (y m : Z) : Z :=
  if (m =? 2)%Z then
    if ((y mod 4 =? 0) && (negb (y mod 100 =? 0) || (y mod 400 =? 0)))%Z then 29 else 28
  else if ((m =? 4) || (m =? 6) || (m =? 9) || (m =? 11))%Z then 30 else 31.

Definition date_of_string (s : string) : pyresult (Z * Z * Z) :=
  match digits (substring 0 4 s), digits (substring 5 2 s), digits (substring 8 2 s) with
  | Some y, Some m, Some d =>
      if ((String.length s =? 10)%nat
          && String.eqb (substring 4 1 s) "-" && String.eqb (substring 7 1 s) "-"
          && (1 <=? y) && (1 <=? m) && (m <=? 12) && (1 <=? d) && (d <=? days_in_month y m))%Z
      then Ok (y, m, d) else Raise ValueError
  | _, _, _ => Raise ValueError
  end.

Definition pad (width : nat) (z : Z) : string :=
  let t := NilEmpty.string_of_uint (N.to_uint (Z.to_N z)) in
  string_of_list_ascii (repeat "0"%char (width - String.length t)) +:+ t.

Definition year_month (d : Z * Z * Z) : string :=
  let '(y, m, _) := d in pad 4 y +:+ "-" +:+ pad 2 m.

Definition str_of (v : pyval) : string :=
  match v with
  | PStr s => s
  | PNone => "None"
  | PBool true => "True"
  | PBool false => "False"
  | PInt z => NilEmpty.string_of_int (Z.to_int z)
  | PFloat _ => "<float>"
  | PComposite => "<composite>"
  end.

#[export] Instance builtins : PyBuiltins := {|
  date := Z * Z * Z;
  py_float := float_of;
  fromisoformat := date_of_string;
  strftime_Ym := year_month;
  py_str := str_of;
  py_int := int_of_string
|}.

(** The batch of scenario A. *)
Definition scenario_A : list raw_record :=
  [ {[ "time" := PStr "2025-10-01T10:00"; "category" := PStr "Food"; "amount" := PStr "250" ]};
    {[ "time" := PStr "2025-10-02"; "category" := PStr " "; "amount" := PStr "50" ]} ].

(** The batch of scenario D: its only record has no amount. *)
Definition scenario_D : list raw_record :=
  [ {[ "time" := PStr "2025-10-02"; "category" := PStr "Food" ]} ].

(** A quiet outside world: inserts succeed, no monthly total, reports end
    normally. *)
Definition quiet : environment :=
  {| clock_now := "2025-10-01T10:00:00";
     remote_insert := fun _ => InsertResponse true;
     remote_monthly_total := fun _ _ => Ok None;
     report_outcome := fun _ _ => None |}.

(** The same world with a remote table that refuses every insert. *)
Definition failing : environment :=
  {| clock_now := "2025-10-01T10:00:00";
     remote_insert := fun _ => InsertFails TypeError;
     remote_monthly_total := fun _ _ => Raise TypeError;
     report_outcome := fun _ _ => None |}.

(** An update carrying a text from the authorized chat. *)
Definition hello (i : Z) : Bot.update :=
  {| Bot.update_id := i;
     Bot.u_content := Bot.Message Bot.AUTHORIZED_CHAT_ID (Some "hello") |}.

(** A button press from the authorized chat. *)
Definition press (i : Z) (data : string) : Bot.update :=
  {| Bot.update_id := i;
     Bot.u_content := Bot.CallbackQuery "cb" Bot.AUTHORIZED_CHAT_ID data |}.

(** A text and a button press from another chat. *)
Definition stranger_text (i : Z) (text : string) : Bot.update :=
  {| Bot.update_id := i; Bot.u_content := Bot.Message 42 (Some text) |}.

Definition stranger_press (i : Z) (data : string) : Bot.update :=
  {| Bot.update_id := i; Bot.u_content := Bot.CallbackQuery "cb" 42 data |}.

(** The quiet world at every update. *)
Definition calm : Z -> environment := fun _ => quiet.

(** A remote table without rows. *)
Definition bare : Reader.surroundings :=
  {| Reader.select_all := Ok [];
     Reader.format_2f := fun _ => Ok "0.00";
     Reader.strftime_day := fun _ => "";
     Reader.draw := fun _ => None |}.

(** The quiet world and the empty table at every turn of the menu. *)
Definition desk : nat -> Menu.console :=
  fun _ => {| Menu.tracker_env := quiet;
              Menu.reader_world := bare;
              Menu.remote_update := fun _ _ => None |}.

Import PrimFloat.

(** The double nearest to 1e308; its double overflows. *)
Definition huge : float := 0x1.1ccf385ebc8ap+1023%float.

(** The double nearest to an integer, ties to even. *)
Definition double_of_Z (z : Z) : float :=
  FloatOps.SF2Prim (SpecFloat.binary_normalize FloatOps.prec FloatOps.emax z 0 false).

(** [float] as far as the batch below needs it: the value is read as by
    [float_of], and a whole number becomes the double nearest to it; this
    stand-in refuses numbers that are not whole. *)
Definition double_of (v : pyval) : pyresult float :=
  match float_of v with
  | Ok q =>
      if (Qden q =? 1)%positive then Ok (double_of_Z (Qnum q)) else Raise ValueError
  | Raise e => Raise e
  end.

(** Three expenses of one month, with numbers for amounts: 1e308 twice under
    "A", and -1e308 under "B" between them. *)
Definition overflowing : list raw_record :=
  [ {[ "time" := PStr "2025-10-01"; "category" := PStr "A";
       "amount" := PFloat (inject_Z (10 ^ 308)) ]};
    {[ "time" := PStr "2025-10-02"; "category" := PStr "B";
       "amount" := PFloat (inject_Z (- 10 ^ 308)) ]};
    {[ "time" := PStr "2025-10-03"; "category" := PStr "A";
       "amount" := PFloat (inject_Z (10 ^ 308)) ]} ].

(** Five category totals: three of 1e16 and two of 1. *)
Definition five_totals : Doubles.totals :=
  [("A", 1e16%float); ("B", 1e16%float); ("C", 1e16%float); ("D", 1%float); ("E", 1%float)].

End Plain.



(** * Properties of [ana.py] *)

Section AnaFacts.
Context `{PyBuiltins}.
Import Ana.

Lemma fold_left_Qplus_compat (l : list Q) (a b : Q) :
  a == b -> fold_left Qplus l a == fold_left Qplus l b.
Proof.
  revert a b. induction l as [|x l IH]; intros a b Hab; simpl.
  - exact Hab.
  - apply IH. rewrite Hab. reflexivity.
Qed.

Lemma fold_left_Qplus_start (l : list Q) (a : Q) :
  fold_left Qplus l a == a + py_sum l.
Proof.
  unfold py_sum. revert a. induction l as [|x l IH]; intros a; simpl.
  - ring.
  - rewrite (IH (a + x)), (IH (0 + x)). ring.
Qed.

Lemma py_sum_cons (x : Q) (l : list Q) : py_sum (x :: l) == x + py_sum l.
Proof.
  unfold py_sum at 1. simpl. rewrite fold_left_Qplus_start. ring.
Qed.

Lemma py_sum_snoc (l : list Q) (x : Q) : py_sum (l ++ [x]) = py_sum l + x.
Proof. unfold py_sum. rewrite fold_left_app. reflexivity. Qed.

Lemma py_sum_app (l1 l2 : list Q) : py_sum (l1 ++ l2) == py_sum l1 + py_sum l2.
Proof.
  induction l1 as [|x l1 IH]; simpl.
  - unfold py_sum at 2. simpl. ring.
  - rewrite !py_sum_cons, IH. ring.
Qed.

(** [d[k] += a] raises the sum of the values by [a]. *)
Lemma py_sum_add_total (k : string) (a : Q) (d : totals) :
  py_sum (total_values (add_total k a d)) == py_sum (total_values d) + a.
Proof.
  unfold total_values. induction d as [|[k' v] d IH]; simpl.
  - rewrite py_sum_cons. unfold py_sum. simpl. ring.
  - destruct (String.eqb k' k); simpl; rewrite !py_sum_cons.
    + ring.
    + rewrite IH. ring.
Qed.

Lemma validated_cons (item : raw_record) (l : list raw_record) :
  validated (item :: l) =
    match accepted item with
    | Some x => x :: validated l
    | None => validated l
    end.
Proof. reflexivity. Qed.

Lemma process_items_validated (DEBUG : bool) (l : list raw_record)
    (out : list log_line) (agg : aggregates) :
  snd (fold_left (process_item DEBUG) l (out, agg)) = record_all (validated l) agg.
Proof.
  revert out agg. induction l as [|item l IH]; intros out agg; [reflexivity|].
  rewrite validated_cons. unfold accepted. cbn [fold_left process_item].
  destruct (validate item) as [warn [x|e]]; apply IH.
Qed.

Lemma skip_reasons_app (o1 o2 : list log_line) :
  skip_reasons (o1 ++ o2) = (skip_reasons o1 + skip_reasons o2)%nat.
Proof. unfold skip_reasons. rewrite List.filter_app, length_app. reflexivity. Qed.

(** Validation itself prints warnings only. *)
Lemma validate_prints_no_reason (item : raw_record) :
  skip_reasons (fst (validate item)) = 0%nat.
Proof.
  unfold validate, negative_warning.
  repeat match goal with
         | |- context [match ?x with _ => _ end] => destruct x
         end; reflexivity.
Qed.

Lemma report_skip_one_reason (DEBUG : bool) (item : raw_record) (e : exn) :
  skip_reasons (report_skip DEBUG item e) = 1%nat.
Proof. destruct DEBUG; reflexivity. Qed.

Lemma process_items_skips (DEBUG : bool) (l : list raw_record)
    (out : list log_line) (agg : aggregates) :
  (length (validated l) + skip_reasons (fst (fold_left (process_item DEBUG) l (out, agg)))
   = skip_reasons out + length l)%nat.
Proof.
  revert out agg. induction l as [|item l IH]; intros out agg; [simpl; lia|].
  rewrite validated_cons. unfold accepted. cbn [fold_left process_item].
  pose proof (validate_prints_no_reason item) as Hw.
  destruct (validate item) as [warn [x|e]]; cbn [fst] in Hw.
  - specialize (IH (out ++ warn) (record_expense x agg)).
    rewrite skip_reasons_app in IH. cbn [length]. lia.
  - specialize (IH (out ++ warn ++ report_skip DEBUG item e) agg).
    rewrite !skip_reasons_app, report_skip_one_reason in IH. cbn [length]. lia.
Qed.

Lemma record_all_amounts (xs : list expense) (agg : aggregates) :
  amounts (record_all xs agg) = amounts agg ++ map e_amount xs
  /\ categories (record_all xs agg) = categories agg ++ map e_category xs
  /\ dates (record_all xs agg) = dates agg ++ map e_date xs.
Proof.
  revert agg. induction xs as [|x xs IH]; intros agg; simpl.
  - rewrite !app_nil_r. auto.
  - destruct (IH (record_expense x agg)) as (-> & -> & ->). simpl.
    rewrite <- !app_assoc. auto.
Qed.

Lemma record_expense_balanced (x : expense) (agg : aggregates) :
  balanced agg -> balanced (record_expense x agg).
Proof.
  intros [Hc Hm]. unfold balanced. simpl.
  rewrite !py_sum_add_total, py_sum_snoc, Hc, Hm. split; reflexivity.
Qed.

Lemma record_all_balanced (xs : list expense) (agg : aggregates) :
  balanced agg -> balanced (record_all xs agg).
Proof.
  revert agg. induction xs as [|x xs IH]; intros agg Hb; simpl; [exact Hb|].
  apply IH, record_expense_balanced, Hb.
Qed.

Lemma process_loop_aggregates (DEBUG : bool) (all_data : list raw_record) :
  snd (process_loop DEBUG all_data) = record_all (validated all_data) empty_aggregates.
Proof. apply process_items_validated. Qed.

(** What [process_data] returns, in terms of the loop. *)
Lemma process_data_unfold (DEBUG : bool) (all_data : list raw_record) :
  process_data DEBUG all_data =
    (fst (process_loop DEBUG all_data),
     match validated all_data with
     | [] => Raise ValueError
     | _ :: _ => Ok (snd (process_loop DEBUG all_data))
     end).
Proof.
  destruct all_data as [|item rest]; [reflexivity|].
  unfold process_data.
  pose proof (process_loop_aggregates DEBUG (item :: rest)) as Hagg.
  destruct (record_all_amounts (validated (item :: rest)) empty_aggregates) as (_ & _ & Hd).
  rewrite <- Hagg in Hd.
  destruct (process_loop DEBUG (item :: rest)) as [out agg]. cbn [fst snd] in *.
  rewrite Hd. cbn [dates empty_aggregates app].
  destruct (validated (item :: rest)); reflexivity.
Qed.

(** In exact arithmetic the three sums agree: over the rationals the values
    of [category_totals], the values of [monthly_totals] and the validated
    amounts have the same sum. On doubles they need not, see
    [totals_disagree_on_doubles]. *)
Lemma totals_agree_in_exact_arithmetic (DEBUG : bool) (all_data : list raw_record) :
  (0 < length (validated all_data))%nat ->
  exists out agg,
    process_data DEBUG all_data = (out, Ok agg)
    /\ amounts agg = map e_amount (validated all_data)
    /\ py_sum (total_values (category_totals agg))
        == py_sum (total_values (monthly_totals agg))
    /\ py_sum (total_values (monthly_totals agg))
        == py_sum (map e_amount (validated all_data)).
Proof.
  intros Hvalid. rewrite process_data_unfold.
  destruct (validated all_data) as [|x xs] eqn:Hv; [simpl in Hvalid; lia|].
  eexists _, _. split; [reflexivity|].
  rewrite process_loop_aggregates, Hv.
  destruct (record_all_amounts (x :: xs) empty_aggregates) as (Ha & _ & _).
  assert (Hb : balanced (record_all (x :: xs) empty_aggregates)).
  { apply record_all_balanced. split; reflexivity. }
  destruct Hb as [Hc Hm]. rewrite Hc, Hm, Ha. repeat split; reflexivity.
Qed.

(** C2. If no record of the batch validates, [process_data] raises
    [ValueError] (the error the specification calls NoValidData) and hands
    back no collection at all; if at least one validates it returns the
    collections of the loop, whatever was skipped. *)
Theorem process_data_fails_iff_nothing_valid (DEBUG : bool) (all_data : list raw_record) :
  (length (validated all_data) = 0%nat ->
     snd (process_data DEBUG all_data) = Raise ValueError)
  /\ ((0 < length (validated all_data))%nat ->
     snd (process_data DEBUG all_data) = Ok (snd (process_loop DEBUG all_data))).
Proof.
  rewrite process_data_unfold. cbn [snd].
  destruct (validated all_data); cbn [length]; split; intros Hv;
    first [reflexivity | lia].
Qed.

(** What an accepted expense owes to its record. *)
Lemma accepted_fields (item : raw_record) (x : expense) :
  accepted item = Some x ->
  exists v_amount v_category,
    item !! "amount" = Some v_amount
    /\ py_float v_amount = Ok (e_amount x)
    /\ item !! "category" = Some v_category
    /\ e_category x = clean_category v_category.
Proof.
  unfold accepted, validate.
  destruct (item !! "amount") as [va|]; [|discriminate].
  destruct (item !! "time") as [vt|]; [|discriminate].
  destruct (item !! "category") as [vc|]; [|discriminate].
  destruct (py_float va) as [a|] eqn:Ha; [|discriminate].
  destruct vt; try discriminate.
  destruct (fromisoformat _); [|discriminate].
  intros [= <-]. exists va, vc. cbn [e_amount e_category]. auto.
Qed.

Lemma clean_category_nonempty (v : pyval) : clean_category v <> "".
Proof.
  unfold clean_category.
  destruct (String.eqb (Str.strip (py_str v)) "") eqn:E; [discriminate|].
  apply String.eqb_neq, E.
Qed.

Lemma validated_accepted (all_data : list raw_record) (x : expense) :
  In x (validated all_data) -> exists item, In item all_data /\ accepted item = Some x.
Proof.
  induction all_data as [|item l IH]; [intros []|].
  rewrite validated_cons. destruct (accepted item) as [y|] eqn:E.
  - intros [<-|Hin]; [exists item; split; [left|]; auto|].
    destruct (IH Hin) as (i & ? & ?). exists i. split; [right|]; auto.
  - intros Hin. destruct (IH Hin) as (i & ? & ?). exists i. split; [right|]; auto.
Qed.

(** C3. The validation pass of [process_data] keeps, in order, exactly the
    expenses of the records that validate; each has the number [float] made
    of its amount and a non-empty category, the sentinel "Uncategorized"
    standing in for a category that is empty once trimmed; and the accepted
    expenses and the skip reasons printed add up to the size of the batch. *)
Theorem validator_accounts_for_every_record (DEBUG : bool) (all_data : list raw_record) :
  let (out, agg) := process_loop DEBUG all_data in
  fst (process_data DEBUG all_data) = out
  /\ amounts agg = map e_amount (validated all_data)
  /\ categories agg = map e_category (validated all_data)
  /\ dates agg = map e_date (validated all_data)
  /\ Forall (fun x =>
        e_category x <> ""
        /\ exists item v_amount v_category,
             In item all_data
             /\ item !! "amount" = Some v_amount
             /\ py_float v_amount = Ok (e_amount x)
             /\ item !! "category" = Some v_category
             /\ e_category x =
                 (if String.eqb (Str.strip (py_str v_category)) ""
                  then "Uncategorized" else Str.strip (py_str v_category)))
      (validated all_data)
  /\ (length (amounts agg) + skip_reasons out = length all_data)%nat.
Proof.
  pose proof (process_loop_aggregates DEBUG all_data) as Hagg.
  pose proof (process_items_skips DEBUG all_data [] empty_aggregates) as Hskip.
  pose proof (process_data_unfold DEBUG all_data) as Hpd.
  fold (process_loop DEBUG all_data) in Hskip.
  destruct (process_loop DEBUG all_data) as [out agg]. cbn [fst snd] in *.
  destruct (record_all_amounts (validated all_data) empty_aggregates) as (Ha & Hc & Hd).
  rewrite <- Hagg in Ha, Hc, Hd. cbn [amounts categories dates empty_aggregates app] in *.
  rewrite Hpd. repeat split; auto.
  - apply List.Forall_forall. intros x Hx.
    destruct (validated_accepted _ _ Hx) as (item & Hin & Hacc).
    destruct (accepted_fields _ _ Hacc) as (va & vc & H1 & H2 & H3 & H4).
    split; [rewrite H4; apply clean_category_nonempty|].
    exists item, va, vc. auto.
  - rewrite Ha, length_map. exact Hskip.
Qed.

End AnaFacts.

(** * Properties of the category charts *)

Section ChartFacts.
Import Ana.

Lemma insert_desc_perm (x : string * Q) (l : totals) :
  Permutation (x :: l) (insert_desc x l).
Proof.
  induction l as [|y l IH]; simpl; [reflexivity|].
  destruct (Qle_bool (snd y) (snd x)); [reflexivity|].
  rewrite perm_swap. apply perm_skip, IH.
Qed.

Lemma sorted_desc_perm (d : totals) : Permutation d (sorted_desc d).
Proof.
  induction d as [|x d IH]; simpl; [reflexivity|].
  rewrite <- insert_desc_perm. apply perm_skip, IH.
Qed.

Lemma insert_desc_sorted (x : string * Q) (l : totals) :
  Sorted (fun a b => snd b <= snd a) l ->
  Sorted (fun a b => snd b <= snd a) (insert_desc x l).
Proof.
  induction 1 as [|y l Hs IH Hhd]; simpl; [repeat constructor|].
  destruct (Qle_bool (snd y) (snd x)) eqn:E.
  - apply Qle_bool_iff in E. repeat constructor; auto.
  - assert (Hxy : snd x <= snd y).
    { apply Qlt_le_weak, Qnot_le_lt. intros Hle.
      apply Qle_bool_iff in Hle. congruence. }
    constructor; [exact IH|].
    destruct Hhd as [|z l Hz]; simpl; [constructor; exact Hxy|].
    destruct (Qle_bool (snd z) (snd x)); constructor; auto.
Qed.

Lemma sorted_desc_sorted (d : totals) :
  StronglySorted (fun a b => snd b <= snd a) (sorted_desc d).
Proof.
  apply Sorted_StronglySorted.
  - intros a b c Hab Hbc. eapply Qle_trans; eauto.
  - induction d as [|x d IH]; simpl; [constructor|].
    apply insert_desc_sorted, IH.
Qed.

(** Insertion never moves an entry past one with the same total. *)
Lemma insert_desc_stable (v : Q) (x : string * Q) (l : totals) :
  List.filter (fun p => Qeq_bool (snd p) v) (insert_desc x l)
  = List.filter (fun p => Qeq_bool (snd p) v) (x :: l).
Proof.
  induction l as [|y l IH]; [reflexivity|].
  cbn [insert_desc]. destruct (Qle_bool (snd y) (snd x)) eqn:E; [reflexivity|].
  cbn [List.filter] in *. rewrite IH.
  destruct (Qeq_bool (snd y) v) eqn:Ey, (Qeq_bool (snd x) v) eqn:Ex; try reflexivity.
  apply Qeq_bool_iff in Ey, Ex.
  assert (Hle : snd y <= snd x) by (rewrite Ey, Ex; apply Qle_refl).
  apply Qle_bool_iff in Hle. congruence.
Qed.

Lemma sorted_desc_stable (v : Q) (d : totals) :
  List.filter (fun p => Qeq_bool (snd p) v) (sorted_desc d)
  = List.filter (fun p => Qeq_bool (snd p) v) d.
Proof.
  induction d as [|x d IH]; [reflexivity|].
  cbn [sorted_desc]. rewrite insert_desc_stable. cbn [List.filter].
  rewrite IH. reflexivity.
Qed.

Lemma sorted_desc_ranks (d : totals) : ranks d (sorted_desc d).
Proof.
  split; [apply sorted_desc_perm|].
  split; [apply sorted_desc_sorted|].
  intros v. apply sorted_desc_stable.
Qed.

Lemma ranks_length (d s : totals) : ranks d s -> length s = length d.
Proof. intros (Hperm & _). symmetry. apply Permutation_length, Hperm. Qed.

End ChartFacts.

(** C2 at scenario D (nothing validates) and at scenario A (something does). *)
Lemma process_data_fails_iff_nothing_valid_witness :
  (length (@Ana.validated Plain.builtins Plain.scenario_D) = 0%nat
   /\ snd (@Ana.process_data Plain.builtins false Plain.scenario_D) = Raise ValueError)
  /\ ((0 < length (@Ana.validated Plain.builtins Plain.scenario_A))%nat
      /\ snd (@Ana.process_data Plain.builtins false Plain.scenario_A)
         = Ok (snd (@Ana.process_loop Plain.builtins false Plain.scenario_A))).
Proof.
  assert (HD : length (@Ana.validated Plain.builtins Plain.scenario_D) = 0%nat)
    by (vm_compute; reflexivity).
  assert (HA : (0 < length (@Ana.validated Plain.builtins Plain.scenario_A))%nat)
    by (vm_compute; lia).
  split; split.
  - exact HD.
  - exact (proj1 (@process_data_fails_iff_nothing_valid Plain.builtins false Plain.scenario_D) HD).
  - exact HA.
  - exact (proj2 (@process_data_fails_iff_nothing_valid Plain.builtins false Plain.scenario_A) HA).
Defined.

(** * Properties of the conversation store and of the handlers *)

Section BotFacts.
Context `{PyBuiltins}.
Variable env : environment.
Import Bot.

(** C8, as the code has it. After [user_data[id] = {'state': M}] the mode read
    back is [M]; a second assignment replaces the first, leaving exactly the
    store a single assignment would; [del user_data[id]] succeeds exactly when
    [id] has an entry, and then no mode is left for [id] and the other entries
    are untouched; on an identifier without an entry it raises [KeyError]. *)
Theorem store_set_get_del (id : Z) (M M' : mode) (ud : user_data) :
  get_state id (set_state id M ud) = Some M
  /\ get_state id (set_state id M' (set_state id M ud)) = Some M'
  /\ set_state id M' (set_state id M ud) = set_state id M' ud
  /\ match del_state id ud with
     | Ok ud' =>
         is_Some (get_state id ud)
         /\ get_state id ud' = None
         /\ forall other, other <> id -> get_state other ud' = get_state other ud
     | Raise e => get_state id ud = None /\ e = KeyError
     end.
Proof.
  unfold get_state, set_state, del_state. repeat split.
  - apply lookup_insert_eq.
  - apply lookup_insert_eq.
  - apply insert_insert_eq.
  - destruct (ud !! id) as [m|] eqn:E; [|split; reflexivity].
    split; [eauto|]. split; [apply lookup_delete_eq|].
    intros other Hne. apply lookup_delete_ne. congruence.
Qed.

(** C4, as the code has it. "/start" is answered with the top-level menu and
    nothing else happens: the conversation store is left as it was, so a mode
    pending for the sender is still pending afterwards. *)
Theorem start_shows_menu_and_keeps_state (uid chat_id : Z) (ud : user_data) :
  let h := handle_update env {| update_id := uid; u_content := Message chat_id (Some "/start") |} ud in
  h_events h = [SendMessage chat_id WelcomeMenu]
  /\ h_user_data h = ud
  /\ get_state chat_id (h_user_data h) = get_state chat_id ud
  /\ h_raised h = None.
Proof. repeat split. Qed.

(** C5 at the failing input: "/start" sent from a chat that is not the
    authorized one is not refused; the sender is shown the top-level menu. *)
Theorem unauthorized_start_is_served (ud : user_data) :
  is_authorized 42 = false
  /\ handle_update env {| update_id := 1; u_content := Message 42 (Some "/start") |} ud
     = returns [SendMessage 42 WelcomeMenu] ud.
Proof. split; reflexivity. Qed.

(** The two other entry points do check the sender: an unauthorized text
    that is not "/start" and an unauthorized button press get the refusal
    and nothing else (the press is acknowledged first). *)
Lemma unauthorized_text_is_refused (chat_id : Z) (text : string) (ud : user_data) :
  is_authorized chat_id = false ->
  handle_text_message env chat_id text ud = returns [SendMessage chat_id Unauthorized] ud.
Proof. intros Hno. unfold handle_text_message. rewrite Hno. reflexivity. Qed.

Lemma unauthorized_press_is_refused (cb : string) (chat_id : Z) (data : string)
    (ud : user_data) :
  is_authorized chat_id = false ->
  handle_callback_query env cb chat_id data ud
  = returns [AnswerCallback cb; SendMessage chat_id Unauthorized] ud.
Proof. intros Hno. unfold handle_callback_query. rewrite Hno. reflexivity. Qed.

(** A text from the authorized chat goes to the handler of the pending mode. *)
Lemma pending_text_goes_to_its_handler (text : string) (ud : user_data) :
  handle_text_message env AUTHORIZED_CHAT_ID text ud =
    match get_state AUTHORIZED_CHAT_ID ud with
    | Some waiting_for_expense => handle_expense_input env AUTHORIZED_CHAT_ID text ud
    | Some waiting_for_month => handle_month_input env AUTHORIZED_CHAT_ID text ud
    | None => returns [SendMessage AUTHORIZED_CHAT_ID UseStart] ud
    end.
Proof. reflexivity. Qed.

Lemma del_state_pending (chat_id : Z) (m : mode) (ud : user_data) :
  get_state chat_id ud = Some m -> del_state chat_id ud = Ok (delete chat_id ud).
Proof. unfold get_state, del_state. intros ->. reflexivity. Qed.

Lemma cleared_by_delete (chat_id : Z) (ud : user_data) (evs : list event) :
  cleared chat_id ud (returns evs (delete chat_id ud)).
Proof. split; [reflexivity|]. apply lookup_delete_eq. Qed.

Lemma month_input_failed_spec (chat_id : Z) (before : list event) (e : exn)
    (ud : user_data) :
  preserved ud (month_input_failed chat_id before e ud)
  /\ replied chat_id (month_input_failed chat_id before e ud).
Proof.
  unfold preserved, replied.
  destruct e; cbn; (split; [reflexivity|]); (split; [|reflexivity]);
    eexists; apply in_or_app; right; left; reflexivity.
Qed.

(** What [handle_expense_input] does on a text that parses. *)
Lemma handle_expense_input_parsed (chat_id : Z) (text : string) (ud : user_data)
    (m : mode) (category amount_text : string) (rest : list string) (amount : Q) :
  get_state chat_id ud = Some m ->
  Str.split_max 2 text = category :: amount_text :: rest ->
  py_float (PStr amount_text) = Ok amount ->
  handle_expense_input env chat_id text ud
  = returns (Tracker.store_expense env category amount (note_of rest)
             ++ [SendMessage chat_id (ExpenseAdded category amount (note_of rest))])
            (delete chat_id ud).
Proof.
  intros Hm Hsplit Hfloat. unfold handle_expense_input.
  rewrite Hsplit, Hfloat, (del_state_pending _ _ _ Hm). reflexivity.
Qed.

(** What [handle_month_input] does on a text that parses to a month it
    can name. *)
Lemma handle_month_input_parsed (chat_id : Z) (text : string) (ud : user_data)
    (m : mode) (year_text month_text : string) (year month : Z) :
  get_state chat_id ud = Some m ->
  Str.split text = [year_text; month_text] ->
  py_int year_text = Ok year ->
  py_int month_text = Ok month ->
  (1 <= month <= 12)%Z ->
  (1 <= year <= 9999)%Z ->
  handle_month_input env chat_id text ud
  = returns (fst (Tracker.fetch_monthly_total env year month)
             ++ [SendMessage chat_id
                   (MonthTotal year month
                      (total_or_zero (snd (Tracker.fetch_monthly_total env year month))))])
            (delete chat_id ud).
Proof.
  intros Hm Hsplit Hy Hmo Hmonth Hyear. unfold handle_month_input.
  rewrite Hsplit, Hy, Hmo.
  replace ((1 <=? month)%Z && (month <=? 12)%Z) with true
    by (symmetry; apply andb_true_iff; split; apply Z.leb_le; lia).
  cbn [negb].
  destruct (Tracker.fetch_monthly_total env year month) as [fetched total].
  unfold datetime_first_day.
  replace ((year <? - 2 ^ 31)%Z || (2 ^ 31 - 1 <? year)%Z) with false
    by (symmetry; apply orb_false_iff; split; apply Z.ltb_ge; lia).
  replace ((year <? 1)%Z || (9999 <? year)%Z) with false
    by (symmetry; apply orb_false_iff; split; apply Z.ltb_ge; lia).
  rewrite (del_state_pending _ _ _ Hm). reflexivity.
Qed.

(** C6. With a mode pending for [chat_id], each of the two input handlers
    always answers; it removes the entry when the text is handled (an
    expense entry of at least two words whose second is a number; a month
    query of two integers, the month in 1..12, the year one [datetime] can
    hold) and leaves the store untouched when it is not (too few words or a
    second word that is no number; a word count other than two, a word that
    is no integer, a month outside 1..12, or a year [datetime] rejects). *)
Theorem input_clears_state_only_when_handled (chat_id : Z) (text : string)
    (ud : user_data) (m : mode) :
  get_state chat_id ud = Some m ->
  let he := handle_expense_input env chat_id text ud in
  let hm := handle_month_input env chat_id text ud in
  replied chat_id he
  /\ replied chat_id hm
  /\ (forall category amount_text rest amount,
        Str.split_max 2 text = category :: amount_text :: rest ->
        py_float (PStr amount_text) = Ok amount ->
        cleared chat_id ud he)
  /\ ((length (Str.split_max 2 text) < 2)%nat -> preserved ud he)
  /\ (forall category amount_text rest e,
        Str.split_max 2 text = category :: amount_text :: rest ->
        py_float (PStr amount_text) = Raise e ->
        preserved ud he)
  /\ (forall year_text month_text year month,
        Str.split text = [year_text; month_text] ->
        py_int year_text = Ok year ->
        py_int month_text = Ok month ->
        (1 <= month <= 12)%Z ->
        (1 <= year <= 9999)%Z ->
        cleared chat_id ud hm)
  /\ (length (Str.split text) <> 2%nat -> preserved ud hm)
  /\ (forall year_text month_text e,
        Str.split text = [year_text; month_text] ->
        py_int year_text = Raise e \/ py_int month_text = Raise e ->
        preserved ud hm)
  /\ (forall year_text month_text year month,
        Str.split text = [year_text; month_text] ->
        py_int year_text = Ok year ->
        py_int month_text = Ok month ->
        ~ (1 <= month <= 12)%Z \/ ~ (1 <= year <= 9999)%Z ->
        preserved ud hm).
Proof.
  intros Hm he hm.
  assert (Hsent : forall evs r u, replied chat_id (returns (evs ++ [SendMessage chat_id r]) u)).
  { intros evs r u. split; [|reflexivity]. exists r. apply in_or_app. right. left. reflexivity. }
  assert (Hsent1 : forall r u, replied chat_id (returns [SendMessage chat_id r] u)).
  { intros r u. apply (Hsent [] r u). }
  (* every path of the expense handler *)
  assert (He : replied chat_id he
               /\ (forall category amount_text rest,
                     Str.split_max 2 text = category :: amount_text :: rest ->
                     match py_float (PStr amount_text) with
                     | Ok _ => cleared chat_id ud he
                     | Raise _ => preserved ud he
                     end)
               /\ ((length (Str.split_max 2 text) < 2)%nat -> preserved ud he)).
  { subst he. unfold handle_expense_input.
    destruct (Str.split_max 2 text) as [|category [|amount_text rest]].
    - split; [apply Hsent1|]. split; [discriminate|reflexivity].
    - split; [apply Hsent1|]. split; [discriminate|reflexivity].
    - rewrite (del_state_pending _ _ _ Hm).
      split; [|split; [|cbn [length]; lia]].
      + destruct (py_float (PStr amount_text)) as [a|[]];
          first [apply Hsent | apply Hsent1].
      + intros c a r [= <- <- <-].
        destruct (py_float (PStr amount_text)) as [a|[]];
          first [apply cleared_by_delete | reflexivity]. }
  (* every path of the month handler *)
  assert (Hmo : replied chat_id hm
               /\ (length (Str.split text) <> 2%nat -> preserved ud hm)
               /\ (forall year_text month_text,
                     Str.split text = [year_text; month_text] ->
                     match py_int year_text, py_int month_text with
                     | Ok year, Ok month =>
                         if decide ((1 <= month <= 12)%Z /\ (1 <= year <= 9999)%Z)
                         then cleared chat_id ud hm else preserved ud hm
                     | _, _ => preserved ud hm
                     end)).
  { subst hm. unfold handle_month_input.
    destruct (Str.split text) as [|year_text [|month_text [|extra more]]];
      try (split; [apply Hsent1|]; split; [reflexivity|discriminate]).
    split; [|split; [cbn [length]; lia|]].
    - destruct (py_int year_text) as [year|e]; [|apply month_input_failed_spec].
      destruct (py_int month_text) as [month|e]; [|apply month_input_failed_spec].
      destruct (negb _); [apply Hsent1|].
      destruct (Tracker.fetch_monthly_total env year month) as [fetched total].
      destruct (datetime_first_day year month); [|apply month_input_failed_spec].
      rewrite (del_state_pending _ _ _ Hm). apply Hsent.
    - intros y mo [= <- <-].
      destruct (py_int year_text) as [year|e]; [|apply month_input_failed_spec].
      destruct (py_int month_text) as [month|e]; [|apply month_input_failed_spec].
      destruct (decide _) as [[Hmonth Hyear]|Hout].
      + replace ((1 <=? month)%Z && (month <=? 12)%Z) with true
          by (symmetry; apply andb_true_iff; split; apply Z.leb_le; lia).
        cbn [negb].
        destruct (Tracker.fetch_monthly_total env year month) as [fetched total].
        unfold datetime_first_day.
        replace ((year <? - 2 ^ 31)%Z || (2 ^ 31 - 1 <? year)%Z) with false
          by (symmetry; apply orb_false_iff; split; apply Z.ltb_ge; lia).
        replace ((year <? 1)%Z || (9999 <? year)%Z) with false
          by (symmetry; apply orb_false_iff; split; apply Z.ltb_ge; lia).
        rewrite (del_state_pending _ _ _ Hm). apply cleared_by_delete.
      + destruct ((1 <=? month)%Z && (month <=? 12)%Z) eqn:Em; [|reflexivity].
        cbn [negb].
        destruct (Tracker.fetch_monthly_total env year month) as [fetched total].
        unfold datetime_first_day.
        destruct ((year <? - 2 ^ 31)%Z || (2 ^ 31 - 1 <? year)%Z) eqn:E1;
          [apply month_input_failed_spec|].
        destruct ((year <? 1)%Z || (9999 <? year)%Z) eqn:E2;
          [apply month_input_failed_spec|].
        apply andb_true_iff in Em as [Em1 Em2]. apply Z.leb_le in Em1, Em2.
        apply orb_false_iff in E2 as [E2 E3]. apply Z.ltb_ge in E2, E3.
        exfalso. apply Hout. lia. }
  destruct He as (He1 & He2 & He3). destruct Hmo as (Hm1 & Hm2 & Hm3).
  split; [exact He1|]. split; [exact Hm1|].
  split. { intros c a r q Hs Hf. specialize (He2 _ _ _ Hs). rewrite Hf in He2. exact He2. }
  split; [exact He3|].
  split. { intros c a r e Hs Hf. specialize (He2 _ _ _ Hs). rewrite Hf in He2. exact He2. }
  split. { intros y mo year month Hs Hy Hmon Hr1 Hr2. specialize (Hm3 _ _ Hs).
           rewrite Hy, Hmon in Hm3. destruct (decide _) as [_|Hn]; [exact Hm3|].
           exfalso. apply Hn. split; assumption. }
  split; [exact Hm2|].
  split. { intros y mo e Hs [He|He]; specialize (Hm3 _ _ Hs); rewrite He in Hm3.
           - exact Hm3.
           - destruct (py_int y); exact Hm3. }
  intros y mo year month Hs Hy Hmon Hout. specialize (Hm3 _ _ Hs).
  rewrite Hy, Hmon in Hm3. destruct (decide _) as [[? ?]|_]; [|exact Hm3].
  exfalso. destruct Hout as [Hout|Hout]; apply Hout; assumption.
Qed.

Lemma lstrip_chars_head (l : list ascii) (c : ascii) (r : list ascii) :
  Str.lstrip_chars l = c :: r -> Str.isspace c = false.
Proof.
  induction l as [|a l IH]; [discriminate|]. cbn [Str.lstrip_chars].
  destruct (Str.isspace a) eqn:E; [exact IH|]. intros [= <- <-]. exact E.
Qed.

(** [split] never yields an empty word. *)
Lemma split_chars_nonempty (n : nat) (l : list ascii) :
  Forall (fun w => w <> []) (Str.split_chars n l).
Proof.
  revert l. induction n as [|n IH]; intros l; cbn [Str.split_chars];
    destruct (Str.lstrip_chars l) as [|c r] eqn:E; try constructor.
  - discriminate.
  - constructor.
  - apply lstrip_chars_head in E. cbn [Str.span_word]. rewrite E.
    destruct (Str.span_word r) as [w rest]. constructor; [discriminate|apply IH].
Qed.

Lemma split_max_first_nonempty (n : nat) (text first : string) (others : list string) :
  Str.split_max n text = first :: others -> first <> "".
Proof.
  unfold Str.split_max. intros Hs.
  pose proof (split_chars_nonempty n (list_ascii_of_string text)) as Hne.
  destruct (Str.split_chars n (list_ascii_of_string text)) as [|w ws]; [discriminate|].
  injection Hs as <- _. inversion Hne as [|? ? Hw _]; subst.
  destruct w; [congruence|discriminate].
Qed.

(** C10. An expense entry that parses (two words at least, the second one a
    number) is confirmed with "Expense Added" and the pending mode is removed
    whatever [store_expense] did: for an amount equal to 0 (or an empty
    category) it prints a complaint, inserts nothing and returns; when the
    insert raises, it prints the error and returns as well. *)
Theorem expense_confirmed_whatever_was_stored (chat_id : Z) (text : string)
    (ud : user_data) (m : mode) (category amount_text : string)
    (rest : list string) (amount : Q) :
  get_state chat_id ud = Some m ->
  Str.split_max 2 text = category :: amount_text :: rest ->
  py_float (PStr amount_text) = Ok amount ->
  let note := note_of rest in
  let h := handle_expense_input env chat_id text ud in
  let data := {| r_time := clock_now env;
                 r_category := Str.strip category;
                 r_amount := amount;
                 r_note := if String.eqb note "" then "" else Str.strip note |} in
  h_events h = Tracker.store_expense env category amount note
               ++ [SendMessage chat_id (ExpenseAdded category amount note)]
  /\ cleared chat_id ud h
  /\ h_raised h = None
  /\ category <> ""
  /\ (amount == 0 ->
      Tracker.store_expense env category amount note = [Printed RequiredFields])
  /\ Tracker.store_expense env "" amount note = [Printed RequiredFields]
  /\ (forall e, ~ amount == 0 -> remote_insert env data = InsertFails e ->
      exists line,
        Tracker.store_expense env category amount note
        = [Printed AttemptingStore; StoreInsert data; Printed line]).
Proof.
  intros Hm Hsplit Hfloat note h data.
  pose proof (split_max_first_nonempty _ _ _ _ Hsplit) as Hcat.
  subst h. rewrite (handle_expense_input_parsed _ _ _ _ _ _ _ _ Hm Hsplit Hfloat).
  split; [reflexivity|]. split; [apply cleared_by_delete|].
  split; [reflexivity|]. split; [exact Hcat|].
  unfold Tracker.store_expense. split; [|split; [reflexivity|]].
  - intros Hzero. apply Qeq_bool_iff in Hzero. rewrite Hzero, orb_true_r. reflexivity.
  - intros e Hnz Hfail. apply String.eqb_neq in Hcat. rewrite Hcat. cbn [orb].
    destruct (Qeq_bool amount 0) eqn:E; [apply Qeq_bool_iff in E; contradiction|].
    fold note. fold data. rewrite Hfail. destruct e; eexists; reflexivity.
Qed.

End BotFacts.

(** C6 on scenario B (an entry that is handled) and scenario C (a month
    query that is not). *)
Lemma input_clears_state_only_when_handled_witness :
  let A := Bot.AUTHORIZED_CHAT_ID in
  let adding : Bot.user_data := {[ A := waiting_for_expense ]} in
  let asking : Bot.user_data := {[ A := waiting_for_month ]} in
  (Bot.get_state A adding = Some waiting_for_expense
   /\ Bot.cleared A adding
        (@Bot.handle_expense_input Plain.builtins Plain.quiet A "Food 250 Lunch" adding))
  /\ (Bot.get_state A asking = Some waiting_for_month
      /\ Bot.preserved asking
           (@Bot.handle_month_input Plain.builtins Plain.quiet A "2025 13" asking)).
Proof.
  intros A adding asking.
  assert (H1 : Bot.get_state A adding = Some waiting_for_expense) by (vm_compute; reflexivity).
  assert (H2 : Bot.get_state A asking = Some waiting_for_month) by (vm_compute; reflexivity).
  split; split; [exact H1| |exact H2|].
  - destruct (@input_clears_state_only_when_handled Plain.builtins Plain.quiet
                A "Food 250 Lunch" adding _ H1) as (_ & _ & Hc & _).
    apply (Hc "Food" "250" ["Lunch"] 250); vm_compute; reflexivity.
  - destruct (@input_clears_state_only_when_handled Plain.builtins Plain.quiet
                A "2025 13" asking _ H2) as (_ & _ & _ & _ & _ & _ & _ & _ & Hp).
    apply (Hp "2025" "13" 2025%Z 13%Z); [vm_compute; reflexivity ..|].
    left. lia.
Defined.

(** C10 on an entry whose amount is 0, with a remote table that refuses
    every insert. *)
Lemma expense_confirmed_whatever_was_stored_witness :
  let A := Bot.AUTHORIZED_CHAT_ID in
  let adding : Bot.user_data := {[ A := waiting_for_expense ]} in
  let h := @Bot.handle_expense_input Plain.builtins Plain.failing A "Food 0 Lunch" adding in
  Bot.get_state A adding = Some waiting_for_expense
  /\ Str.split_max 2 "Food 0 Lunch" = ["Food"; "0"; "Lunch"]
  /\ @py_float Plain.builtins (PStr "0") = Ok 0
  /\ Bot.h_events h = [Printed RequiredFields; SendMessage A (ExpenseAdded "Food" 0 "Lunch")]
  /\ Bot.cleared A adding h.
Proof.
  intros A adding h.
  assert (H1 : Bot.get_state A adding = Some waiting_for_expense) by (vm_compute; reflexivity).
  assert (H2 : Str.split_max 2 "Food 0 Lunch" = ["Food"; "0"; "Lunch"]) by (vm_compute; reflexivity).
  assert (H3 : @py_float Plain.builtins (PStr "0") = Ok 0) by (vm_compute; reflexivity).
  destruct (@expense_confirmed_whatever_was_stored Plain.builtins Plain.failing
              A "Food 0 Lunch" adding _ "Food" "0" ["Lunch"] 0 H1 H2 H3)
    as (Hev & Hcl & _ & _ & Hzero & _).
  split; [exact H1|]. split; [exact H2|]. split; [exact H3|]. split; [|exact Hcl].
  subst h. rewrite Hev, Hzero by reflexivity. reflexivity.
Defined.

(** * Properties of the polling loop *)

Section LoopFacts.
Context `{PyBuiltins}.
Import Bot.

Lemma initial_cursor_follows : cursor_follows initial.
Proof. split; [constructor|reflexivity]. Qed.

(** Everything taken up so far lies below the cursor. *)
Lemma processed_below_cursor (b : bot) (c : Z) :
  cursor_follows b -> last_update_id b = Some c ->
  Forall (fun i => (i < c)%Z) (processed b).
Proof.
  intros [Hsorted Hcur] Hc. rewrite Hc in Hcur.
  destruct (last (processed b)) as [l|] eqn:El; [|discriminate].
  injection Hcur as ->. apply last_Some in El as [l' El]. rewrite El in *.
  apply Forall_app. split.
  - apply Forall_forall. intros i Hi.
    assert (i < l)%Z; [|lia].
    eapply (StronglySorted_app_1_elem_of _ _ _ i l Hsorted); [exact Hi|].
    apply list_elem_of_singleton. reflexivity.
  - repeat constructor. lia.
Qed.

Lemma processed_without_cursor (b : bot) :
  cursor_follows b -> last_update_id b = None -> processed b = [].
Proof.
  intros [_ Hcur] Hc. rewrite Hc in Hcur.
  destruct (last (processed b)) eqn:El; [discriminate|].
  apply last_None, El.
Qed.

(** What a fetch brings lies above everything taken up so far. *)
Lemma delivered_is_new (b : bot) (updates : list update) :
  cursor_follows b -> delivers (last_update_id b) updates ->
  Forall (fun u => Forall (fun i => (i < update_id u)%Z) (processed b)) updates.
Proof.
  intros Hinv [_ Hfrom].
  destruct (last_update_id b) as [c|] eqn:Hc.
  - pose proof (processed_below_cursor b c Hinv Hc) as Hbelow.
    eapply Forall_impl; [exact Hfrom|]. intros u Hu. cbn in Hu.
    eapply Forall_impl; [exact Hbelow|]. intros i Hi. cbn in Hi. lia.
  - rewrite (processed_without_cursor b Hinv Hc).
    apply Forall_forall. intros u _. constructor.
Qed.

(** Taking up one more update, above all the earlier ones. *)
Lemma cursor_follows_next (b : bot) (u : update) (ud : user_data) (evs : list event) :
  cursor_follows b ->
  Forall (fun i => (i < update_id u)%Z) (processed b) ->
  cursor_follows {| last_update_id := Some (update_id u + 1)%Z;
                    store := ud;
                    trace := evs;
                    processed := processed b ++ [update_id u] |}.
Proof.
  intros [Hsorted _] Hnew. split; cbn.
  - apply StronglySorted_app_2; [|exact Hsorted|repeat constructor].
    intros i j Hi Hj. apply list_elem_of_singleton in Hj as ->.
    rewrite Forall_forall in Hnew. apply Hnew, Hi.
  - rewrite last_snoc. reflexivity.
Qed.

(** A handler raises only when a report screen does. *)
Lemma handle_update_returns (env : environment) (u : update) (ud : user_data) :
  (forall r c, report_outcome env r c = None) ->
  h_raised (handle_update env u ud) = None.
Proof.
  intros Hquiet. unfold handle_update.
  destruct (u_content u) as [chat_id [text|]|cb chat_id data|]; try reflexivity.
  - destruct (String.eqb text "/start"); [reflexivity|].
    unfold handle_text_message.
    destruct (negb (is_authorized chat_id)); [reflexivity|].
    destruct (get_state chat_id ud) as [[]|]; [| |reflexivity].
    + unfold handle_expense_input.
      destruct (Str.split_max 2 text) as [|c [|a r]]; try reflexivity.
      destruct (py_float (PStr a)) as [q|[]]; try reflexivity.
      destruct (del_state chat_id ud); reflexivity.
    + unfold handle_month_input.
      destruct (Str.split text) as [|y [|mo [|x r]]]; try reflexivity.
      destruct (py_int y) as [year|[]]; try reflexivity.
      destruct (py_int mo) as [month|[]]; try reflexivity.
      destruct (negb _); [reflexivity|].
      destruct (Tracker.fetch_monthly_total env year month).
      destruct (datetime_first_day year month) as [?|[]]; try reflexivity.
      destruct (del_state chat_id ud); reflexivity.
  - unfold handle_callback_query, render.
    repeat match goal with
           | |- context [if ?c then _ else _] => destruct c
           end; cbn; auto.
Qed.

(** The [for] loop over one delivered batch. *)
Lemma for_updates_spec (world : Z -> environment) (updates : list update) (b : bot) :
  cursor_follows b ->
  delivers (last_update_id b) updates ->
  cursor_follows (for_updates world updates b)
  /\ exists done,
       done `prefix_of` updates
       /\ processed (for_updates world updates b) = processed b ++ map update_id done
       /\ (updates <> [] -> done <> [])
       /\ ((forall i r c, report_outcome (world i) r c = None) -> done = updates).
Proof.
  revert b. induction updates as [|u rest IH]; intros b Hinv Hdel.
  - split; [exact Hinv|]. exists []. cbn. rewrite app_nil_r. auto.
  - pose proof (delivered_is_new b _ Hinv Hdel) as Hnew.
    apply Forall_cons in Hnew as [Hu _].
    destruct Hdel as [Hsorted Hfrom]. cbn [map] in Hsorted.
    apply StronglySorted_inv in Hsorted as [Hsorted Hlt].
    cbn [for_updates].
    set (h := handle_update (world (update_id u)) u (store b)).
    set (b' := {| last_update_id := Some (update_id u + 1)%Z;
                  store := h_user_data h;
                  trace := trace b ++ h_events h;
                  processed := processed b ++ [update_id u] |}).
    assert (Hinv' : cursor_follows b') by (apply cursor_follows_next; assumption).
    destruct (h_raised h) as [e|] eqn:Hr.
    + split; [exact Hinv'|]. exists [u]. split; [apply prefix_cons, prefix_nil|].
      split; [reflexivity|]. split; [discriminate|].
      intros Hquiet. subst h. rewrite handle_update_returns in Hr by apply Hquiet.
      discriminate.
    + assert (Hdel' : delivers (last_update_id b') rest).
      { split; [exact Hsorted|]. cbn.
        rewrite Forall_map in Hlt. eapply Forall_impl; [exact Hlt|].
        intros v Hv. cbn in Hv. lia. }
      destruct (IH b' Hinv' Hdel') as (Hfin & done & Hpre & Hproc & _ & Hall).
      split; [exact Hfin|]. exists (u :: done).
      split; [apply prefix_cons, Hpre|].
      split; [rewrite Hproc; cbn; rewrite <- app_assoc; reflexivity|].
      split; [discriminate|].
      intros Hquiet. rewrite (Hall Hquiet). reflexivity.
Qed.

Lemma step_cursor_follows (b b' : bot) :
  step b b' -> cursor_follows b -> cursor_follows b'.
Proof.
  intros [b0 world updates Hdel|b0] Hinv; [|exact Hinv].
  apply for_updates_spec; assumption.
Qed.

Lemma reachable_cursor_follows (b : bot) : reachable b -> cursor_follows b.
Proof.
  unfold reachable. revert b.
  apply (rtc_ind_r (fun b => cursor_follows b) initial).
  - apply initial_cursor_follows.
  - intros b1 b2 _ Hstep IH. eapply step_cursor_follows; eauto.
Qed.

Lemma increasing_NoDup (l : list Z) : StronglySorted Z.lt l -> NoDup l.
Proof.
  induction 1 as [|x l _ IH Hx]; constructor; [|exact IH].
  intros Hin. rewrite Forall_forall in Hx. specialize (Hx x Hin). lia.
Qed.

(** C9, as the code and the transport have it. At every turn of the loop:
    the identifiers taken up so far are strictly increasing, so none was
    taken up twice, and the cursor is the last of them plus one (there is no
    cursor before the first); the fetch passes the cursor, so what it brings
    has identifiers at or after the cursor, all strictly after the last
    identifier taken up; the batch is taken up in arrival order, from its
    first update on and to its end unless a handler raises; and afterwards
    the cursor is again the last identifier taken up plus one. *)
Theorem cursor_discipline (b : bot) (world : Z -> environment) (updates : list update) :
  reachable b ->
  delivers (last_update_id b) updates ->
  let b' := for_updates world updates b in
  NoDup (processed b)
  /\ last_update_id b = (fun i => (i + 1)%Z) <$> last (processed b)
  /\ (forall c, last_update_id b = Some c ->
        Forall (fun u => (c <= update_id u)%Z) updates)
  /\ Forall (fun u => Forall (fun i => (i < update_id u)%Z) (processed b)) updates
  /\ (exists done,
        done `prefix_of` updates
        /\ processed b' = processed b ++ map update_id done
        /\ (updates <> [] -> done <> [])
        /\ ((forall i r c, report_outcome (world i) r c = None) -> done = updates))
  /\ NoDup (processed b')
  /\ last_update_id b' = (fun i => (i + 1)%Z) <$> last (processed b')
  /\ reachable b'.
Proof.
  intros Hreach Hdel b'.
  pose proof (reachable_cursor_follows b Hreach) as Hinv.
  destruct (for_updates_spec world updates b Hinv Hdel) as ([Hs' Hc'] & Hdone).
  destruct Hinv as [Hs Hc].
  split; [apply increasing_NoDup, Hs|]. split; [exact Hc|].
  split. { intros c Hcur. destruct Hdel as [_ Hfrom]. rewrite Hcur in Hfrom. exact Hfrom. }
  split; [apply delivered_is_new; [split|]; assumption|].
  split; [exact Hdone|].
  split; [apply increasing_NoDup, Hs'|]. split; [exact Hc'|].
  eapply rtc_r; [exact Hreach|]. apply step_batch, Hdel.
Qed.

End LoopFacts.

(** C9 on the first two turns of the loop: nothing taken up yet, a batch of
    two updates arrives. *)
Lemma cursor_discipline_witness :
  let batch := [Plain.hello 7; Plain.hello 9] in
  let b' := @Bot.for_updates Plain.builtins Plain.calm batch Bot.initial in
  @Bot.reachable Plain.builtins Bot.initial
  /\ Bot.delivers (Bot.last_update_id Bot.initial) batch
  /\ NoDup (Bot.processed b')
  /\ Bot.last_update_id b' = (fun i => (i + 1)%Z) <$> last (Bot.processed b')
  /\ @Bot.reachable Plain.builtins b'.
Proof.
  intros batch b'.
  assert (H1 : @Bot.reachable Plain.builtins Bot.initial) by apply rtc_refl.
  assert (H2 : Bot.delivers (Bot.last_update_id Bot.initial) batch).
  { split; [|exact I]. repeat constructor. }
  destruct (@cursor_discipline Plain.builtins Bot.initial Plain.calm batch H1 H2)
    as (_ & _ & _ & _ & _ & Hnd & Hcur & Hreach).
  split; [exact H1|]. split; [exact H2|]. split; [exact Hnd|]. split; [exact Hcur|exact Hreach].
Defined.

(** C9 as stated fails: after update 7 the cursor is 8, and the next fetch
    brings update 8, whose identifier is the cursor itself and not strictly
    after it. *)
Lemma fetch_brings_the_update_at_the_cursor :
  let b := @Bot.for_updates Plain.builtins Plain.calm [Plain.hello 7] Bot.initial in
  let b' := @Bot.for_updates Plain.builtins Plain.calm [Plain.hello 8] b in
  @Bot.reachable Plain.builtins b
  /\ Bot.last_update_id b = Some 8%Z
  /\ Bot.delivers (Bot.last_update_id b) [Plain.hello 8]
  /\ Bot.processed b' = [7; 8]%Z
  /\ ~ (8 < Bot.update_id (Plain.hello 8))%Z.
Proof.
  intros b b'. split.
  - apply rtc_once. apply (@Bot.step_batch Plain.builtins Bot.initial Plain.calm [Plain.hello 7]).
    split; [|exact I]. repeat constructor.
  - split; [vm_compute; reflexivity|]. split.
    + split; [repeat constructor|]. repeat constructor. vm_compute. discriminate.
    + split; [vm_compute; reflexivity|]. cbn. lia.
Qed.

(** C8 as stated fails: deleting the entry of an identifier that has none is
    an error. *)
Lemma del_of_absent_raises :
  Bot.get_state 7 ∅ = None
  /\ Bot.del_state 7 ∅ = Raise KeyError
  /\ Bot.del_state 7 ∅ <> Ok ∅.
Proof. repeat split. discriminate. Qed.

(** C4 as stated fails: a mode pending before "/start" is pending after it. *)
Lemma start_leaves_pending_mode :
  let ud : Bot.user_data := {[ Bot.AUTHORIZED_CHAT_ID := waiting_for_expense ]} in
  let h := @Bot.handle_update Plain.builtins Plain.quiet
             {| Bot.update_id := 1;
                Bot.u_content := Bot.Message Bot.AUTHORIZED_CHAT_ID (Some "/start") |} ud in
  Bot.get_state Bot.AUTHORIZED_CHAT_ID ud = Some waiting_for_expense
  /\ Bot.get_state Bot.AUTHORIZED_CHAT_ID (Bot.h_user_data h) = Some waiting_for_expense
  /\ Bot.get_state Bot.AUTHORIZED_CHAT_ID (Bot.h_user_data h) <> None.
Proof. repeat split. discriminate. Qed.

(** * The scenarios of the specification, run on the model *)

(** Scenario A: two expenses, "Food" and "Uncategorized", 300 for 2025-10. *)
Example scenario_A_runs :
  match snd (@Ana.process_data Plain.builtins false Plain.scenario_A) with
  | Ok agg =>
      Ana.amounts agg = [250; 50]
      /\ Ana.categories agg = ["Food"; "Uncategorized"]
      /\ Ana.category_totals agg = [("Food", 250); ("Uncategorized", 50)]
      /\ Ana.monthly_totals agg = [("2025-10", 300)]
  | Raise _ => False
  end.
Proof. vm_compute. repeat split. Qed.

(** Scenario B: one insert of ("Food", 250, "Lunch"), then the confirmation;
    the pending mode is gone. *)
Example scenario_B_runs :
  let A := Bot.AUTHORIZED_CHAT_ID in
  let h := @Bot.handle_text_message Plain.builtins Plain.quiet A "Food 250 Lunch"
             {[ A := waiting_for_expense ]} in
  Bot.h_events h =
    [ Printed AttemptingStore;
      StoreInsert {| r_time := "2025-10-01T10:00:00"; r_category := "Food";
                     r_amount := 250; r_note := "Lunch" |};
      Printed StoredOk;
      SendMessage A (ExpenseAdded "Food" 250 "Lunch") ]
  /\ Bot.get_state A (Bot.h_user_data h) = None.
Proof. vm_compute. split; reflexivity. Qed.

(** Scenario C: "2025 13" is turned down for its month; the mode stays. *)
Example scenario_C_runs :
  let A := Bot.AUTHORIZED_CHAT_ID in
  let h := @Bot.handle_text_message Plain.builtins Plain.quiet A "2025 13"
             {[ A := waiting_for_month ]} in
  Bot.h_events h = [SendMessage A MonthOutOfRange]
  /\ Bot.get_state A (Bot.h_user_data h) = Some waiting_for_month.
Proof. vm_compute. split; reflexivity. Qed.

(** Scenario D: the only record lacks its amount; it is skipped with one
    reason and the request fails. *)
Example scenario_D_runs :
  Ana.skip_reasons (fst (@Ana.process_data Plain.builtins false Plain.scenario_D)) = 1%nat
  /\ match snd (@Ana.process_data Plain.builtins false Plain.scenario_D) with
     | Ok _ => False
     | Raise e => e = ValueError
     end.
Proof. vm_compute. split; reflexivity. Qed.

(** * Further properties of the aggregation *)

Section BucketFacts.
Import Ana Summary.

Lemma mem_In (k : string) (ks : list string) : mem k ks = true <-> In k ks.
Proof.
  unfold mem. rewrite existsb_exists. split.
  - intros (x & Hx & E). apply String.eqb_eq in E. subst. exact Hx.
  - intros Hk. exists k. split; [exact Hk|apply String.eqb_refl].
Qed.

Lemma add_total_keys (k : string) (a : Q) (d : totals) :
  map fst (add_total k a d) = map fst d ++ (if mem k (map fst d) then [] else [k]).
Proof.
  induction d as [|[k' v] d IH]; [reflexivity|].
  cbn [add_total map fst mem existsb].
  rewrite (String.eqb_sym k k').
  destruct (String.eqb k' k) eqn:E; cbn [orb map fst].
  - rewrite app_nil_r. reflexivity.
  - rewrite IH. reflexivity.
Qed.

Lemma filter_filter_neq (keys : list string) (k : string) (l : list string) :
  mem k keys = true ->
  List.filter (fun x => negb (mem x keys)) (List.filter (fun x => negb (String.eqb x k)) l)
  = List.filter (fun x => negb (mem x keys)) l.
Proof.
  intros Hk. induction l as [|x l IH]; [reflexivity|]. cbn [List.filter].
  destruct (String.eqb x k) eqn:E; cbn [negb List.filter]; rewrite IH; [|reflexivity].
  apply String.eqb_eq in E. subst x. rewrite Hk. reflexivity.
Qed.

Lemma filter_snoc_key (keys : list string) (k : string) (l : list string) :
  List.filter (fun x => negb (mem x (keys ++ [k]))) l
  = List.filter (fun x => negb (mem x keys)) (List.filter (fun x => negb (String.eqb x k)) l).
Proof.
  induction l as [|x l IH]; [reflexivity|]. cbn [List.filter].
  unfold mem at 1. rewrite existsb_app. cbn [existsb]. rewrite orb_false_r.
  fold (mem x keys).
  destruct (String.eqb x k) eqn:E; cbn [negb List.filter].
  - rewrite orb_true_r. cbn [negb]. exact IH.
  - rewrite orb_false_r. rewrite IH. reflexivity.
Qed.

(** The keys after a run of additions: the old keys, then the new ones in
    the order they first came. *)
Lemma feed_keys (ps : list (string * Q)) (d : totals) :
  map fst (feed ps d)
  = map fst d ++ List.filter (fun k => negb (mem k (map fst d)))
                             (first_occurrences (map fst ps)).
Proof.
  revert d. induction ps as [|[k a] ps IH]; intros d.
  - cbn. rewrite app_nil_r. reflexivity.
  - cbn [feed fold_left map fst snd first_occurrences List.filter].
    fold (feed ps (add_total k a d)). rewrite IH, add_total_keys.
    destruct (mem k (map fst d)) eqn:Hk; cbn [negb].
    + rewrite app_nil_r, filter_filter_neq by exact Hk. reflexivity.
    + rewrite <- app_assoc. cbn [app]. rewrite filter_snoc_key. reflexivity.
Qed.

Lemma first_occurrences_In (k : string) (ks : list string) :
  In k (first_occurrences ks) <-> In k ks.
Proof.
  induction ks as [|x ks IH]; [reflexivity|]. cbn [first_occurrences].
  split.
  - intros [->|Hin]; [left; reflexivity|].
    apply List.filter_In in Hin as [Hin _]. right. apply IH, Hin.
  - intros [->|Hin]; [left; reflexivity|].
    destruct (String.eqb k x) eqn:E.
    + apply String.eqb_eq in E. left. congruence.
    + right. apply List.filter_In. split; [apply IH, Hin|]. rewrite E. reflexivity.
Qed.

Lemma first_occurrences_NoDup (ks : list string) : NoDup (first_occurrences ks).
Proof.
  induction ks as [|x ks IH]; cbn [first_occurrences]; constructor.
  - intros Hin. apply list_elem_of_In, List.filter_In in Hin as [_ Hne].
    rewrite String.eqb_refl in Hne. discriminate.
  - apply NoDup_ListNoDup, List.NoDup_filter, NoDup_ListNoDup, IH.
Qed.

Lemma get_total_add_total (k k' : string) (a : Q) (d : totals) :
  get_total k (add_total k' a d)
  == get_total k d + (if String.eqb k' k then a else 0).
Proof.
  induction d as [|[k0 v] d IH]; cbn [add_total get_total].
  - destruct (String.eqb k' k); ring.
  - destruct (String.eqb k0 k') eqn:E0; cbn [get_total].
    + apply String.eqb_eq in E0. subst k0.
      destruct (String.eqb k' k); ring.
    + destruct (String.eqb k0 k) eqn:E1; [|exact IH].
      apply String.eqb_eq in E1. subst k0.
      rewrite String.eqb_sym in E0. rewrite E0. ring.
Qed.

(** The value of a bucket after a run of additions: what it held, plus
    every amount added under its key. *)
Lemma feed_value (k : string) (ps : list (string * Q)) (d : totals) :
  get_total k (feed ps d)
  == get_total k d
     + py_sum (map snd (List.filter (fun p => String.eqb (fst p) k) ps)).
Proof.
  revert d. induction ps as [|[k' a] ps IH]; intros d.
  - cbn. unfold py_sum. cbn. ring.
  - cbn [feed fold_left fst snd List.filter].
    fold (feed ps (add_total k' a d)). rewrite IH, get_total_add_total.
    destruct (String.eqb k' k); cbn [map snd]; rewrite ?py_sum_cons; ring.
Qed.

End BucketFacts.

Section AggregationFacts.
Context `{PyBuiltins}.
Import Ana Summary.

Lemma record_all_feeds (xs : list expense) (agg : aggregates) :
  category_totals (record_all xs agg)
  = feed (map (fun x => (e_category x, e_amount x)) xs) (category_totals agg)
  /\ monthly_totals (record_all xs agg)
     = feed (map (fun x => (strftime_Ym (e_date x), e_amount x)) xs) (monthly_totals agg).
Proof.
  revert agg. induction xs as [|x xs IH]; intros agg; [split; reflexivity|].
  destruct (IH (record_expense x agg)) as [Hc Hm].
  cbn [record_all fold_left] in *. fold (record_all xs (record_expense x agg)).
  rewrite Hc, Hm. split; reflexivity.
Qed.

(** What [process_data] hands back, in terms of the validated expenses. *)
Lemma process_data_result (DEBUG : bool) (all_data : list raw_record) :
  snd (process_data DEBUG all_data)
  = match validated all_data with
    | [] => Raise ValueError
    | _ :: _ => Ok (record_all (validated all_data) empty_aggregates)
    end.
Proof.
  rewrite process_data_unfold. cbn [snd].
  rewrite process_loop_aggregates. reflexivity.
Qed.

(** The keys of the two maps after a run of accepted expenses, from empty
    collections. *)
Lemma record_all_keys (xs : list expense) :
  let agg := record_all xs empty_aggregates in
  map fst (category_totals agg) = first_occurrences (categories agg)
  /\ map fst (monthly_totals agg) = first_occurrences (map strftime_Ym (dates agg))
  /\ NoDup (map fst (category_totals agg))
  /\ NoDup (map fst (monthly_totals agg)).
Proof.
  cbv zeta.
  destruct (record_all_feeds xs empty_aggregates) as [Hc Hm].
  destruct (record_all_amounts xs empty_aggregates) as (_ & Hcat & Hd).
  cbn [categories dates empty_aggregates app] in Hcat, Hd.
  rewrite Hc, Hm, Hcat, Hd, !feed_keys.
  cbn [category_totals monthly_totals empty_aggregates map app].
  rewrite !map_map. cbn [fst].
  assert (Hid : forall l : list string, List.filter (fun k => negb (mem k [])) l = l).
  { induction l as [|k l IH]; [reflexivity|].
    cbn [List.filter mem existsb negb]. f_equal. exact IH. }
  rewrite !Hid. repeat split; apply first_occurrences_NoDup.
Qed.

(** The keys of both maps of totals are distinct and stand in the order in
    which the loop first met them: the categories, and the months, of the
    validated expenses. *)
Theorem buckets_in_order_of_first_occurrence (DEBUG : bool) (all_data : list raw_record) :
  match snd (process_data DEBUG all_data) with
  | Ok agg =>
      map fst (category_totals agg) = first_occurrences (categories agg)
      /\ map fst (monthly_totals agg) = first_occurrences (map strftime_Ym (dates agg))
      /\ NoDup (map fst (category_totals agg))
      /\ NoDup (map fst (monthly_totals agg))
  | Raise _ => validated all_data = []
  end.
Proof.
  rewrite process_data_result.
  destruct (validated all_data) as [|x xs] eqn:Hv; [reflexivity|].
  apply record_all_keys.
Qed.

(** Each bucket holds the sum of the amounts of its own expenses: a category
    total is the sum over the validated expenses of that category, a monthly
    total the sum over those of that month; a key no expense has reads 0. *)
Theorem bucket_is_the_sum_of_its_expenses (DEBUG : bool) (all_data : list raw_record)
    (key : string) :
  match snd (process_data DEBUG all_data) with
  | Ok agg =>
      get_total key (category_totals agg)
      == py_sum (map e_amount
           (List.filter (fun x => String.eqb (e_category x) key) (validated all_data)))
      /\ get_total key (monthly_totals agg)
         == py_sum (map e_amount
              (List.filter (fun x => String.eqb (strftime_Ym (e_date x)) key)
                 (validated all_data)))
  | Raise _ => validated all_data = []
  end.
Proof.
  rewrite process_data_result.
  destruct (validated all_data) as [|x xs] eqn:Hv; [reflexivity|].
  destruct (record_all_feeds (x :: xs) empty_aggregates) as [Hc Hm].
  rewrite Hc, Hm, !feed_value.
  cbn [category_totals monthly_totals empty_aggregates get_total].
  assert (Hf : forall (f : expense -> string) (l : list expense),
            map snd (List.filter (fun p => String.eqb (fst p) key)
                       (map (fun x => (f x, e_amount x)) l))
            = map e_amount (List.filter (fun x => String.eqb (f x) key) l)).
  { intros f l. induction l as [|y l IH]; [reflexivity|]. cbn [map List.filter fst].
    destruct (String.eqb (f y) key); cbn [map snd]; rewrite IH; reflexivity. }
  rewrite !Hf. split; ring.
Qed.

(** The log of the loop, record by record. *)
Lemma process_items_log (DEBUG : bool) (l : list raw_record)
    (out : list log_line) (agg : aggregates) :
  fst (fold_left (process_item DEBUG) l (out, agg))
  = out ++ flat_map (item_lines DEBUG) l.
Proof.
  revert out agg. induction l as [|item l IH]; intros out agg.
  - cbn. rewrite app_nil_r. reflexivity.
  - cbn [fold_left flat_map process_item]. unfold item_lines at 1.
    destruct (validate item) as [warn [x|e]]; rewrite IH, <- ?app_assoc; reflexivity.
Qed.

Lemma process_data_log (DEBUG : bool) (all_data : list raw_record) :
  fst (process_data DEBUG all_data) = flat_map (item_lines DEBUG) all_data.
Proof.
  rewrite process_data_unfold. cbn [fst]. unfold process_loop.
  rewrite process_items_log. reflexivity.
Qed.

Lemma item_lines_debug_length (item : raw_record) :
  (length (item_lines true item)
   + match accepted item with Some _ => 1 | None => 0 end
   = S (length (item_lines false item)))%nat.
Proof.
  unfold item_lines, accepted.
  destruct (validate item) as [warn [x|e]]; cbn [report_skip];
    rewrite ?length_app; cbn [length]; lia.
Qed.

(** The debug switch changes what is printed and nothing else: the result of
    [process_data] is the same with and without it, as many skip reasons are
    printed, and debug mode prints exactly one line more per skipped record. *)
Theorem debug_changes_only_the_log (all_data : list raw_record) :
  snd (process_data true all_data) = snd (process_data false all_data)
  /\ skip_reasons (fst (process_data true all_data))
     = skip_reasons (fst (process_data false all_data))
  /\ (length (fst (process_data true all_data)) + length (validated all_data)
      = length (fst (process_data false all_data)) + length all_data)%nat.
Proof.
  split; [rewrite !process_data_result; reflexivity|].
  rewrite !process_data_log. split.
  - induction all_data as [|item l IH]; [reflexivity|].
    cbn [flat_map]. rewrite !skip_reasons_app, IH. f_equal.
    unfold item_lines. destruct (validate item) as [warn [x|e]]; [reflexivity|].
    rewrite !skip_reasons_app, !report_skip_one_reason. reflexivity.
  - induction all_data as [|item l IH]; [reflexivity|].
    cbn [flat_map]. rewrite validated_cons, !length_app.
    pose proof (item_lines_debug_length item) as Hi.
    destruct (accepted item); cbn [length] in *; lia.
Qed.

Lemma negative_warning_In (a b : Q) :
  In (WarningNegative a) (negative_warning b) <-> a = b /\ b < 0.
Proof.
  unfold negative_warning. destruct (Qlt_le_dec b 0) as [Hneg|Hpos]; cbn.
  - split; [intros [[= ->]|[]]; auto|intros [-> _]; auto].
  - split; [intros []|]. intros [_ Hlt]. exfalso.
    apply (Qlt_irrefl b). eapply Qlt_le_trans; eauto.
Qed.

(** The warnings [validate] prints are those of the amount it parsed. *)
Lemma validate_warnings (item : raw_record) (a : Q) :
  In (WarningNegative a) (fst (validate item)) <->
  a < 0 /\ is_Some (item !! "time") /\ is_Some (item !! "category")
  /\ exists v, item !! "amount" = Some v /\ py_float v = Ok a.
Proof.
  unfold validate.
  destruct (item !! "amount") as [va|]; [|cbn; split; [intros []|intros (_ & _ & _ & v & [=] & _)]].
  destruct (item !! "time") as [vt|]; [|cbn; split; [intros []|intros (_ & [? [=]] & _)]].
  destruct (item !! "category") as [vc|]; [|cbn; split; [intros []|intros (_ & _ & [? [=]] & _)]].
  destruct (py_float va) as [b|e] eqn:Hf.
  - assert (Hw : fst (match vt with
                      | PStr t =>
                          match fromisoformat (Str.before "T" t) with
                          | Ok d => (negative_warning b,
                                     Ok {| e_date := d; e_amount := b;
                                           e_category := clean_category vc |})
                          | Raise e => (negative_warning b, Raise e)
                          end
                      | _ => (negative_warning b, Raise AttributeError)
                      end) = negative_warning b).
    { destruct vt; try reflexivity. destruct (fromisoformat _); reflexivity. }
    cbv zeta. rewrite Hw, negative_warning_In. split.
    + intros [-> Hneg]. repeat split; eauto.
    + intros (Hneg & _ & _ & v & [= <-] & Hv). rewrite Hf in Hv.
      injection Hv as ->. auto.
  - cbn. split; [intros []|]. intros (_ & _ & _ & v & [= <-] & Hv). congruence.
Qed.

(** A negative amount is no reason to skip a record. The loop warns exactly
    about the negative amounts [float] produced from records holding all
    three fields; in particular every validated expense with a negative amount
    is warned about, and it is in the collections with that amount. *)
Theorem negative_amounts_are_kept_and_warned (DEBUG : bool) (all_data : list raw_record) :
  (forall a,
     In (WarningNegative a) (fst (process_data DEBUG all_data)) <->
     a < 0 /\ exists item v,
       In item all_data
       /\ is_Some (item !! "time") /\ is_Some (item !! "category")
       /\ item !! "amount" = Some v /\ py_float v = Ok a)
  /\ (forall x,
       In x (validated all_data) -> e_amount x < 0 ->
       In (WarningNegative (e_amount x)) (fst (process_data DEBUG all_data))).
Proof.
  assert (Hlog : forall a,
            In (WarningNegative a) (fst (process_data DEBUG all_data)) <->
            exists item, In item all_data /\ In (WarningNegative a) (fst (validate item))).
  { intros a. rewrite process_data_log, in_flat_map. split.
    - intros (item & Hin & Hl). exists item. split; [exact Hin|].
      unfold item_lines in Hl. destruct (validate item) as [warn [x|e]]; [exact Hl|].
      apply in_app_or in Hl as [Hl|Hl]; [exact Hl|].
      destruct DEBUG; cbn in Hl; intuition discriminate.
    - intros (item & Hin & Hl). exists item. split; [exact Hin|].
      unfold item_lines. destruct (validate item) as [warn [x|e]]; [exact Hl|].
      apply in_or_app. left. exact Hl. }
  split.
  - intros a. rewrite Hlog. split.
    + intros (item & Hin & Hl). apply validate_warnings in Hl as (Hneg & Ht & Hc & v & Hv & Hf).
      split; [exact Hneg|]. exists item, v. auto.
    + intros (Hneg & item & v & Hin & Ht & Hc & Hv & Hf). exists item.
      split; [exact Hin|]. apply validate_warnings. eauto 6.
  - intros x Hx Hneg. apply Hlog.
    destruct (validated_accepted _ _ Hx) as (item & Hin & Hacc).
    exists item. split; [exact Hin|]. apply validate_warnings.
    destruct (accepted_fields _ _ Hacc) as (va & vc & Hva & Hf & Hvc & _).
    split; [exact Hneg|]. split.
    + unfold accepted, validate in Hacc. rewrite Hva in Hacc.
      destruct (item !! "time"); [eauto|discriminate].
    + split; [rewrite Hvc; eauto|]. exists va. auto.
Qed.

End AggregationFacts.

(** * Further properties of the charts and of the statistics *)

Section SummaryFacts.
Import Ana Summary.

Lemma sorted_desc_length (d : totals) : length (sorted_desc d) = length d.
Proof. apply ranks_length, sorted_desc_ranks. Qed.

(** [max] with a key against the stable descending sort: the item [max]
    returns is the first of the ranking, unless the item it started from is
    at least as large. *)
Lemma max_item_from_head (best : string * Q) (items : totals) :
  max_item_from best items
  = match sorted_desc items with
    | h :: _ => if Qle_bool (snd h) (snd best) then best else h
    | [] => best
    end.
Proof.
  revert best. induction items as [|x items IH]; intros best; [reflexivity|].
  cbn [max_item_from sorted_desc]. rewrite IH.
  destruct (sorted_desc items) as [|h s]; cbn [insert_desc]; [reflexivity|].
  destruct (Qle_bool (snd x) (snd best)) eqn:Exb;
    destruct (Qle_bool (snd h) (snd x)) eqn:Ehx;
    rewrite ?Exb, ?Ehx; try reflexivity.
  - (* h <= x <= best *)
    assert (Hhb : Qle_bool (snd h) (snd best) = true).
    { apply Qle_bool_iff in Exb, Ehx. apply Qle_bool_iff. eapply Qle_trans; eauto. }
    rewrite Hhb. reflexivity.
  - (* best < x < h *)
    destruct (Qle_bool (snd h) (snd best)) eqn:Ehb; [|reflexivity].
    apply Qle_bool_iff in Ehb. exfalso.
    assert (Hxh : snd x < snd h).
    { apply Qnot_le_lt. intros Hle. apply Qle_bool_iff in Hle. congruence. }
    assert (Hbx : snd best < snd x).
    { apply Qnot_le_lt. intros Hle. apply Qle_bool_iff in Hle. congruence. }
    apply (Qlt_irrefl (snd x)). eapply Qlt_le_trans; [exact Hxh|].
    eapply Qle_trans; [exact Ehb|]. apply Qlt_le_weak, Hbx.
Qed.

(** Where [max] with a key lands: on the first item that no other item
    exceeds. *)
Lemma max_item_from_first (items pre mid : totals) (best : string * Q) :
  Forall (fun p => snd p < snd best) pre ->
  Forall (fun p => snd p <= snd best) mid ->
  exists pre' post',
    (pre ++ best :: mid) ++ items = pre' ++ max_item_from best items :: post'
    /\ Forall (fun p => snd p < snd (max_item_from best items)) pre'
    /\ Forall (fun p => snd p <= snd (max_item_from best items)) post'.
Proof.
  revert pre mid best. induction items as [|x items IH]; intros pre mid best Hpre Hmid.
  - exists pre, mid. rewrite app_nil_r. auto.
  - cbn [max_item_from]. destruct (Qle_bool (snd x) (snd best)) eqn:E.
    + apply Qle_bool_iff in E.
      destruct (IH pre (mid ++ [x]) best Hpre) as (pre' & post' & Heq & H1 & H2).
      { apply Forall_app. split; [exact Hmid|]. repeat constructor. exact E. }
      exists pre', post'. split; [|auto].
      rewrite <- Heq, <- !app_assoc. cbn [app]. rewrite <- app_assoc. reflexivity.
    + assert (Hbx : snd best < snd x).
      { apply Qnot_le_lt. intros Hle. apply Qle_bool_iff in Hle. congruence. }
      destruct (IH (pre ++ best :: mid) [] x) as (pre' & post' & Heq & H1 & H2).
      { apply Forall_app. split.
        - eapply Forall_impl; [exact Hpre|]. intros p Hp. cbn in Hp.
          eapply Qlt_trans; eauto.
        - constructor; [exact Hbx|].
          eapply Forall_impl; [exact Hmid|]. intros p Hp. cbn in Hp.
          eapply Qle_lt_trans; eauto. }
      { constructor. }
      exists pre', post'. split; [|auto].
      rewrite <- Heq, <- !app_assoc. reflexivity.
Qed.

(** The top category of the statistics is the first label of both charts.
    It is the earliest category whose total no other exceeds: the categories
    before it have strictly smaller totals, those after it totals that are
    not larger. An empty map has no top category and draws no slice. *)
Theorem top_category_leads_the_charts (category_totals : totals) :
  top_category category_totals = head (fst (plot_category_pie category_totals))
  /\ top_category category_totals = head (fst (Bot.send_category_chart category_totals))
  /\ match top_category category_totals with
     | Some c =>
         exists v before after,
           category_totals = before ++ (c, v) :: after
           /\ Forall (fun p => snd p < v) before
           /\ Forall (fun p => snd p <= v) after
     | None => category_totals = []
     end.
Proof.
  destruct category_totals as [|x items]; [repeat split|].
  assert (Hhead : exists rest,
            sorted_desc (x :: items) = max_item_from x items :: rest).
  { cbn [sorted_desc]. rewrite max_item_from_head.
    destruct (sorted_desc items) as [|h s]; cbn [insert_desc]; [eauto|].
    destruct (Qle_bool (snd h) (snd x)); eauto. }
  destruct Hhead as [rest Hs].
  pose proof (sorted_desc_length (x :: items)) as Hlen.
  unfold plot_category_pie, Bot.send_category_chart, top_category.
  rewrite Hs in *. cbn [length] in Hlen.
  split; [|split].
  - destruct (3 <? _)%nat; reflexivity.
  - destruct (5 <? _)%nat; reflexivity.
  - destruct (max_item_from_first items [] [] x) as (pre & post & Heq & H1 & H2);
      [constructor..|].
    cbn [app] in Heq. destruct (max_item_from x items) as [c v].
    exists v, pre, post. auto.
Qed.

Lemma max_from_spec (xs : list Q) (best : Q) :
  In (max_from best xs) (best :: xs)
  /\ Forall (fun a => a <= max_from best xs) (best :: xs).
Proof.
  revert best. induction xs as [|x xs IH]; intros best.
  - split; [left; reflexivity|]. repeat constructor. apply Qle_refl.
  - cbn [max_from]. destruct (Qle_bool x best) eqn:E.
    + destruct (IH best) as [Hin Hall]. apply Forall_cons in Hall as [Hb Hxs].
      split; [destruct Hin as [<-|Hin]; [left|right; right]; auto|].
      constructor; [exact Hb|]. constructor; [|exact Hxs].
      apply Qle_bool_iff in E. eapply Qle_trans; eauto.
    + destruct (IH x) as [Hin Hall]. apply Forall_cons in Hall as [Hx Hxs].
      split; [right; exact Hin|].
      constructor; [|constructor; assumption].
      apply Qlt_le_weak. eapply Qlt_le_trans; [|exact Hx].
      apply Qnot_le_lt. intros Hle. apply Qle_bool_iff in Hle. congruence.
Qed.

Lemma min_from_spec (xs : list Q) (best : Q) :
  In (min_from best xs) (best :: xs)
  /\ Forall (fun a => min_from best xs <= a) (best :: xs).
Proof.
  revert best. induction xs as [|x xs IH]; intros best.
  - split; [left; reflexivity|]. repeat constructor. apply Qle_refl.
  - cbn [min_from]. destruct (Qle_bool best x) eqn:E.
    + destruct (IH best) as [Hin Hall]. apply Forall_cons in Hall as [Hb Hxs].
      split; [destruct Hin as [<-|Hin]; [left|right; right]; auto|].
      constructor; [exact Hb|]. constructor; [|exact Hxs].
      apply Qle_bool_iff in E. eapply Qle_trans; eauto.
    + destruct (IH x) as [Hin Hall]. apply Forall_cons in Hall as [Hx Hxs].
      split; [right; exact Hin|].
      constructor; [|constructor; assumption].
      apply Qlt_le_weak. eapply Qle_lt_trans; [exact Hx|].
      apply Qnot_le_lt. intros Hle. apply Qle_bool_iff in Hle. congruence.
Qed.

(** A sum lies between its length times a lower and an upper bound. *)
(** The figures of [send_statistics], for amounts that are not empty and a
    map of totals that is not empty. *)
Lemma statistics_of_spec (amounts : list Q) (category_totals : totals) :
  amounts <> [] -> category_totals <> [] ->
  exists st,
    statistics_of amounts category_totals = Some st
    /\ total st = py_sum amounts
    /\ transactions st = length amounts
    /\ Some (top st) = top_category category_totals
    /\ In (minimum st) amounts
    /\ In (maximum st) amounts
    /\ Forall (fun a => minimum st <= a <= maximum st) amounts.
Proof.
  intros Ha Hc. destruct amounts as [|a rest]; [congruence|].
  destruct category_totals as [|c items]; [congruence|].
  eexists. split; [reflexivity|]. cbn [total transactions top minimum maximum average].
  destruct (max_from_spec rest a) as [Hmax_in Hmax].
  destruct (min_from_spec rest a) as [Hmin_in Hmin].
  assert (Hall : Forall (fun x => min_from a rest <= x <= max_from a rest) (a :: rest)).
  { rewrite Forall_forall in Hmax, Hmin. apply Forall_forall. intros x Hx. auto. }
  repeat (split; [first [reflexivity | assumption]|]). exact Hall.
Qed.

End SummaryFacts.

Section StatisticsFacts.
Context `{PyBuiltins}.
Import Ana Summary.

(** Whenever [process_data] returns, the statistics are defined: no division
    by zero and no [max] or [min] of nothing. The total is the sum of the
    amounts, added in order; the count is the number of validated records;
    the smallest and the largest amount are amounts of the batch and bound
    all the others. *)
Theorem statistics_are_defined_and_ordered (DEBUG : bool) (all_data : list raw_record) :
  match snd (process_data DEBUG all_data) with
  | Ok agg =>
      exists st,
        statistics_of (amounts agg) (category_totals agg) = Some st
        /\ total st = py_sum (amounts agg)
        /\ transactions st = length (validated all_data)
        /\ Some (top st) = top_category (category_totals agg)
        /\ In (minimum st) (amounts agg)
        /\ In (maximum st) (amounts agg)
        /\ Forall (fun a => minimum st <= a <= maximum st) (amounts agg)
  | Raise _ => validated all_data = []
  end.
Proof.
  rewrite process_data_result.
  destruct (validated all_data) as [|x xs] eqn:Hv; [reflexivity|].
  set (agg := record_all (x :: xs) empty_aggregates).
  destruct (record_all_amounts (x :: xs) empty_aggregates) as (Ha & _ & _).
  fold agg in Ha. cbn [amounts empty_aggregates app] in Ha.
  assert (Hne : amounts agg <> []) by (rewrite Ha; discriminate).
  assert (Hcat : category_totals agg <> []).
  { destruct (record_all_feeds (x :: xs) empty_aggregates) as [Hf _]. fold agg in Hf.
    intros Hnil. apply (f_equal (map fst)) in Hnil. rewrite Hf, feed_keys in Hnil.
    cbn in Hnil. discriminate. }
  destruct (statistics_of_spec _ _ Hne Hcat)
    as (st & Hst & Ht & Hn & Htop & Hmin & Hmax & Hall).
  exists st. split; [exact Hst|]. split; [exact Ht|].
  split; [rewrite Hn, Ha, length_map; reflexivity|]. auto.
Qed.

End StatisticsFacts.

(** * The monthly series *)

Section SeriesFacts.
Import Ana Summary.

Lemma ascii_compare_lt_trans (a b c : ascii) :
  Ascii.compare a b = Lt -> Ascii.compare b c = Lt -> Ascii.compare a c = Lt.
Proof.
  unfold Ascii.compare. rewrite !N.compare_lt_iff. apply N.lt_trans.
Qed.

Lemma string_compare_lt_trans (s1 s2 s3 : string) :
  String.compare s1 s2 = Lt -> String.compare s2 s3 = Lt -> String.compare s1 s3 = Lt.
Proof.
  revert s2 s3. induction s1 as [|a s1 IH]; intros [|b s2] [|c s3]; cbn;
    try discriminate; try reflexivity.
  destruct (Ascii.compare a b) eqn:Eab; try discriminate;
    destruct (Ascii.compare b c) eqn:Ebc; try discriminate; intros H12 H23.
  - apply Ascii.compare_eq_iff in Eab, Ebc. subst.
    assert (Ascii.compare c c = Eq) as -> by (unfold Ascii.compare; apply N.compare_refl).
    eapply IH; eauto.
  - apply Ascii.compare_eq_iff in Eab. subst. rewrite Ebc. reflexivity.
  - apply Ascii.compare_eq_iff in Ebc. subst. rewrite Eab. reflexivity.
  - rewrite (ascii_compare_lt_trans _ _ _ Eab Ebc). reflexivity.
Qed.

Lemma ltb_trans (s1 s2 s3 : string) :
  String.ltb s1 s2 = true -> String.ltb s2 s3 = true -> String.ltb s1 s3 = true.
Proof.
  unfold String.ltb. intros H12 H23.
  destruct (String.compare s1 s2) eqn:E12; try discriminate.
  destruct (String.compare s2 s3) eqn:E23; try discriminate.
  rewrite (string_compare_lt_trans _ _ _ E12 E23). reflexivity.
Qed.

(** Two different strings are ordered one way or the other. *)
Lemma ltb_connected (x y : string) :
  x <> y -> String.ltb y x = false -> String.ltb x y = true.
Proof.
  unfold String.ltb. intros Hne Hyx. rewrite String.compare_antisym.
  destruct (String.compare y x) eqn:E; try discriminate; [|reflexivity].
  apply String.compare_eq_iff in E. congruence.
Qed.

Lemma insert_asc_perm (x : string) (l : list string) :
  Permutation (x :: l) (insert_asc x l).
Proof.
  induction l as [|y l IH]; cbn [insert_asc]; [reflexivity|].
  destruct (String.ltb y x); [|reflexivity].
  rewrite perm_swap. apply perm_skip, IH.
Qed.

Lemma sorted_asc_perm (l : list string) : Permutation l (sorted_asc l).
Proof.
  induction l as [|x l IH]; cbn [sorted_asc]; [reflexivity|].
  rewrite <- insert_asc_perm. apply perm_skip, IH.
Qed.

Lemma insert_asc_sorted (x : string) (l : list string) :
  ~ In x l ->
  Sorted (fun a b => String.ltb a b = true) l ->
  Sorted (fun a b => String.ltb a b = true) (insert_asc x l).
Proof.
  intros Hx Hs. induction Hs as [|y l Hs IH Hhd]; cbn [insert_asc]; [repeat constructor|].
  destruct (String.ltb y x) eqn:E.
  - constructor; [apply IH; intros Hin; apply Hx; right; exact Hin|].
    destruct Hhd as [|z l Hz]; cbn [insert_asc]; [constructor; exact E|].
    destruct (String.ltb z x); constructor; assumption.
  - repeat constructor; [exact Hs|exact Hhd|].
    apply ltb_connected; [|exact E]. intros ->. apply Hx. left. reflexivity.
Qed.

Lemma sorted_asc_sorted (l : list string) :
  List.NoDup l -> StronglySorted (fun a b => String.ltb a b = true) (sorted_asc l).
Proof.
  intros Hnd. apply Sorted_StronglySorted.
  - intros a b c. apply ltb_trans.
  - induction Hnd as [|x l Hx Hnd IH]; cbn [sorted_asc]; [constructor|].
    apply insert_asc_sorted; [|exact IH].
    intros Hin. apply Hx. eapply Permutation_in; [|exact Hin].
    symmetry. apply sorted_asc_perm.
Qed.

(** Reading a bucket by its own key gives the value listed with the key. *)
Lemma get_total_In (m : string) (d : totals) :
  In m (map fst d) -> In (m, get_total m d) d.
Proof.
  induction d as [|[k v] d IH]; [intros []|]. cbn [map fst get_total].
  destruct (String.eqb k m) eqn:E.
  - apply String.eqb_eq in E. subst. intros _. left. reflexivity.
  - intros [Hk|Hin]; [apply String.eqb_neq in E; congruence|]. right. apply IH, Hin.
Qed.

Lemma monthly_series_spec (d : totals) :
  List.NoDup (map fst d) ->
  StronglySorted (fun a b => String.ltb a b = true) (fst (monthly_series d))
  /\ Permutation (fst (monthly_series d)) (map fst d)
  /\ Forall2 (fun m v => In (m, v) d) (fst (monthly_series d)) (snd (monthly_series d)).
Proof.
  intros Hnd. unfold monthly_series. cbn [fst snd].
  pose proof (sorted_asc_perm (map fst d)) as Hperm.
  split; [apply sorted_asc_sorted, Hnd|]. split; [symmetry; exact Hperm|].
  apply Forall2_fmap_r, Forall_Forall2_diag, Forall_forall. intros m Hm.
  apply get_total_In. apply list_elem_of_In in Hm.
  eapply Permutation_in; [symmetry; exact Hperm|exact Hm].
Qed.

End SeriesFacts.

Section SeriesOfProcessData.
Context `{PyBuiltins}.
Import Ana Summary.

(** The monthly charts plot every month once, in ascending order of its
    key, each with its own total. *)
Theorem monthly_series_is_sorted_and_complete (DEBUG : bool) (all_data : list raw_record) :
  match snd (process_data DEBUG all_data) with
  | Ok agg =>
      StronglySorted (fun a b => String.ltb a b = true)
        (fst (monthly_series (monthly_totals agg)))
      /\ Permutation (fst (monthly_series (monthly_totals agg)))
           (first_occurrences (map strftime_Ym (dates agg)))
      /\ Forall2 (fun m v => In (m, v) (monthly_totals agg))
           (fst (monthly_series (monthly_totals agg)))
           (snd (monthly_series (monthly_totals agg)))
  | Raise _ => validated all_data = []
  end.
Proof.
  rewrite process_data_result.
  destruct (validated all_data) as [|x xs] eqn:Hv; [reflexivity|].
  destruct (record_all_keys (x :: xs)) as (_ & Hm & _ & Hnd).
  set (agg := record_all (x :: xs) empty_aggregates) in *.
  destruct (monthly_series_spec (monthly_totals agg)) as (H1 & H2 & H3).
  { apply NoDup_ListNoDup, Hnd. }
  rewrite <- Hm. auto.
Qed.

End SeriesOfProcessData.

(** * Further properties of the dispatcher *)

Section DispatcherFacts.
Context `{PyBuiltins}.
Import Bot Watch.

Lemma is_authorized_true (chat_id : Z) :
  is_authorized chat_id = true <-> chat_id = AUTHORIZED_CHAT_ID.
Proof. unfold is_authorized. apply Z.eqb_eq. Qed.

(** The two input handlers either leave the store alone or delete the
    entry of the chat. *)
Lemma handle_expense_input_store (env : environment) (chat_id : Z) (text : string)
    (ud : user_data) :
  h_user_data (handle_expense_input env chat_id text ud) = ud
  \/ h_user_data (handle_expense_input env chat_id text ud) = delete chat_id ud.
Proof.
  unfold handle_expense_input, del_state.
  destruct (Str.split_max 2 text) as [|c [|a r]]; auto.
  destruct (py_float (PStr a)) as [q|[]]; auto.
  destruct (ud !! chat_id); auto.
Qed.

Lemma handle_month_input_store (env : environment) (chat_id : Z) (text : string)
    (ud : user_data) :
  h_user_data (handle_month_input env chat_id text ud) = ud
  \/ h_user_data (handle_month_input env chat_id text ud) = delete chat_id ud.
Proof.
  unfold handle_month_input, del_state, month_input_failed.
  destruct (Str.split text) as [|y [|mo [|x r]]]; auto.
  destruct (py_int y) as [year|[]]; auto.
  destruct (py_int mo) as [month|[]]; auto.
  destruct (negb _); auto.
  destruct (Tracker.fetch_monthly_total env year month).
  destruct (datetime_first_day year month) as [?|[]]; auto.
  destruct (ud !! chat_id); auto.
Qed.

(** What a button press does to the store. *)
Lemma handle_callback_query_store (env : environment) (cb : string) (chat_id : Z)
    (data : string) (ud : user_data) :
  h_user_data (handle_callback_query env cb chat_id data ud)
  = if negb (is_authorized chat_id) then ud
    else if String.eqb data "add_expense" then set_state chat_id waiting_for_expense ud
    else if String.eqb data "monthly_summary" then set_state chat_id waiting_for_month ud
    else ud.
Proof.
  unfold handle_callback_query, render.
  destruct (negb (is_authorized chat_id)); [reflexivity|].
  destruct (String.eqb data "add_expense") eqn:E1; [reflexivity|].
  destruct (String.eqb data "view_expenses") eqn:E2.
  { apply String.eqb_eq in E2. subst. reflexivity. }
  destruct (String.eqb data "monthly_summary"); [reflexivity|].
  repeat match goal with
         | |- context [if ?c then _ else _] => destruct c
         end; reflexivity.
Qed.

Lemma only_authorized_delete (chat_id : Z) (ud : user_data) :
  only_authorized ud -> only_authorized (delete chat_id ud).
Proof.
  intros Hud c m Hc. destruct (decide (c = chat_id)) as [->|Hne].
  - rewrite lookup_delete_eq in Hc. discriminate.
  - rewrite lookup_delete_ne in Hc by congruence. eapply Hud, Hc.
Qed.

Lemma only_authorized_set (chat_id : Z) (m : mode) (ud : user_data) :
  chat_id = AUTHORIZED_CHAT_ID ->
  only_authorized ud -> only_authorized (set_state chat_id m ud).
Proof.
  intros -> Hud c m' Hc. unfold set_state in Hc.
  destruct (decide (c = AUTHORIZED_CHAT_ID)) as [->|Hne]; [reflexivity|].
  rewrite lookup_insert_ne in Hc by congruence. eapply Hud, Hc.
Qed.

Lemma handle_update_only_authorized (env : environment) (u : update) (ud : user_data) :
  only_authorized ud -> only_authorized (h_user_data (handle_update env u ud)).
Proof.
  intros Hud. unfold handle_update.
  destruct (u_content u) as [chat_id [text|]|cb chat_id data|]; try exact Hud.
  - destruct (String.eqb text "/start"); [exact Hud|].
    unfold handle_text_message.
    destruct (negb (is_authorized chat_id)); [exact Hud|].
    destruct (get_state chat_id ud) as [[]|]; [| |exact Hud].
    + destruct (handle_expense_input_store env chat_id text ud) as [->| ->];
        [exact Hud|apply only_authorized_delete, Hud].
    + destruct (handle_month_input_store env chat_id text ud) as [->| ->];
        [exact Hud|apply only_authorized_delete, Hud].
  - rewrite handle_callback_query_store.
    destruct (is_authorized chat_id) eqn:Ha; cbn [negb]; [|exact Hud].
    apply is_authorized_true in Ha.
    destruct (String.eqb data "add_expense"); [apply only_authorized_set; assumption|].
    destruct (String.eqb data "monthly_summary"); [apply only_authorized_set; assumption|].
    exact Hud.
Qed.

Lemma for_updates_only_authorized (world : Z -> environment) (updates : list update)
    (b : bot) :
  only_authorized (store b) -> only_authorized (store (for_updates world updates b)).
Proof.
  revert b. induction updates as [|u rest IH]; intros b Hb; [exact Hb|].
  cbn [for_updates].
  pose proof (handle_update_only_authorized (world (update_id u)) u (store b) Hb) as Hu.
  destruct (h_raised _); [exact Hu|]. apply IH. exact Hu.
Qed.

(** Whatever updates arrive and from whomever, the conversation store only
    ever holds a mode for the authorized chat. *)
Theorem store_holds_only_the_authorized_chat (b : bot) (chat_id : Z) (m : mode) :
  reachable b ->
  get_state chat_id (store b) = Some m ->
  chat_id = AUTHORIZED_CHAT_ID.
Proof.
  intros Hreach. revert chat_id m. change (only_authorized (store b)).
  revert b Hreach. unfold reachable.
  apply (rtc_ind_r (fun b => only_authorized (store b)) initial).
  - intros c m0 Hc. cbn in Hc. rewrite lookup_empty in Hc. discriminate.
  - intros b1 b2 _ Hstep IH. destruct Hstep as [b1 world updates _|b1]; [|exact IH].
    apply for_updates_only_authorized, IH.
Qed.

Lemma handle_update_stranger (env : environment) (u : update) (ud : user_data) :
  sender u <> Some AUTHORIZED_CHAT_ID ->
  h_user_data (handle_update env u ud) = ud
  /\ h_raised (handle_update env u ud) = None
  /\ Forall (fun e => touches_table e = false) (h_events (handle_update env u ud)).
Proof.
  unfold sender, handle_update. intros Hs.
  destruct (u_content u) as [chat_id [text|]|cb chat_id data|];
    try (repeat split; constructor).
  - assert (Hno : is_authorized chat_id = false).
    { destruct (is_authorized chat_id) eqn:E; [|reflexivity].
      apply is_authorized_true in E. congruence. }
    destruct (String.eqb text "/start"); [repeat split; repeat constructor|].
    unfold handle_text_message. rewrite Hno. repeat split; repeat constructor.
  - assert (Hno : is_authorized chat_id = false).
    { destruct (is_authorized chat_id) eqn:E; [|reflexivity].
      apply is_authorized_true in E. congruence. }
    unfold handle_callback_query. rewrite Hno. repeat split; repeat constructor.
Qed.

(** A batch in which nothing comes from the authorized chat is taken up to
    its end, leaves the conversation store as it was and makes no call to the
    remote table, whether it holds texts, "/start" or button presses. *)
Theorem strangers_change_nothing (world : Z -> environment) (updates : list update)
    (b : bot) :
  Forall (fun u => sender u <> Some AUTHORIZED_CHAT_ID) updates ->
  let b' := for_updates world updates b in
  store b' = store b
  /\ processed b' = processed b ++ map update_id updates
  /\ exists said,
       trace b' = trace b ++ said
       /\ Forall (fun e => touches_table e = false) said.
Proof.
  intros Hall. cbv zeta. revert b.
  induction Hall as [|u rest Hu _ IH]; intros b.
  - cbn. rewrite app_nil_r. split; [reflexivity|]. split; [reflexivity|].
    exists []. rewrite app_nil_r. split; [reflexivity|constructor].
  - cbn [for_updates map].
    destruct (handle_update_stranger (world (update_id u)) u (store b) Hu) as (Hs & Hr & He).
    rewrite Hr.
    destruct (IH {| last_update_id := Some (update_id u + 1)%Z;
                    store := h_user_data (handle_update (world (update_id u)) u (store b));
                    trace := trace b ++ h_events (handle_update (world (update_id u)) u (store b));
                    processed := processed b ++ [update_id u] |})
      as (Hst & Hp & said & Ht & Hsaid).
    cbn [store trace processed] in *.
    split; [rewrite Hst; exact Hs|]. split; [rewrite Hp, <- app_assoc; reflexivity|].
    eexists. split; [rewrite Ht, <- app_assoc; reflexivity|].
    apply Forall_app. split; assumption.
Qed.

(** Every button press is acknowledged before anything else. Two presses
    from the authorized chat set its mode, replacing any mode it had; every
    other press, and every press from another chat, leaves the store as it
    was; no press changes the entry of a chat other than its own. *)
Theorem presses_are_acknowledged_and_two_set_a_mode (env : environment) (cb : string)
    (chat_id : Z) (data : string) (ud : user_data) :
  let h := handle_callback_query env cb chat_id data ud in
  head (h_events h) = Some (AnswerCallback cb)
  /\ h_user_data h
     = (if negb (is_authorized chat_id) then ud
        else if String.eqb data "add_expense" then set_state chat_id waiting_for_expense ud
        else if String.eqb data "monthly_summary" then set_state chat_id waiting_for_month ud
        else ud)
  /\ (forall other, other <> chat_id ->
        get_state other (h_user_data h) = get_state other ud).
Proof.
  cbv zeta. split; [|split; [apply handle_callback_query_store|]].
  - unfold handle_callback_query, render.
    repeat match goal with
           | |- context [if ?c then _ else _] => destruct c
           end; reflexivity.
  - intros other Hne. rewrite handle_callback_query_store. unfold get_state, set_state.
    repeat match goal with
           | |- context [if ?c then _ else _] => destruct c
           end; rewrite ?lookup_insert_ne by congruence; reflexivity.
Qed.

(** An expense entry is single shot. After the "add expense" button, a text
    that parses is confirmed and the chat is left without a mode, whatever
    mode it had before the button; the next text is answered with the hint
    to use "/start" and stores nothing. *)
Theorem expense_entry_is_single_shot (env1 env2 env3 : environment) (cb : string)
    (ud : user_data) (text next : string) (category amount_text : string)
    (rest : list string) (amount : Q) :
  Str.split_max 2 text = category :: amount_text :: rest ->
  py_float (PStr amount_text) = Ok amount ->
  text <> "/start" -> next <> "/start" ->
  let A := AUTHORIZED_CHAT_ID in
  let first := {| update_id := 1; u_content := CallbackQuery cb A "add_expense" |} in
  let second := {| update_id := 2; u_content := Message A (Some text) |} in
  let third := {| update_id := 3; u_content := Message A (Some next) |} in
  let h1 := handle_update env1 first ud in
  let h2 := handle_update env2 second (h_user_data h1) in
  let h3 := handle_update env3 third (h_user_data h2) in
  get_state A (h_user_data h1) = Some waiting_for_expense
  /\ h_events h2 = Tracker.store_expense env2 category amount (note_of rest)
                   ++ [SendMessage A (ExpenseAdded category amount (note_of rest))]
  /\ h_user_data h2 = delete A ud
  /\ h_events h3 = [SendMessage A UseStart]
  /\ h_user_data h3 = delete A ud.
Proof.
  intros Hsplit Hfloat Ht Hn. cbv zeta.
  apply String.eqb_neq in Ht, Hn.
  unfold handle_update. cbn [u_content]. rewrite Ht, Hn.
  assert (H1 : h_user_data (handle_callback_query env1 cb AUTHORIZED_CHAT_ID "add_expense" ud)
               = set_state AUTHORIZED_CHAT_ID waiting_for_expense ud) by reflexivity.
  rewrite H1.
  assert (Hg : get_state AUTHORIZED_CHAT_ID
                 (set_state AUTHORIZED_CHAT_ID waiting_for_expense ud)
               = Some waiting_for_expense) by apply lookup_insert_eq.
  rewrite !pending_text_goes_to_its_handler, Hg.
  rewrite (handle_expense_input_parsed _ _ _ _ _ _ _ _ _ Hg Hsplit Hfloat).
  cbn [h_events h_user_data returns].
  assert (Hd : delete AUTHORIZED_CHAT_ID (set_state AUTHORIZED_CHAT_ID waiting_for_expense ud)
               = delete AUTHORIZED_CHAT_ID ud) by apply delete_insert_eq.
  rewrite Hd.
  assert (Hnone : get_state AUTHORIZED_CHAT_ID (delete AUTHORIZED_CHAT_ID ud) = None)
    by apply lookup_delete_eq.
  rewrite Hnone. repeat split.
Qed.

Lemma cursor_le_trans (c1 c2 c3 : option Z) :
  cursor_le c1 c2 -> cursor_le c2 c3 -> cursor_le c1 c3.
Proof. destruct c1, c2, c3; cbn; try tauto; lia. Qed.

Lemma for_updates_forward (world : Z -> environment) (updates : list update) (b : bot) :
  delivers (last_update_id b) updates ->
  cursor_le (last_update_id b) (last_update_id (for_updates world updates b))
  /\ trace b `prefix_of` trace (for_updates world updates b)
  /\ processed b `prefix_of` processed (for_updates world updates b).
Proof.
  revert b. induction updates as [|u rest IH]; intros b [Hsorted Hfrom].
  - cbn. split; [destruct (last_update_id b); cbn; lia|]. split; reflexivity.
  - cbn [for_updates]. cbn [map] in Hsorted.
    apply StronglySorted_inv in Hsorted as [Hsorted Hlt].
    set (h := handle_update (world (update_id u)) u (store b)).
    set (b1 := {| last_update_id := Some (update_id u + 1)%Z;
                  store := h_user_data h;
                  trace := trace b ++ h_events h;
                  processed := processed b ++ [update_id u] |}).
    assert (H1 : cursor_le (last_update_id b) (last_update_id b1)
                 /\ trace b `prefix_of` trace b1
                 /\ processed b `prefix_of` processed b1).
    { split; [|split; apply prefix_app_r; reflexivity].
      destruct (last_update_id b) as [c|]; cbn; [|exact I].
      apply Forall_cons in Hfrom as [Hu _]. lia. }
    destruct (h_raised h); [exact H1|].
    destruct (IH b1) as (Hc & Ht & Hp).
    { split; [exact Hsorted|]. cbn.
      rewrite Forall_map in Hlt. eapply Forall_impl; [exact Hlt|].
      intros v Hv. cbn in Hv. lia. }
    destruct H1 as (Hc1 & Ht1 & Hp1).
    split; [eapply cursor_le_trans; eauto|].
    split; etransitivity; eauto.
Qed.

(** A turn of the loop only moves forward: the cursor does not go back (and
    once set it stays set), and what was done and taken up before the turn is
    still the beginning of what is on record after it. *)
Theorem a_turn_only_moves_forward (b b' : bot) :
  step b b' ->
  cursor_le (last_update_id b) (last_update_id b')
  /\ trace b `prefix_of` trace b'
  /\ processed b `prefix_of` processed b'.
Proof.
  intros [b0 world updates Hdel|b0].
  - apply for_updates_forward, Hdel.
  - split; [destruct (last_update_id b0); cbn; lia|]. split; reflexivity.
Qed.

End DispatcherFacts.

Section MonthQueryFacts.
Context `{PyBuiltins}.
Variable env : environment.
Import Bot.

(** The month query asks the remote table before it looks at the year. For
    two integers with the month in 1..12 and a year [datetime] rejects, the
    table is queried for that year and month all the same; only then is the
    query turned down, and the mode stays pending. *)
Theorem month_query_asks_the_table_before_checking_the_year (chat_id : Z)
    (text : string) (ud : user_data) (year_text month_text : string) (year month : Z) :
  Str.split text = [year_text; month_text] ->
  py_int year_text = Ok year ->
  py_int month_text = Ok month ->
  (1 <= month <= 12)%Z ->
  ~ (1 <= year <= 9999)%Z ->
  let h := handle_month_input env chat_id text ud in
  let complaint :=
    if ((year <? - 2 ^ 31) || (2 ^ 31 - 1 <? year))%Z
    then ErrorReply OverflowError else InvalidYearOrMonth in
  h_events h = fst (Tracker.fetch_monthly_total env year month)
               ++ [SendMessage chat_id complaint]
  /\ In (StoreMonthlyTotal year month) (h_events h)
  /\ h_user_data h = ud
  /\ h_raised h = None.
Proof.
  intros Hsplit Hy Hm Hmonth Hyear. cbv zeta.
  assert (Hin : In (StoreMonthlyTotal year month)
                  (fst (Tracker.fetch_monthly_total env year month))).
  { unfold Tracker.fetch_monthly_total.
    destruct (remote_monthly_total env year month) as [[t|]|e];
      [destruct (Qeq_bool t 0)| |]; left; reflexivity. }
  unfold handle_month_input. rewrite Hsplit, Hy, Hm.
  replace ((1 <=? month)%Z && (month <=? 12)%Z) with true
    by (symmetry; apply andb_true_iff; split; apply Z.leb_le; lia).
  cbn [negb].
  destruct (Tracker.fetch_monthly_total env year month) as [fetched total].
  cbn [fst] in *. unfold datetime_first_day.
  destruct ((year <? - 2 ^ 31)%Z || (2 ^ 31 - 1 <? year)%Z) eqn:E1.
  - cbn. repeat split. apply in_or_app. left. exact Hin.
  - destruct ((year <? 1)%Z || (9999 <? year)%Z) eqn:E2.
    + cbn. repeat split. apply in_or_app. left. exact Hin.
    + apply orb_false_iff in E2 as [E2 E3]. apply Z.ltb_ge in E2, E3. lia.
Qed.

(** A month total the table could not give is shown as a total of 0. When
    the remote call raises or returns nothing, a month query that parses is
    answered exactly as for a month without expenses, and the mode is
    cleared: the user cannot tell the failure from an empty month. *)
Theorem failed_month_total_is_shown_as_zero (chat_id : Z) (text : string)
    (ud : user_data) (m : mode) (year_text month_text : string) (year month : Z) :
  get_state chat_id ud = Some m ->
  Str.split text = [year_text; month_text] ->
  py_int year_text = Ok year ->
  py_int month_text = Ok month ->
  (1 <= month <= 12)%Z ->
  (1 <= year <= 9999)%Z ->
  (exists e, remote_monthly_total env year month = Raise e)
  \/ remote_monthly_total env year month = Ok None ->
  let h := handle_month_input env chat_id text ud in
  exists line,
    h_events h = [StoreMonthlyTotal year month; Printed line;
                  SendMessage chat_id (MonthTotal year month 0)]
    /\ cleared chat_id ud h.
Proof.
  intros Hpending Hsplit Hy Hm Hmonth Hyear Hremote. cbv zeta.
  rewrite (handle_month_input_parsed env _ _ _ _ _ _ _ _ Hpending Hsplit Hy Hm Hmonth Hyear).
  unfold Tracker.fetch_monthly_total.
  destruct Hremote as [[e ->]| ->]; eexists; (split; [reflexivity|apply cleared_by_delete]).
Qed.

End MonthQueryFacts.

(** The invariant of the store, after the "add expense" button was pressed. *)
Lemma store_holds_only_the_authorized_chat_witness :
  let b := @Bot.for_updates Plain.builtins Plain.calm [Plain.press 3 "add_expense"] Bot.initial in
  @Bot.reachable Plain.builtins b
  /\ Bot.get_state Bot.AUTHORIZED_CHAT_ID (Bot.store b) = Some waiting_for_expense
  /\ Bot.AUTHORIZED_CHAT_ID = Bot.AUTHORIZED_CHAT_ID.
Proof.
  intros b.
  assert (H1 : @Bot.reachable Plain.builtins b).
  { apply rtc_once.
    apply (@Bot.step_batch Plain.builtins Bot.initial Plain.calm [Plain.press 3 "add_expense"]).
    split; [|exact I]. repeat constructor. }
  assert (H2 : Bot.get_state Bot.AUTHORIZED_CHAT_ID (Bot.store b) = Some waiting_for_expense)
    by (vm_compute; reflexivity).
  split; [exact H1|]. split; [exact H2|].
  exact (@store_holds_only_the_authorized_chat Plain.builtins b _ _ H1 H2).
Defined.

(** A batch from a stranger: a text, "/start" and a press of "add expense". *)
Lemma strangers_change_nothing_witness :
  let batch := [Plain.stranger_text 1 "Food 250"; Plain.stranger_text 2 "/start";
                Plain.stranger_press 3 "add_expense"] in
  let b' := @Bot.for_updates Plain.builtins Plain.calm batch Bot.initial in
  Forall (fun u => Watch.sender u <> Some Bot.AUTHORIZED_CHAT_ID) batch
  /\ Bot.store b' = Bot.store Bot.initial
  /\ Bot.processed b' = [1; 2; 3]%Z.
Proof.
  intros batch b'.
  assert (H1 : Forall (fun u => Watch.sender u <> Some Bot.AUTHORIZED_CHAT_ID) batch).
  { repeat constructor; vm_compute; discriminate. }
  destruct (@strangers_change_nothing Plain.builtins Plain.calm batch Bot.initial H1)
    as (Hs & Hp & _).
  split; [exact H1|]. split; [exact Hs|exact Hp].
Defined.

(** Button, "Food 250 Lunch", then "thanks". *)
Lemma expense_entry_is_single_shot_witness :
  let A := Bot.AUTHORIZED_CHAT_ID in
  let h1 := @Bot.handle_update Plain.builtins Plain.quiet (Plain.press 1 "add_expense") ∅ in
  let h2 := @Bot.handle_update Plain.builtins Plain.quiet
              {| Bot.update_id := 2; Bot.u_content := Bot.Message A (Some "Food 250 Lunch") |}
              (Bot.h_user_data h1) in
  let h3 := @Bot.handle_update Plain.builtins Plain.quiet
              {| Bot.update_id := 3; Bot.u_content := Bot.Message A (Some "thanks") |}
              (Bot.h_user_data h2) in
  Str.split_max 2 "Food 250 Lunch" = ["Food"; "250"; "Lunch"]
  /\ @py_float Plain.builtins (PStr "250") = Ok 250
  /\ Bot.h_user_data h2 = delete A ∅
  /\ Bot.h_events h3 = [SendMessage A UseStart].
Proof.
  intros A h1 h2 h3.
  assert (H1 : Str.split_max 2 "Food 250 Lunch" = ["Food"; "250"; "Lunch"])
    by (vm_compute; reflexivity).
  assert (H2 : @py_float Plain.builtins (PStr "250") = Ok 250) by (vm_compute; reflexivity).
  destruct (@expense_entry_is_single_shot Plain.builtins Plain.quiet Plain.quiet Plain.quiet
              "cb" ∅ "Food 250 Lunch" "thanks" "Food" "250" ["Lunch"] 250 H1 H2)
    as (_ & _ & Hs2 & He3 & _); [discriminate..|].
  split; [exact H1|]. split; [exact H2|]. split; [exact Hs2|exact He3].
Defined.

(** The first turn of the loop, taking up update 7. *)
Lemma a_turn_only_moves_forward_witness :
  let b := @Bot.for_updates Plain.builtins Plain.calm [Plain.hello 7] Bot.initial in
  let b' := @Bot.for_updates Plain.builtins Plain.calm [Plain.hello 8; Plain.hello 12] b in
  Bot.last_update_id b = Some 8%Z
  /\ @Bot.step Plain.builtins b b'
  /\ Watch.cursor_le (Bot.last_update_id b) (Bot.last_update_id b')
  /\ Bot.processed b `prefix_of` Bot.processed b'.
Proof.
  intros b b'.
  assert (H0 : Bot.last_update_id b = Some 8%Z) by (vm_compute; reflexivity).
  assert (H1 : @Bot.step Plain.builtins b b').
  { apply (@Bot.step_batch Plain.builtins b Plain.calm [Plain.hello 8; Plain.hello 12]).
    unfold Bot.delivers. rewrite H0. split.
    - repeat constructor.
    - repeat constructor; cbn; lia. }
  destruct (@a_turn_only_moves_forward Plain.builtins _ _ H1) as (Hc & _ & Hp).
  split; [exact H0|]. split; [exact H1|]. split; [exact Hc|exact Hp].
Defined.

(** "0 12": month in range, year 0. *)
Lemma month_query_asks_the_table_before_checking_the_year_witness :
  let h := @Bot.handle_month_input Plain.builtins Plain.quiet Bot.AUTHORIZED_CHAT_ID "0 12"
             {[ Bot.AUTHORIZED_CHAT_ID := waiting_for_month ]} in
  Str.split "0 12" = ["0"; "12"]
  /\ @py_int Plain.builtins "0" = Ok 0%Z
  /\ @py_int Plain.builtins "12" = Ok 12%Z
  /\ In (StoreMonthlyTotal 0 12) (Bot.h_events h)
  /\ Bot.h_user_data h = {[ Bot.AUTHORIZED_CHAT_ID := waiting_for_month ]}.
Proof.
  intros h.
  assert (H1 : Str.split "0 12" = ["0"; "12"]) by (vm_compute; reflexivity).
  assert (H2 : @py_int Plain.builtins "0" = Ok 0%Z) by (vm_compute; reflexivity).
  assert (H3 : @py_int Plain.builtins "12" = Ok 12%Z) by (vm_compute; reflexivity).
  destruct (@month_query_asks_the_table_before_checking_the_year Plain.builtins Plain.quiet
              Bot.AUTHORIZED_CHAT_ID "0 12" {[ Bot.AUTHORIZED_CHAT_ID := waiting_for_month ]}
              "0" "12" 0%Z 12%Z H1 H2 H3) as (_ & Hin & Hs & _); [lia..|].
  split; [exact H1|]. split; [exact H2|]. split; [exact H3|]. split; [exact Hin|exact Hs].
Defined.

(** "2025 10" with a remote table that raises. *)
Lemma failed_month_total_is_shown_as_zero_witness :
  let A := Bot.AUTHORIZED_CHAT_ID in
  let asking : Bot.user_data := {[ A := waiting_for_month ]} in
  let h := @Bot.handle_month_input Plain.builtins Plain.failing A "2025 10" asking in
  Bot.get_state A asking = Some waiting_for_month
  /\ Str.split "2025 10" = ["2025"; "10"]
  /\ remote_monthly_total Plain.failing 2025 10 = Raise TypeError
  /\ exists line,
       Bot.h_events h = [StoreMonthlyTotal 2025 10; Printed line;
                         SendMessage A (MonthTotal 2025 10 0)]
       /\ Bot.cleared A asking h.
Proof.
  intros A asking h.
  assert (H1 : Bot.get_state A asking = Some waiting_for_month) by (vm_compute; reflexivity).
  assert (H2 : Str.split "2025 10" = ["2025"; "10"]) by (vm_compute; reflexivity).
  assert (H3 : @py_int Plain.builtins "2025" = Ok 2025%Z) by (vm_compute; reflexivity).
  assert (H4 : @py_int Plain.builtins "10" = Ok 10%Z) by (vm_compute; reflexivity).
  assert (H5 : remote_monthly_total Plain.failing 2025 10 = Raise TypeError) by reflexivity.
  split; [exact H1|]. split; [exact H2|]. split; [exact H5|].
  apply (@failed_month_total_is_shown_as_zero Plain.builtins Plain.failing A "2025 10"
           asking _ "2025" "10" 2025%Z 10%Z H1 H2 H3 H4); [lia|lia|].
  left. exists TypeError. exact H5.
Defined.

(** * Properties of the report screens *)

Section ReaderFacts.
Context `{PyBuiltins}.
Variable world : Reader.surroundings.
Import Reader.

Lemma print_row_printable (row : raw_record) :
  snd (print_row world row) = None <-> printable world row = true.
Proof.
  unfold print_row, printable.
  destruct (row !! "label"); [|cbn; split; discriminate].
  destruct (row !! "time"); [|cbn; split; discriminate].
  destruct (row !! "category"); [|cbn; split; discriminate].
  destruct (row !! "amount") as [amount|]; [|cbn; split; discriminate].
  destruct (format_inr world amount).
  - destruct (row !! "note"); cbn; split; (discriminate || reflexivity).
  - destruct (row !! "note"); cbn; split; discriminate.
Qed.

Lemma print_rows_printable (rows : list raw_record) :
  snd (print_rows world rows) = None <-> forallb (printable world) rows = true.
Proof.
  induction rows as [|row rows IH]; [split; reflexivity|].
  cbn [print_rows forallb]. rewrite andb_true_iff, <- IH, <- print_row_printable.
  destruct (print_row world row) as [lines [e|]]; cbn [snd].
  - split; [discriminate|intros [[=] _]].
  - destruct (print_rows world rows) as [more raised]. cbn [snd]. tauto.
Qed.

Lemma selects_app (e1 e2 : list report_event) :
  selects (e1 ++ e2) = (selects e1 + selects e2)%nat.
Proof. unfold selects. rewrite List.filter_app, length_app. reflexivity. Qed.

Lemma selects_console (lines : list fetch_line) : selects (map Console lines) = 0%nat.
Proof. induction lines as [|l lines IH]; [reflexivity|exact IH]. Qed.

Lemma selects_logged (log : list Ana.log_line) : selects (map Logged log) = 0%nat.
Proof. induction log as [|l log IH]; [reflexivity|exact IH]. Qed.

(** [fetch_all_expenses] is all or nothing. It returns the rows the remote
    table gave, unchanged and in their order, exactly when the select
    succeeded and every row has the five columns and an amount [format]
    accepts; if the select raises or a single row cannot be printed, it
    returns [None]. Either way the remote table is asked exactly once, and
    rows that are returned all hold the three fields [process_data] requires. *)
Theorem fetch_all_expenses_is_all_or_nothing :
  snd (fetch_all_expenses world)
  = match select_all world with
    | Ok data => if forallb (printable world) data then Some data else None
    | Raise _ => None
    end
  /\ selects (fst (fetch_all_expenses world)) = 1%nat
  /\ match snd (fetch_all_expenses world) with
     | Some data => Forall has_required_fields data
     | None => True
     end.
Proof.
  assert (Hfields : forall data, forallb (printable world) data = true ->
                      Forall has_required_fields data).
  { intros data Hd. apply List.Forall_forall. intros row Hrow.
    rewrite forallb_forall in Hd. specialize (Hd row Hrow).
    unfold printable in Hd. unfold has_required_fields.
    destruct (row !! "label"); [|discriminate].
    destruct (row !! "time"); [|discriminate].
    destruct (row !! "category"); [|discriminate].
    destruct (row !! "amount"); [|discriminate]. eauto. }
  unfold fetch_all_expenses.
  destruct (select_all world) as [[|row rows]|e]; [repeat split; constructor| |repeat split].
  pose proof (print_rows_printable (row :: rows)) as Hp.
  destruct (print_rows world (row :: rows)) as [lines [e|]]; cbn [fst snd] in *.
  - destruct (forallb (printable world) (row :: rows)).
    + destruct Hp as [_ Hp]. specialize (Hp eq_refl). discriminate.
    + split; [reflexivity|]. split; [|exact I].
      change (S (selects (map Console lines ++ [Console FetchFailedLine])) = 1%nat).
      rewrite selects_app, selects_console. reflexivity.
  - destruct Hp as [Hp _]. specialize (Hp eq_refl). rewrite Hp.
    split; [reflexivity|]. split; [|apply Hfields, Hp].
    change (S (selects (map Console lines)) = 1%nat).
    rewrite selects_console. reflexivity.
Qed.

Lemma sent_app (e1 e2 : list report_event) : sent (e1 ++ e2) = sent e1 ++ sent e2.
Proof. unfold sent. apply List.filter_app. Qed.

Lemma sent_console (lines : list fetch_line) : sent (map Console lines) = [].
Proof. induction lines as [|l lines IH]; [reflexivity|exact IH]. Qed.

Lemma sent_logged (log : list Ana.log_line) : sent (map Logged log) = [].
Proof. induction log as [|l log IH]; [reflexivity|exact IH]. Qed.

(** [fetch_all_expenses] sends nothing to the chat. *)
Lemma sent_fetch : sent (fst (fetch_all_expenses world)) = [].
Proof.
  unfold fetch_all_expenses.
  destruct (select_all world) as [[|row rows]|e]; try reflexivity.
  destruct (print_rows world (row :: rows)) as [lines [e|]]; cbn [fst].
  - change (sent (map Console lines ++ [Console FetchFailedLine]) = []).
    rewrite sent_app, sent_console. reflexivity.
  - change (sent (map Console lines) = []). apply sent_console.
Qed.

(** Adding a column value to a number gives a number: their sum. *)
Lemma py_add_number (a b c : pyval) (x : Q) :
  as_number a = Some x ->
  py_add a b = Ok c ->
  exists y z, as_number b = Some y /\ as_number c = Some z /\ z == x + y.
Proof.
  intros Ha Hadd. unfold py_add in Hadd.
  destruct a as [|ba|za|qa|sa|], b as [|bb|zb|qb|sb|];
    cbn in Ha, Hadd; try discriminate;
    injection Ha as <-; injection Hadd as <-; cbn;
    eexists _, _; (split; [reflexivity|]); (split; [reflexivity|]);
    rewrite ?inject_Z_plus; try reflexivity;
    try (destruct ba); try (destruct bb); reflexivity.
Qed.

Lemma list_row_spec (row : raw_record) (total total' : pyval) (entry : listed) (t : Q) :
  as_number total = Some t ->
  list_row world row total = Ok (entry, total') ->
  shows world row entry
  /\ exists a t', amount_is row a /\ as_number total' = Some t' /\ t' == t + a.
Proof.
  intros Ht. unfold list_row, shows, amount_is.
  destruct (row !! "time") as [[| | | |time|]|]; try discriminate.
  destruct (fromisoformat _); [|discriminate].
  destruct (row !! "category") as [category|]; [|discriminate].
  destruct (row !! "amount") as [amount|]; [|discriminate].
  destruct (format_inr world amount) as [text|] eqn:Hf; [|discriminate].
  destruct (row !! "note") as [note|]; [|discriminate].
  destruct (py_add total amount) as [sum|] eqn:Hadd; [|discriminate].
  intros [= <- <-]. cbn [l_category l_note l_amount].
  destruct (py_add_number _ _ _ _ Ht Hadd) as (y & z & Hy & Hz & Hsum).
  split; [eauto 6|]. exists y, z. eauto.
Qed.

Lemma list_rows_spec (rows : list raw_record) (shown shown' : list listed)
    (total total' : pyval) (t : Q) :
  as_number total = Some t ->
  list_rows world rows shown total = Ok (shown', total') ->
  exists entries amounts t',
    shown' = shown ++ entries
    /\ Forall2 (shows world) rows entries
    /\ Forall2 amount_is rows amounts
    /\ as_number total' = Some t'
    /\ t' == t + Ana.py_sum amounts.
Proof.
  revert shown total t. induction rows as [|row rows IH]; intros shown total t Ht.
  - cbn. intros [= <- <-]. exists [], [], t. rewrite app_nil_r.
    repeat split; try constructor; auto. unfold Ana.py_sum. cbn. ring.
  - cbn [list_rows]. destruct (list_row world row total) as [[entry total1]|] eqn:Hrow;
      [|discriminate].
    destruct (list_row_spec _ _ _ _ _ Ht Hrow) as (Hshow & a & t1 & Ha & Ht1 & Hsum1).
    intros Hrest.
    destruct (IH _ _ _ Ht1 Hrest) as (entries & amounts & t' & -> & Hs & Hn & Ht' & Hsum).
    exists (entry :: entries), (a :: amounts), t'.
    rewrite <- app_assoc. split; [reflexivity|].
    split; [constructor; assumption|]. split; [constructor; assumption|].
    split; [exact Ht'|]. rewrite Hsum, Hsum1, py_sum_cons. ring.
Qed.

(** [show_all_expenses] either answers once or raises without having sent
    anything. With no rows (or a failed fetch) the answer is "No expenses
    found"; otherwise it lists the first ten rows (all of them when there
    are fewer), in the order they were fetched and each with its own
    category, note and formatted amount, and the total it prints is the sum
    of the amounts listed. *)
Theorem show_all_expenses_lists_the_first_ten (chat_id : Z) :
  match show_all_expenses world chat_id with
  | (evs, None) =>
      ((snd (fetch_all_expenses world) = None \/ snd (fetch_all_expenses world) = Some [])
       /\ sent evs = [Say chat_id NoExpensesFound])
      \/ exists expenses shown total text amounts t,
           snd (fetch_all_expenses world) = Some expenses
           /\ expenses <> []
           /\ sent evs = [Say chat_id (RecentExpenses shown text)]
           /\ length shown = Nat.min 10 (length expenses)
           /\ Forall2 (shows world) (take 10 expenses) shown
           /\ Forall2 amount_is (take 10 expenses) amounts
           /\ format_inr world total = Ok text
           /\ as_number total = Some t
           /\ t == Ana.py_sum amounts
  | (evs, Some _) =>
      sent evs = []
      /\ exists expenses, snd (fetch_all_expenses world) = Some expenses /\ expenses <> []
  end.
Proof.
  unfold show_all_expenses. pose proof sent_fetch as Hsent.
  destruct (fetch_all_expenses world) as [fetched [[|row rows]|]]; cbn [fst snd] in *.
  - left. split; [auto|]. rewrite sent_app, Hsent. reflexivity.
  - destruct (list_rows world (take 10 (row :: rows)) [] (PInt 0))
      as [[shown total]|e] eqn:Hrows.
    + destruct (list_rows_spec _ [] shown (PInt 0) total 0 eq_refl Hrows)
        as (entries & amounts & t & Hshown & Hs & Hn & Ht & Hsum).
      cbn [app] in Hshown. subst entries.
      destruct (format_inr world total) as [text|e] eqn:Hf.
      * right. exists (row :: rows), shown, total, text, amounts, t.
        split; [reflexivity|]. split; [discriminate|].
        split; [rewrite sent_app, Hsent; reflexivity|].
        split; [rewrite <- (Forall2_length _ _ _ Hs), length_take; reflexivity|].
        repeat (split; [assumption|]). rewrite Hsum. ring.
      * split; [exact Hsent|]. exists (row :: rows). split; [reflexivity|discriminate].
    + split; [exact Hsent|]. exists (row :: rows). split; [reflexivity|discriminate].
  - left. split; [auto|]. rewrite sent_app, Hsent. reflexivity.
Qed.

(** [fetch_all_expenses] asks the remote table once. *)
Lemma selects_fetch : selects (fst (fetch_all_expenses world)) = 1%nat.
Proof.
  unfold fetch_all_expenses.
  destruct (select_all world) as [[|row rows]|e]; try reflexivity.
  destruct (print_rows world (row :: rows)) as [lines [e|]]; cbn [fst].
  - change (S (selects (map Console lines ++ [Console FetchFailedLine])) = 1%nat).
    rewrite selects_app, selects_console. reflexivity.
  - change (S (selects (map Console lines)) = 1%nat).
    rewrite selects_console. reflexivity.
Qed.

(** The aggregates [process_data] returns hold an amount and a category. *)
Lemma process_data_nonempty (DEBUG : bool) (all_data : list raw_record)
    (agg : Ana.aggregates) :
  snd (Ana.process_data DEBUG all_data) = Ok agg ->
  Ana.amounts agg <> [] /\ Ana.category_totals agg <> [].
Proof.
  assert (Hgen : forall xs, xs <> [] ->
            Ana.amounts (Ana.record_all xs Ana.empty_aggregates) <> []
            /\ Ana.category_totals (Ana.record_all xs Ana.empty_aggregates) <> []).
  { intros xs Hxs.
    destruct (record_all_amounts xs Ana.empty_aggregates) as (Ha & _ & _).
    destruct (record_all_feeds xs Ana.empty_aggregates) as [Hf _].
    rewrite Ha, Hf. destruct xs as [|x xs]; [congruence|]. split.
    - cbn. discriminate.
    - intros Hnil. apply (f_equal (map fst)) in Hnil.
      rewrite feed_keys in Hnil. cbn in Hnil. discriminate. }
  rewrite process_data_result.
  destruct (Ana.validated all_data) as [|x xs] eqn:Hv; [discriminate|].
  intros [= <-]. apply (Hgen (x :: xs)). discriminate.
Qed.

(** The text of the statistics for amounts and totals that are not empty:
    the formatted figures of [statistics_of], or what [format] raised. *)
Lemma statistics_text_spec (amounts : list Q) (category_totals : Ana.totals) :
  amounts <> [] -> category_totals <> [] ->
  match statistics_text world amounts category_totals with
  | inl (StatisticsText total average maximum minimum transactions top) =>
      exists st,
        Summary.statistics_of amounts category_totals = Some st
        /\ format_inr world (PFloat (Summary.total st)) = Ok total
        /\ format_inr world (PFloat (Summary.average st)) = Ok average
        /\ format_inr world (PFloat (Summary.maximum st)) = Ok maximum
        /\ format_inr world (PFloat (Summary.minimum st)) = Ok minimum
        /\ transactions = Summary.transactions st
        /\ top = Summary.top st
  | inl _ => False
  | inr (Builtin e) => exists figure, format_inr world (PFloat figure) = Raise e
  | inr ZeroDivisionError => False
  end.
Proof.
  intros Ha Hc. destruct amounts as [|a rest]; [congruence|].
  destruct category_totals as [|c items]; [congruence|].
  unfold statistics_text, Summary.statistics_of, sum_value.
  cbn [Summary.py_max Summary.py_min Summary.top_category].
  destruct (format_inr world (PFloat (Ana.py_sum (a :: rest)))) eqn:E1; [|eauto].
  destruct (format_inr world (PFloat (Ana.py_sum (a :: rest)
              / inject_Z (Z.of_nat (length (a :: rest)))))) eqn:E2; [|eauto].
  destruct (format_inr world (PFloat (Summary.max_from a rest))) eqn:E3; [|eauto].
  destruct (format_inr world (PFloat (Summary.min_from a rest))) eqn:E4; [|eauto].
  eexists. split; [reflexivity|].
  cbn [Summary.total Summary.average Summary.maximum Summary.minimum
       Summary.transactions Summary.top].
  repeat split; assumption.
Qed.

(** [send_statistics] asks the remote table once and answers with exactly
    one message. The statistics it sends are the formatted figures of the
    aggregates of the fetched rows; an error it reports is the one
    [process_data] raised or one [format] raised on a figure, never a
    division by zero: a batch with nothing valid is stopped by
    [process_data] before the average is computed. *)
Theorem send_statistics_answers_once_and_never_divides_by_zero (chat_id : Z) :
  exists r,
    sent (send_statistics world chat_id) = [Say chat_id r]
    /\ selects (send_statistics world chat_id) = 1%nat
    /\ match r with
       | NoDataAvailable =>
           snd (fetch_all_expenses world) = None
           \/ snd (fetch_all_expenses world) = Some []
       | StatisticsText total average maximum minimum transactions top =>
           exists all_data agg st,
             snd (fetch_all_expenses world) = Some all_data
             /\ snd (Ana.process_data false all_data) = Ok agg
             /\ Summary.statistics_of (Ana.amounts agg) (Ana.category_totals agg) = Some st
             /\ format_inr world (PFloat (Summary.total st)) = Ok total
             /\ format_inr world (PFloat (Summary.average st)) = Ok average
             /\ format_inr world (PFloat (Summary.maximum st)) = Ok maximum
             /\ format_inr world (PFloat (Summary.minimum st)) = Ok minimum
             /\ transactions = Summary.transactions st
             /\ top = Summary.top st
       | ErrorGeneratingStatistics (Builtin e) =>
           exists all_data,
             snd (fetch_all_expenses world) = Some all_data /\ all_data <> []
             /\ (snd (Ana.process_data false all_data) = Raise e
                 \/ exists figure, format_inr world (PFloat figure) = Raise e)
       | _ => False
       end.
Proof.
  unfold send_statistics.
  pose proof sent_fetch as Hsent. pose proof selects_fetch as Hsel.
  destruct (fetch_all_expenses world) as [fetched [[|row rows]|]]; cbn [fst snd] in *.
  - exists NoDataAvailable. rewrite sent_app, selects_app, Hsent, Hsel. auto.
  - pose proof (process_data_nonempty false (row :: rows)) as Hne.
    destruct (Ana.process_data false (row :: rows)) as [log [agg|e]] eqn:Hp;
      cbn [snd] in *.
    + destruct (Hne agg eq_refl) as [Ha Hc].
      pose proof (statistics_text_spec _ _ Ha Hc) as Hs.
      destruct (statistics_text world (Ana.amounts agg) (Ana.category_totals agg))
        as [text|[e|]]; [| |contradiction].
      * exists text.
        rewrite !sent_app, !selects_app, Hsent, Hsel, sent_logged, selects_logged.
        split; [reflexivity|]. split; [reflexivity|].
        destruct text; try contradiction.
        destruct Hs as (st & Hst & Hrest). exists (row :: rows), agg, st.
        rewrite Hp. auto.
      * exists (ErrorGeneratingStatistics (Builtin e)).
        rewrite !sent_app, !selects_app, Hsent, Hsel, sent_logged, selects_logged.
        split; [reflexivity|]. split; [reflexivity|].
        exists (row :: rows). split; [reflexivity|]. split; [discriminate|]. right. exact Hs.
    + exists (ErrorGeneratingStatistics (Builtin e)).
      rewrite !sent_app, !selects_app, Hsent, Hsel, sent_logged, selects_logged.
      split; [reflexivity|]. split; [reflexivity|].
      exists (row :: rows). split; [reflexivity|]. split; [discriminate|].
      left. rewrite Hp. reflexivity.
  - exists NoDataAvailable. rewrite sent_app, selects_app, Hsent, Hsel. auto.
Qed.

(** A chart screen after its first message: the table is asked once, and
    one more message or photo follows. *)
Lemma chart_screen_spec (chat_id : Z) (plot : Ana.aggregates -> chart) :
  selects (fst (chart_screen world chat_id plot)) = 1%nat
  /\ match snd (chart_screen world chat_id plot) with
     | None =>
         exists r, sent (fst (chart_screen world chat_id plot)) = [r]
                   /\ chart_outcome world chat_id plot r
                   /\ forall e, r <> Say chat_id (ErrorGeneratingChart e)
     | Some e =>
         sent (fst (chart_screen world chat_id plot)) = []
         /\ chart_outcome world chat_id plot (Say chat_id (ErrorGeneratingChart e))
     end.
Proof.
  unfold chart_screen, chart_outcome.
  pose proof sent_fetch as Hsent. pose proof selects_fetch as Hsel.
  destruct (fetch_all_expenses world) as [fetched [[|row rows]|]]; cbn [fst snd] in *.
  - rewrite sent_app, selects_app, Hsent, Hsel. split; [reflexivity|].
    eexists. split; [reflexivity|]. cbn. split; [auto|discriminate].
  - destruct (Ana.process_data false (row :: rows)) as [log [agg|e]] eqn:Hp; cbn [snd].
    + destruct (draw world (plot agg)) as [e|] eqn:Hd; cbn [fst snd];
        rewrite !sent_app, !selects_app, ?Hsent, ?Hsel, ?sent_logged, ?selects_logged.
      * split; [reflexivity|]. split; [reflexivity|]. split; [reflexivity|].
        exists (row :: rows). split; [reflexivity|]. split; [discriminate|].
        right. exists agg. rewrite Hp. auto.
      * split; [reflexivity|]. eexists. split; [reflexivity|].
        split; [|discriminate]. split; [reflexivity|].
        exists (row :: rows), agg. rewrite Hp. auto.
    + cbn [fst snd]. rewrite !sent_app, !selects_app, Hsent, Hsel, sent_logged, selects_logged.
      split; [reflexivity|]. split; [reflexivity|]. split; [reflexivity|].
      exists (row :: rows). split; [reflexivity|]. split; [discriminate|].
      left. rewrite Hp. reflexivity.
  - rewrite sent_app, selects_app, Hsent, Hsel. split; [reflexivity|].
    eexists. split; [reflexivity|]. cbn. split; [auto|discriminate].
Qed.

Lemma sent_say (chat_id : Z) (r : report_reply) (evs : list report_event) :
  sent (Say chat_id r :: evs) = Say chat_id r :: sent evs.
Proof. reflexivity. Qed.

Lemma selects_say (chat_id : Z) (r : report_reply) (evs : list report_event) :
  selects (Say chat_id r :: evs) = selects evs.
Proof. reflexivity. Qed.

(** A chart screen with its first message. *)
Lemma noted_chart_screen (chat_id : Z) (note : report_reply)
    (plot : Ana.aggregates -> chart) :
  let evs :=
    match chart_screen world chat_id plot with
    | (done, None) => Say chat_id note :: done
    | (done, Some e) => Say chat_id note :: done ++ [Say chat_id (ErrorGeneratingChart e)]
    end in
  selects evs = 1%nat
  /\ exists r, sent evs = [Say chat_id note; r] /\ chart_outcome world chat_id plot r.
Proof.
  cbv zeta. destruct (chart_screen_spec chat_id plot) as [Hsel Hout].
  destruct (chart_screen world chat_id plot) as [done [e|]]; cbn [fst snd] in *.
  - destruct Hout as [Hs Ho].
    rewrite selects_say, sent_say, selects_app, sent_app, Hsel, Hs.
    split; [reflexivity|]. eexists. split; [reflexivity|exact Ho].
  - destruct Hout as (r & Hs & Ho & _). rewrite selects_say, sent_say, Hs.
    split; [exact Hsel|]. exists r. split; [reflexivity|exact Ho].
Qed.

(** Both chart screens ask the remote table once and send exactly two
    things: first the note that the chart is being generated, then one
    outcome. The outcome is "No data available" when the fetch gave nothing,
    the photo of the chart drawn from the aggregates of the fetched rows, or
    the text of the exception that was caught: the one [process_data] raised
    when no row was valid, or the one the drawing raised. No photo is sent
    without aggregates or after a failed drawing. *)
Theorem chart_screens_send_a_note_then_one_outcome (chat_id : Z) :
  (selects (send_category_chart world chat_id) = 1%nat
   /\ exists r,
        sent (send_category_chart world chat_id)
        = [Say chat_id GeneratingCategoryChart; r]
        /\ chart_outcome world chat_id category_pie r)
  /\ (selects (send_monthly_chart world chat_id) = 1%nat
      /\ exists r,
           sent (send_monthly_chart world chat_id)
           = [Say chat_id GeneratingMonthlyTrend; r]
           /\ chart_outcome world chat_id monthly_line r).
Proof.
  split.
  - exact (noted_chart_screen chat_id GeneratingCategoryChart category_pie).
  - exact (noted_chart_screen chat_id GeneratingMonthlyTrend monthly_line).
Qed.

End ReaderFacts.

(** ** Facts about the console menu *)

Section StripFacts.

Lemma lstrip_chars_clean (l : list ascii) :
  match l with [] => True | c :: _ => Str.isspace c = false end ->
  Str.lstrip_chars l = l.
Proof. destruct l as [|c l]; [reflexivity|]. cbn. intros ->. reflexivity. Qed.

Lemma lstrip_chars_is_clean (l : list ascii) :
  match Str.lstrip_chars l with [] => True | c :: _ => Str.isspace c = false end.
Proof.
  destruct (Str.lstrip_chars l) as [|c r] eqn:E; [exact I|].
  exact (lstrip_chars_head _ _ _ E).
Qed.

(** What [lstrip] removes is whitespace at the front. *)
Lemma lstrip_chars_suffix (l : list ascii) :
  exists t, l = t ++ Str.lstrip_chars l /\ forallb Str.isspace t = true.
Proof.
  induction l as [|c l (t & Ht & Hs)]; [exists []; split; reflexivity|].
  cbn [Str.lstrip_chars]. destruct (Str.isspace c) eqn:E.
  - exists (c :: t). cbn. rewrite E, Hs, <- Ht. split; reflexivity.
  - exists []. split; reflexivity.
Qed.

(** [rstrip] keeps the first character of a text that does not start with
    whitespace. *)
Lemma rstrip_chars_clean (l : list ascii) :
  match l with [] => True | c :: _ => Str.isspace c = false end ->
  match Str.rstrip_chars l with [] => l = [] | c :: _ => Str.isspace c = false end.
Proof.
  intros Hl. unfold Str.rstrip_chars.
  destruct (lstrip_chars_suffix (rev l)) as (t & Ht & Hs).
  apply (f_equal (@rev ascii)) in Ht. rewrite rev_involutive, rev_app_distr in Ht.
  destruct (rev (Str.lstrip_chars (rev l))) as [|c r] eqn:E.
  - cbn in Ht. destruct l as [|a l]; [reflexivity|]. exfalso.
    assert (Ha : In a (rev t)) by (rewrite <- Ht; left; reflexivity).
    apply in_rev in Ha. rewrite forallb_forall in Hs. rewrite (Hs a Ha) in Hl. discriminate.
  - rewrite Ht in Hl. exact Hl.
Qed.

Lemma rstrip_chars_idempotent (l : list ascii) :
  Str.rstrip_chars (Str.rstrip_chars l) = Str.rstrip_chars l.
Proof.
  unfold Str.rstrip_chars. rewrite rev_involutive.
  rewrite (lstrip_chars_clean (Str.lstrip_chars (rev l))); [reflexivity|].
  apply lstrip_chars_is_clean.
Qed.

(** Stripping a stripped text changes nothing. *)
Lemma strip_idempotent (s : string) : Str.strip (Str.strip s) = Str.strip s.
Proof.
  unfold Str.strip. rewrite list_ascii_of_string_of_list_ascii. f_equal.
  set (m := Str.lstrip_chars (list_ascii_of_string s)).
  rewrite (lstrip_chars_clean (Str.rstrip_chars m)).
  - apply rstrip_chars_idempotent.
  - pose proof (rstrip_chars_clean m (lstrip_chars_is_clean _)) as Hc.
    destruct (Str.rstrip_chars m); [exact I|exact Hc].
Qed.

End StripFacts.

Section ScriptFacts.
Import Menu.

Lemma meets_ret {A : Type} (P : menu_event -> Prop) (Q : A -> Prop) (a : A) :
  Q a -> meets P Q (mret a).
Proof. intros Ha ins. cbn. auto. Qed.

Lemma meets_bind {A B : Type} (P : menu_event -> Prop) (Q : A -> Prop) (R : B -> Prop)
    (m : script A) (f : A -> script B) :
  meets P Q m -> (forall a, Q a -> meets P R (f a)) -> meets P R (m ≫= f).
Proof.
  intros Hm Hf ins. specialize (Hm ins).
  unfold mbind, script_bind.
  destruct (m ins) as [[evs ins'] [a|e]]; cbn [fst snd] in *.
  - destruct Hm as (Hevs & Hlen & Ha). specialize (Hf a Ha ins').
    destruct (f a ins') as [[evs' ins''] r]. cbn [fst snd] in *.
    destruct Hf as (Hevs' & Hlen' & Hr).
    split; [apply Forall_app; split; assumption|].
    split; [etrans; eassumption|exact Hr].
  - destruct Hm as (Hevs & Hlen & _). auto.
Qed.

Lemma meets_print (P : menu_event -> Prop) (l : menu_line) :
  P (Shown l) -> meets P (fun _ => True) (print l).
Proof. intros Hl ins. cbn. auto. Qed.

Lemma meets_input (P : menu_event -> Prop) (p : prompt) :
  P (Asked p) -> meets P (fun _ => True) (input p).
Proof.
  intros Hp [|line rest]; cbn; (split; [auto|]); (split; [|exact I]).
  - reflexivity.
  - apply suffix_cons_r. reflexivity.
Qed.

Lemma meets_emit (P : menu_event -> Prop) (evs : list menu_event) :
  Forall P evs -> meets P (fun _ => True) (emit evs).
Proof. intros Hevs ins. cbn. auto. Qed.

Lemma meets_lift {A : Type} (P : menu_event -> Prop) (r : pyresult A) :
  meets P (fun a => r = Ok a) (lift r).
Proof. intros ins. destruct r; cbn; auto. Qed.

Lemma meets_weaken {A : Type} (P : menu_event -> Prop) (Q Q' : A -> Prop) (m : script A) :
  meets P Q m -> (forall a, Q a -> Q' a) -> meets P Q' m.
Proof.
  intros Hm HQ ins. destruct (Hm ins) as (Hevs & Hlen & Hr).
  split; [exact Hevs|]. split; [exact Hlen|].
  destruct ((m ins).2); auto.
Qed.

Lemma meets_except_ValueError {A : Type} (P : menu_event -> Prop) (Q : A -> Prop)
    (m handler : script A) :
  meets P Q m -> meets P Q handler -> meets P Q (except_ValueError m handler).
Proof.
  intros Hm Hh ins. specialize (Hm ins). unfold except_ValueError.
  destruct (m ins) as [[evs ins'] [a|[e|]]]; cbn [fst snd] in *; try exact Hm.
  destruct e; try exact Hm.
  destruct Hm as (Hevs & Hlen & _). specialize (Hh ins').
  destruct (handler ins') as [[evs' ins''] r]. cbn [fst snd] in *.
  destruct Hh as (Hevs' & Hlen' & Hr).
  split; [apply Forall_app; split; assumption|].
  split; [etrans; eassumption|exact Hr].
Qed.

Lemma meets_except_Exception {A : Type} (P : menu_event -> Prop) (Q : A -> Prop)
    (m handler : script A) :
  meets P Q m -> meets P Q handler -> meets P Q (except_Exception m handler).
Proof.
  intros Hm Hh ins. specialize (Hm ins). unfold except_Exception.
  destruct (m ins) as [[evs ins'] [a|e]]; cbn [fst snd] in *; try exact Hm.
  destruct Hm as (Hevs & Hlen & _). specialize (Hh ins').
  destruct (handler ins') as [[evs' ins''] r]. cbn [fst snd] in *.
  destruct Hh as (Hevs' & Hlen' & Hr).
  split; [apply Forall_app; split; assumption|].
  split; [etrans; eassumption|exact Hr].
Qed.

(** A handler that returns catches everything. *)
Lemma except_Exception_returns {A : Type} (m handler : script A) (ins : list string) :
  (forall ins', exists a, (handler ins').2 = inl a) ->
  exists a, (except_Exception m handler ins).2 = inl a.
Proof.
  intros Hh. unfold except_Exception.
  destruct (m ins) as [[evs ins'] [a|e]]; cbn [snd]; [eauto|].
  destruct (Hh ins') as [a Ha].
  destruct (handler ins') as [[evs' ins''] r]. cbn [snd] in *. eauto.
Qed.

End ScriptFacts.

Section MenuFacts.
Context `{PyBuiltins}.
Import Menu.

Lemma add_expense_meets (P : menu_event -> Prop) (w : console) :
  upheld P -> meets P (fun _ => True) (add_expense w).
Proof.
  intros (H1 & H2 & _ & H4 & _). unfold add_expense.
  apply meets_except_ValueError; [|apply meets_print, H1; discriminate].
  eapply meets_bind; [apply meets_input, H2|]. intros category _.
  eapply meets_bind; [apply meets_input, H2|]. intros amount_text _.
  eapply meets_bind; [apply meets_lift|]. intros amount _.
  eapply meets_bind; [apply meets_input, H2|]. intros note _.
  apply meets_emit, H4.
Qed.

Lemma view_expenses_meets (P : menu_event -> Prop) (w : console) :
  upheld P -> meets P (fun _ => True) (view_expenses w).
Proof.
  intros (_ & _ & H3 & _). apply meets_emit, List.Forall_forall.
  intros ev Hev. apply List.in_map_iff in Hev. destruct Hev as (e & <- & _). apply H3.
Qed.

Lemma month_total_meets (P : menu_event -> Prop) (w : console) :
  upheld P -> meets P (fun _ => True) (month_total w).
Proof.
  intros (H1 & H2 & _ & _ & H5 & _). unfold month_total.
  apply meets_except_ValueError; [|apply meets_print, H1; discriminate].
  eapply meets_bind; [apply meets_print, H1; discriminate|]. intros _ _.
  eapply meets_bind; [apply meets_input, H2|]. intros year_text _.
  eapply meets_bind; [apply meets_lift|]. intros year _.
  eapply meets_bind; [apply meets_input, H2|]. intros month_text _.
  eapply meets_bind; [apply meets_lift|]. intros month _.
  destruct ((1 <=? month)%Z && (month <=? 12)%Z) eqn:E.
  - apply meets_emit, H5. apply andb_true_iff in E. lia.
  - apply meets_print, H1. discriminate.
Qed.

Lemma half_built_well_formed (d n : changes) :
  half_built d ->
  n = [] \/ (exists s, s <> "" /\ n = [("note", PStr s)]) ->
  well_formed (d ++ n).
Proof.
  intros (c & a & -> & Hc & Ha) Hn. unfold well_formed, is_change.
  destruct Hc as [->|(s & Hs & ->)], Ha as [->|(q & ->)], Hn as [->|(t & Ht & ->)];
    cbn; (split;
      [repeat first [apply sublist_nil | apply sublist_skip | apply sublist_cons]
      |repeat match goal with
              | |- Forall _ (_ :: _) => constructor
              | |- Forall _ [] => constructor
              end; cbn; try reflexivity; (split; [auto|assumption])]).
Qed.

Lemma update_expense_meets (P : menu_event -> Prop) (w : console)
    (label_id : string) (new_data : changes) :
  upheld P -> new_data <> [] -> well_formed new_data ->
  meets P (fun _ => True) (update_expense w label_id new_data).
Proof.
  intros (H1 & _ & _ & _ & _ & H6) Hne Hwf. unfold update_expense.
  destruct (remote_update w label_id new_data); apply meets_emit;
    (constructor; [apply H6; assumption|]); (constructor; [apply H1; discriminate|]);
    constructor.
Qed.

Lemma change_expense_meets (P : menu_event -> Prop) (w : console) :
  upheld P -> meets P (fun _ => True) (change_expense w).
Proof.
  intros HP. pose proof HP as (H1 & H2 & _). unfold change_expense.
  eapply meets_bind; [apply meets_input, H2|]. intros label_id _.
  eapply meets_bind; [apply meets_print, H1; discriminate|]. intros _ _.
  eapply meets_bind; [apply meets_input, H2|]. intros new_category _.
  eapply meets_bind; [apply meets_input, H2|]. intros new_amount _.
  set (with_category :=
         if String.eqb new_category "" then [] else [("category", PStr new_category)]).
  assert (Hc : with_category = []
               \/ exists s, s <> "" /\ with_category = [("category", PStr s)]).
  { subst with_category. destruct (String.eqb new_category "") eqn:E; [left; reflexivity|].
    right. exists new_category. split; [apply String.eqb_neq, E|reflexivity]. }
  eapply (meets_bind P half_built).
  - destruct (String.eqb new_amount "").
    + apply meets_ret. exists with_category, []. rewrite app_nil_r. auto.
    + apply meets_except_ValueError.
      * eapply meets_bind; [apply meets_lift|]. intros amount _.
        apply meets_ret. exists with_category, [("amount", PFloat amount)]. eauto.
      * eapply meets_bind; [apply meets_print, H1; discriminate|]. intros _ _.
        apply meets_ret. exists with_category, []. rewrite app_nil_r. auto.
  - intros with_amount Hd.
    eapply meets_bind; [apply meets_input, H2|]. intros new_note _.
    assert (Hwf : well_formed
                    (if String.eqb new_note "" then with_amount
                     else with_amount ++ [("note", PStr new_note)])).
    { destruct (String.eqb new_note "") eqn:E.
      - rewrite <- (app_nil_r with_amount). apply half_built_well_formed; auto.
      - apply half_built_well_formed; [exact Hd|]. right. exists new_note.
        split; [apply String.eqb_neq, E|reflexivity]. }
    destruct (if String.eqb new_note "" then with_amount
              else with_amount ++ [("note", PStr new_note)]) as [|kv rest].
    + apply meets_print, H1. discriminate.
    + apply update_expense_meets; [exact HP|discriminate|exact Hwf].
Qed.

(** A turn whose choice is not ['5'] goes on, whatever happens in it. *)
Lemma turn_meets (P : menu_event -> Prop) (w : console) (choice : string) :
  upheld P -> choice <> "5" -> meets P (fun b => b = false) (turn w choice).
Proof.
  intros HP Hchoice. pose proof HP as (H1 & _). unfold turn.
  apply meets_except_Exception.
  - destruct (String.eqb choice "1");
      [eapply meets_bind; [apply add_expense_meets, HP|];
       intros; apply meets_ret; reflexivity|].
    destruct (String.eqb choice "2");
      [eapply meets_bind; [apply view_expenses_meets, HP|];
       intros; apply meets_ret; reflexivity|].
    destruct (String.eqb choice "3");
      [eapply meets_bind; [apply change_expense_meets, HP|];
       intros; apply meets_ret; reflexivity|].
    destruct (String.eqb choice "4");
      [eapply meets_bind; [apply month_total_meets, HP|];
       intros; apply meets_ret; reflexivity|].
    destruct (String.eqb choice "5") eqn:E; [apply String.eqb_eq in E; contradiction|].
    eapply meets_bind; [apply meets_print, H1; discriminate|].
    intros; apply meets_ret; reflexivity.
  - eapply meets_bind; [apply meets_print, H1; discriminate|].
    intros; apply meets_ret; reflexivity.
Qed.

Lemma turn_exit (w : console) (ins : list string) :
  turn w "5" ins = ([Shown Exiting], ins, inl true).
Proof. reflexivity. Qed.

(** No exception leaves a turn. *)
Lemma turn_returns (w : console) (choice : string) (ins : list string) :
  exists b, (turn w choice ins).2 = inl b.
Proof.
  apply except_Exception_returns. intros ins'. exists false. reflexivity.
Qed.

Lemma menu_loop_S (outside : nat -> console) (fuel n : nat) (ins : list string) :
  menu_loop outside (S fuel) n ins
  = match ins with
    | [] => Some ([Shown MenuText; Asked EnterChoice], Raised EOFError)
    | choice :: ins' =>
        match turn (outside n) choice ins' with
        | (evs', _, inr e) => Some ([Shown MenuText; Asked EnterChoice] ++ evs', Raised e)
        | (evs', _, inl true) => Some ([Shown MenuText; Asked EnterChoice] ++ evs', Returned)
        | (evs', ins'', inl false) =>
            match menu_loop outside fuel (S n) ins'' with
            | Some (rest, e) =>
                Some ([Shown MenuText; Asked EnterChoice] ++ evs' ++ rest, e)
            | None => None
            end
        end
    end.
Proof. destruct ins; reflexivity. Qed.

(** The menu with enough fuel: it ends after the farewell, which takes a
    line ['5'], or with the [EOFError] of the prompt for a choice; [P] holds
    of all that came before. *)
Lemma menu_loop_spec (P : menu_event -> Prop) (outside : nat -> console) :
  upheld P ->
  forall fuel n ins, (length ins < fuel)%nat ->
  exists evs e pre,
    menu_loop outside fuel n ins = Some (evs, e)
    /\ Forall P pre
    /\ match e with
       | Returned => evs = pre ++ [Shown Exiting] /\ In "5" ins
       | Raised EOFError => evs = pre ++ [Shown MenuText; Asked EnterChoice]
       | Raised (Builtin _) => False
       end.
Proof.
  intros HP. pose proof HP as (H1 & H2 & _).
  assert (Hhead : Forall P [Shown MenuText; Asked EnterChoice]).
  { constructor; [apply H1; discriminate|]. constructor; [apply H2|constructor]. }
  induction fuel as [|fuel IH]; intros n ins Hlen; [lia|].
  rewrite menu_loop_S. destruct ins as [|choice ins'].
  - exists [Shown MenuText; Asked EnterChoice], (Raised EOFError), [].
    split; [reflexivity|]. split; [constructor|reflexivity].
  - destruct (decide (choice = "5")) as [->|Hchoice].
    + rewrite turn_exit.
      exists ([Shown MenuText; Asked EnterChoice] ++ [Shown Exiting]), Returned,
             [Shown MenuText; Asked EnterChoice].
      split; [reflexivity|]. split; [exact Hhead|]. split; [reflexivity|left; reflexivity].
    + pose proof (turn_meets P (outside n) choice HP Hchoice ins') as (Hevs & Hleft & Hb).
      destruct (turn_returns (outside n) choice ins') as [b Hret].
      destruct (turn (outside n) choice ins') as [[evs' ins''] r]. cbn [fst snd] in *.
      subst r. subst b. cbn [length] in Hlen.
      pose proof (suffix_length _ _ Hleft) as Hshort.
      destruct (IH (S n) ins'') as (rest & e & pre & Hloop & Hpre & He); [lia|].
      rewrite Hloop.
      exists ([Shown MenuText; Asked EnterChoice] ++ evs' ++ rest), e,
             ([Shown MenuText; Asked EnterChoice] ++ evs' ++ pre).
      split; [reflexivity|]. split.
      * apply Forall_app. split; [exact Hhead|]. apply Forall_app. split; assumption.
      * destruct e as [|[e|]]; [| contradiction |].
        -- destruct He as [-> Hfive]. split; [rewrite <- !app_assoc; reflexivity|].
           right. destruct Hleft as [skipped ->]. apply in_or_app. right. exact Hfive.
        -- rewrite He, <- !app_assoc. reflexivity.
Qed.

(** A property that also holds of the farewell holds of the whole run. *)
Lemma main_keeps (P : menu_event -> Prop) (outside : nat -> console) (ins : list string) :
  upheld P -> P (Shown Exiting) ->
  match main outside ins with
  | Some (evs, _) => Forall P evs
  | None => False
  end.
Proof.
  intros HP Hbye. pose proof HP as (H1 & H2 & _).
  destruct (menu_loop_spec P outside HP (S (length ins)) 0%nat ins)
    as (evs & e & pre & Hmain & Hpre & He); [lia|].
  unfold main. rewrite Hmain. destruct e as [|[e|]]; [destruct He as [He _]| contradiction |];
    subst evs; apply Forall_app; (split; [exact Hpre|]); repeat constructor; auto.
Qed.

Lemma Forall_map_Tracked (P : menu_event -> Prop) (evs : list event) :
  Forall (fun e => P (Tracked e)) evs -> Forall P (map Tracked evs).
Proof. induction 1; cbn; constructor; assumption. Qed.

(** [main] ends on every finite input, within one turn more than there are
    lines. It returns only after a line ['5'] was typed, and then "Exiting..."
    is the last thing printed and is printed once; otherwise it ends with the
    [EOFError] of the prompt for a choice, right after the menu was shown
    once more. No other exception leaves it: what a turn raises, the end of
    the input included, is reported and the menu goes on. *)
Theorem menu_ends_on_every_finite_input (outside : nat -> console) (ins : list string) :
  exists evs e,
    main outside ins = Some (evs, e)
    /\ match e with
       | Returned =>
           In "5" ins
           /\ exists pre, evs = pre ++ [Shown Exiting] /\ ~ In (Shown Exiting) pre
       | Raised EOFError =>
           ~ In (Shown Exiting) evs
           /\ exists pre, evs = pre ++ [Shown MenuText; Asked EnterChoice]
       | Raised (Builtin _) => False
       end.
Proof.
  assert (HP : upheld (fun ev => ev <> Shown Exiting)).
  { repeat split; try discriminate.
    - intros l Hl [= ->]. contradiction.
    - intros env category amount note. apply Forall_map_Tracked, Forall_forall.
      discriminate.
    - intros env year month _. apply Forall_map_Tracked, Forall_forall. discriminate. }
  destruct (menu_loop_spec _ outside HP (S (length ins)) 0%nat ins)
    as (evs & e & pre & Hmain & Hpre & He); [lia|].
  exists evs, e. split; [exact Hmain|].
  assert (Hno : ~ In (Shown Exiting) pre).
  { intros Hin. rewrite List.Forall_forall in Hpre. exact (Hpre _ Hin eq_refl). }
  destruct e as [|[e|]]; [| exact He |].
  - destruct He as [-> Hfive]. split; [exact Hfive|]. exists pre. split; [reflexivity|exact Hno].
  - subst evs. split; [|exists pre; reflexivity].
    intros Hin. apply in_app_or in Hin. destruct Hin as [Hin|Hin]; [exact (Hno Hin)|].
    cbn in Hin. destruct Hin as [Hin|[Hin|[]]]; discriminate.
Qed.

(** Whatever is typed, the menu never asks the remote table for the total of
    a month outside 1..12: the range is checked before
    [fetch_monthly_total] is called. *)
Theorem menu_never_asks_for_a_month_out_of_range (outside : nat -> console)
    (ins : list string) :
  match main outside ins with
  | Some (evs, _) => Forall month_in_range evs
  | None => False
  end.
Proof.
  apply main_keeps; [|exact I]. repeat split.
  - intros env category amount note. apply Forall_map_Tracked.
    unfold Tracker.store_expense.
    destruct (String.eqb (Str.strip category) "" || Qeq_bool amount 0);
      [repeat constructor|].
    apply Forall_app. split; [repeat constructor|].
    destruct (remote_insert env _) as [[|]|[]]; repeat constructor.
  - intros env year month Hmonth. apply Forall_map_Tracked.
    unfold Tracker.fetch_monthly_total.
    destruct (remote_monthly_total env year month) as [[total|]|e];
      [destruct (Qeq_bool total 0)| |]; cbn [fst];
      (constructor; [exact Hmonth|]); repeat constructor.
Qed.

(** Whatever is typed, an update reaches the remote table only with at least
    one change. Its changes are a selection of category, amount and note, in
    that order and each at most once; a category or note in it is a text that
    is not empty, the amount is a number: neither a blank answer nor an
    amount that is not a number reaches the remote table. *)
Theorem menu_updates_carry_a_change (outside : nat -> console) (ins : list string) :
  match main outside ins with
  | Some (evs, _) => Forall carries_a_change evs
  | None => False
  end.
Proof.
  apply main_keeps; [|exact I].
  split; [intros; exact I|]. split; [intros; exact I|]. split; [intros; exact I|].
  split; [|split].
  - intros env category amount note. apply Forall_map_Tracked, Forall_forall.
    intros e _. exact I.
  - intros env year month _. apply Forall_map_Tracked, Forall_forall.
    intros e _. exact I.
  - intros label_id new_data Hne Hwf. split; assumption.
Qed.

(** Whatever is typed, a row the menu inserts has a category that is not
    empty and has no whitespace around it, an amount that is not zero, and a
    note without whitespace around it: a category of blanks only and an
    amount of zero are refused before the remote table is reached. *)
Theorem menu_inserts_only_full_rows (outside : nat -> console) (ins : list string) :
  match main outside ins with
  | Some (evs, _) => Forall inserts_a_full_row evs
  | None => False
  end.
Proof.
  apply main_keeps; [|exact I]. repeat split.
  - intros env category amount note. apply Forall_map_Tracked.
    unfold Tracker.store_expense.
    destruct (String.eqb (Str.strip category) "" || Qeq_bool amount 0) eqn:E;
      [repeat constructor|].
    apply orb_false_iff in E. destruct E as [Ec Ea].
    apply Forall_app. split.
    + constructor; [exact I|]. constructor; [|constructor].
      cbn [inserts_a_full_row r_category r_amount r_note].
      rewrite !strip_idempotent.
      split; [apply String.eqb_neq, Ec|]. split; [reflexivity|].
      split; [apply Qeq_bool_neq, Ea|].
      destruct (String.eqb (Str.strip note) ""); [reflexivity|].
      apply strip_idempotent.
    + destruct (remote_insert env _) as [[|]|[]]; repeat constructor.
  - intros env year month _. apply Forall_map_Tracked.
    unfold Tracker.fetch_monthly_total.
    destruct (remote_monthly_total env year month) as [[total|]|e];
      [destruct (Qeq_bool total 0)| |]; repeat constructor.
Qed.

End MenuFacts.

Section AnalyticsFacts.
Context `{PyBuiltins}.
Import Analytics.

(** Only the choice ['7'] ends a turn with [break], and it raises nothing. *)
Lemma turn_leaves (s : screen) (agg : Ana.aggregates) (DEBUG : bool) (choice : string) :
  match turn s agg DEBUG choice with
  | (_, raised, _, true) => choice = "7" /\ raised = None
  | (_, _, _, false) => choice <> "7"
  end.
Proof.
  unfold turn.
  destruct (String.eqb choice "1") eqn:E1;
    [apply String.eqb_eq in E1; subst choice;
     destruct (display_all s agg _); discriminate|].
  destruct (String.eqb choice "2") eqn:E2;
    [apply String.eqb_eq in E2; subst choice;
     destruct (display_all s agg _); discriminate|].
  destruct (String.eqb choice "3") eqn:E3;
    [apply String.eqb_eq in E3; subst choice;
     destruct (display_all s agg _); discriminate|].
  destruct (String.eqb choice "4") eqn:E4;
    [apply String.eqb_eq in E4; subst choice;
     destruct (display_all s agg _); discriminate|].
  destruct (String.eqb choice "5") eqn:E5;
    [apply String.eqb_eq in E5; subst choice;
     destruct (display_all s agg _); discriminate|].
  destruct (String.eqb choice "6") eqn:E6;
    [apply String.eqb_eq in E6; subst choice; discriminate|].
  destruct (String.eqb choice "7") eqn:E7.
  - apply String.eqb_eq in E7. auto.
  - apply String.eqb_neq in E7. exact E7.
Qed.

(** The loop runs out of any number of turns exactly when none of the lines
    it gets to read in them is the choice to leave. *)
Lemma analytics_loop_goes_on (outside : nat -> screen) (agg : Ana.aggregates)
    (fuel n : nat) (DEBUG : bool) (ins : list string) :
  analytics_loop outside agg fuel n DEBUG ins = None
  <-> forallb (fun line => negb (leaves line)) (take fuel ins) = true.
Proof.
  revert n DEBUG ins. induction fuel as [|fuel IH]; intros n DEBUG ins; [split; reflexivity|].
  cbn [analytics_loop]. destruct ins as [|line ins'].
  - specialize (IH (S n) DEBUG []).
    destruct (analytics_loop outside agg fuel (S n) DEBUG []); cbn; [split; [discriminate|]|tauto].
    intros _. destruct IH as [_ IH]. rewrite take_nil in IH. discriminate (IH eq_refl).
  - cbn [take forallb]. unfold leaves at 1.
    pose proof (turn_leaves (outside n) agg DEBUG (Str.strip line)) as Ht.
    destruct (turn (outside n) agg DEBUG (Str.strip line)) as [[[evs raised] DEBUG'] [|]].
    + destruct Ht as [-> ->]. cbn. split; discriminate.
    + apply String.eqb_neq in Ht. rewrite Ht. cbn [negb andb].
      specialize (IH (S n) DEBUG' ins').
      destruct raised;
        destruct (analytics_loop outside agg fuel (S n) DEBUG' ins');
        (split; [intros Hnone; try discriminate Hnone; apply IH; reflexivity
                |intros Hall; apply IH in Hall; try discriminate Hall; reflexivity]).
Qed.

(** [main] of [ana.py] returns exactly when the menu is not reached (no
    rows, or no valid row) or the choice to leave is typed: with a menu,
    [fuel] turns are not enough exactly when none of the first [fuel] lines
    is ['7']. In particular the end of the input does not end it: the
    [EOFError] of the prompt is caught in the loop, which then goes on
    without end. *)
Theorem analytics_returns_exactly_when_told_to_leave (outside : nat -> screen)
    (fuel : nat) (ins : list string) :
  main outside fuel ins = None
  <-> reaches_menu outside = true
      /\ forallb (fun line => negb (leaves line)) (take fuel ins) = true.
Proof.
  unfold main, reaches_menu.
  destruct (Reader.fetch_all_expenses (table (outside 0%nat))) as [fetched [[|row rows]|]];
    cbn [snd]; try (split; [discriminate|intros [[=] _]]).
  destruct (Ana.process_data false (row :: rows)) as [log [agg|e]]; cbn [snd];
    [|split; [discriminate|intros [[=] _]]].
  pose proof (analytics_loop_goes_on outside agg fuel 1 false ins) as Hloop.
  destruct (analytics_loop outside agg fuel 1 false ins).
  - split; [discriminate|]. intros [_ Hall]. apply Hloop in Hall. discriminate.
  - split; [|reflexivity]. intros _. split; [reflexivity|]. apply Hloop. reflexivity.
Qed.

End AnalyticsFacts.

(** A session at the menu of the tracker: a month out of range, an update
    whose amount is not a number, a choice that does not exist, an expense
    of zero, and the end of the input in the middle of an entry. *)
Example menu_session_runs :
  Menu.main Plain.desk
    ["4"; "2025"; "13"; "3"; "id-7"; ""; "abc"; "x"; "9"; "1"; " Food "; "0"; "n"; "1"; "Food"]
  = Some
      (let shown := Menu.Shown in
       let asked := Menu.Asked in
       [shown Menu.MenuText; asked Menu.EnterChoice; shown Menu.GetTotalHeader;
        asked Menu.EnterYear; asked Menu.EnterMonth; shown Menu.MonthOutOfRange;
        shown Menu.MenuText; asked Menu.EnterChoice; asked Menu.EnterUpdateId;
        shown Menu.WhatFields; asked Menu.EnterNewCategory; asked Menu.EnterNewAmount;
        shown Menu.InvalidAmountSkipped; asked Menu.EnterNewNote;
        Menu.StoreUpdate "id-7" [("note", PStr "x")]; shown (Menu.UpdatedOk "id-7");
        shown Menu.MenuText; asked Menu.EnterChoice; shown Menu.InvalidChoice;
        shown Menu.MenuText; asked Menu.EnterChoice; asked Menu.EnterCategory;
        asked Menu.EnterAmount; asked Menu.EnterNote;
        Menu.Tracked (Printed RequiredFields);
        shown Menu.MenuText; asked Menu.EnterChoice; asked Menu.EnterCategory;
        asked Menu.EnterAmount; shown Menu.UnexpectedError;
        shown Menu.MenuText; asked Menu.EnterChoice],
       Menu.Raised Menu.EOFError).
Proof. vm_compute. reflexivity. Qed.

(** * Facts about the aggregation on doubles *)

Section DoubleOrder.
Import SpecFloat.

Ltac order_cases :=
  repeat match goal with
         | |- context [PosDef.Pos.compare_cont Eq ?a ?b] =>
             change (PosDef.Pos.compare_cont Eq a b) with (Pos.compare a b)
         | H : context [PosDef.Pos.compare_cont Eq ?a ?b] |- _ =>
             change (PosDef.Pos.compare_cont Eq a b) with (Pos.compare a b) in H
         end;
  repeat match goal with
         | |- context [(?a ?= ?b)%Z] => destruct (Z.compare_spec a b); subst
         | H : context [(?a ?= ?b)%Z] |- _ => destruct (Z.compare_spec a b); subst
         | |- context [(?a ?= ?b)%positive] => destruct (Pos.compare_spec a b); subst
         | H : context [(?a ?= ?b)%positive] |- _ => destruct (Pos.compare_spec a b); subst
         end.

Lemma SFleb_trans (a b c : spec_float) :
  SFleb a b = true -> SFleb b c = true -> SFleb a c = true.
Proof.
  unfold SFleb, SFcompare.
  destruct a as [sa|sa| |sa ma ea], b as [sb|sb| |sb mb eb], c as [sc|sc| |sc mc ec];
    try discriminate; try reflexivity;
    repeat match goal with s : bool |- _ => destruct s end;
    try discriminate; try reflexivity;
    intros Hab Hbc;
    order_cases; cbn in *; try discriminate; try reflexivity; try lia.
Qed.

Lemma SFleb_total (a b : spec_float) :
  a <> S754_nan -> b <> S754_nan -> SFleb a b = true \/ SFleb b a = true.
Proof.
  unfold SFleb, SFcompare.
  destruct a as [sa|sa| |sa ma ea], b as [sb|sb| |sb mb eb]; try congruence; intros _ _;
    repeat match goal with s : bool |- _ => destruct s end; auto;
    order_cases; cbn; auto; try lia.
Qed.

Lemma SFeqb_leb (a b : spec_float) : SFeqb a b = SFleb a b && SFleb b a.
Proof.
  unfold SFeqb, SFleb, SFcompare.
  destruct a as [sa|sa| |sa ma ea], b as [sb|sb| |sb mb eb]; try reflexivity;
    repeat match goal with s : bool |- _ => destruct s end; try reflexivity;
    order_cases; cbn; try reflexivity; try lia.
Qed.

(** [<=] on doubles is transitive. *)
Lemma double_leb_trans (x y z : PrimFloat.float) :
  PrimFloat.leb x y = true -> PrimFloat.leb y z = true -> PrimFloat.leb x z = true.
Proof. rewrite !FloatAxioms.leb_spec. apply SFleb_trans. Qed.

(** Two doubles that are not nan compare one way or the other. *)
Lemma double_leb_total (x y : PrimFloat.float) :
  PrimFloat.eqb x x = true -> PrimFloat.eqb y y = true ->
  PrimFloat.leb x y = true \/ PrimFloat.leb y x = true.
Proof.
  rewrite !FloatAxioms.eqb_spec, !FloatAxioms.leb_spec. intros Hx Hy.
  apply SFleb_total; intros E; rewrite E in *; discriminate.
Qed.

(** [==] on doubles is [<=] both ways. *)
Lemma double_eqb_leb (x y : PrimFloat.float) :
  PrimFloat.eqb x y = PrimFloat.leb x y && PrimFloat.leb y x.
Proof. rewrite FloatAxioms.eqb_spec, !FloatAxioms.leb_spec. apply SFeqb_leb. Qed.

End DoubleOrder.

Section DoubleBuckets.
Import PrimFloat Doubles Summary.

Lemma first_occurrences_snoc (l : list string) (k : string) :
  first_occurrences (l ++ [k]) = first_occurrences l ++ (if mem k l then [] else [k]).
Proof.
  induction l as [|x l IH]; [reflexivity|].
  cbn [app first_occurrences mem existsb]. rewrite IH, List.filter_app. f_equal.
  f_equal. fold (mem k l).
  destruct (String.eqb k x) eqn:E; cbn [orb].
  - destruct (mem k l); [reflexivity|]. cbn [List.filter]. rewrite E. reflexivity.
  - destruct (mem k l); [reflexivity|]. cbn [List.filter]. rewrite E. reflexivity.
Qed.

(** [d[k] += a] on a map given key by key. *)
Lemma double_add_total_map (k : string) (a : float) (ks : list string) (f : string -> float) :
  List.NoDup ks ->
  add_total k a (map (fun k' => (k', f k')) ks)
  = map (fun k' => (k', if String.eqb k' k then (f k' + a)%float else f k')) ks
    ++ (if mem k ks then [] else [(k, (0 + a)%float)]).
Proof.
  induction 1 as [|k0 ks Hk0 Hnd IH]; [reflexivity|].
  cbn [map add_total mem existsb]. rewrite (String.eqb_sym k k0).
  destruct (String.eqb k0 k) eqn:E; cbn [orb].
  - apply String.eqb_eq in E. subst k0. rewrite app_nil_r. f_equal.
    apply map_ext_in. intros k' Hk'.
    destruct (String.eqb k' k) eqn:E'; [|reflexivity].
    apply String.eqb_eq in E'. subst k'. contradiction.
  - cbn [app]. f_equal. exact IH.
Qed.

Lemma double_py_sum_snoc (l : list float) (a : float) :
  py_sum (l ++ [a]) = (py_sum l + a)%float.
Proof. unfold py_sum. rewrite fold_left_app. reflexivity. Qed.

End DoubleBuckets.

Section DoubleAggregation.
Context `{PyBuiltins}.
Variable py_double : pyval -> pyresult PrimFloat.float.
Import PrimFloat Doubles Summary.

Lemma amounts_under_snoc (key : expense -> string) (k : string) (xs : list expense)
    (x : expense) :
  amounts_under key k (xs ++ [x])
  = amounts_under key k xs ++ (if String.eqb (key x) k then [e_amount x] else []).
Proof.
  unfold amounts_under. rewrite List.filter_app, map_app. cbn [List.filter].
  destruct (String.eqb (key x) k); reflexivity.
Qed.

Lemma amounts_under_absent (key : expense -> string) (k : string) (xs : list expense) :
  mem k (map key xs) = false -> amounts_under key k xs = [].
Proof.
  unfold amounts_under. induction xs as [|x xs IH]; [reflexivity|].
  cbn [map mem existsb List.filter]. intros Hk. apply orb_false_iff in Hk as [Hx Hk].
  rewrite String.eqb_sym, Hx. apply IH, Hk.
Qed.

(** Filing one more expense under its key is [d[k] += a]. *)
Lemma add_total_buckets (key : expense -> string) (xs : list expense) (x : expense) :
  add_total (key x) (e_amount x) (buckets key xs) = buckets key (xs ++ [x]).
Proof.
  unfold buckets. rewrite map_app. cbn [map]. rewrite first_occurrences_snoc, map_app.
  rewrite double_add_total_map
    by (apply NoDup_ListNoDup, first_occurrences_NoDup).
  assert (Hmem : mem (key x) (first_occurrences (map key xs)) = mem (key x) (map key xs)).
  { apply eq_true_iff_eq. rewrite !mem_In. apply first_occurrences_In. }
  rewrite Hmem. f_equal.
  - apply map_ext. intros k. rewrite amounts_under_snoc, (String.eqb_sym k (key x)).
    destruct (String.eqb (key x) k); [rewrite double_py_sum_snoc|rewrite app_nil_r];
      reflexivity.
  - destruct (mem (key x) (map key xs)) eqn:Hk; [reflexivity|]. cbn [map].
    rewrite amounts_under_snoc, String.eqb_refl, (amounts_under_absent _ _ _ Hk).
    reflexivity.
Qed.

Lemma double_record_all_snoc (xs : list expense) (x : expense) (agg : aggregates) :
  record_all (xs ++ [x]) agg = record_expense x (record_all xs agg).
Proof. unfold record_all. rewrite fold_left_app. reflexivity. Qed.

(** The collections after a run of accepted expenses, from empty ones. *)
Lemma double_record_all_spec (xs : list expense) :
  let agg := record_all xs empty_aggregates in
  dates agg = map e_date xs
  /\ amounts agg = map e_amount xs
  /\ categories agg = map e_category xs
  /\ category_totals agg = buckets e_category xs
  /\ monthly_totals agg = buckets (fun x => strftime_Ym (e_date x)) xs.
Proof.
  cbv zeta. induction xs as [|x xs IH] using rev_ind; [repeat split; reflexivity|].
  destruct IH as (Hd & Ha & Hc & Hct & Hmt).
  rewrite double_record_all_snoc. cbn [record_expense dates amounts categories
    category_totals monthly_totals].
  rewrite Hd, Ha, Hc, Hct, Hmt, !map_app.
  repeat split; try reflexivity.
  - apply add_total_buckets.
  - apply (add_total_buckets (fun x => strftime_Ym (e_date x))).
Qed.

Lemma double_validated_cons (item : raw_record) (l : list raw_record) :
  validated py_double (item :: l) =
    match accepted py_double item with
    | Some x => x :: validated py_double l
    | None => validated py_double l
    end.
Proof. reflexivity. Qed.

Lemma double_process_items_validated (DEBUG : bool) (l : list raw_record)
    (out : list log_line) (agg : aggregates) :
  snd (fold_left (process_item py_double DEBUG) l (out, agg))
  = record_all (validated py_double l) agg.
Proof.
  revert out agg. induction l as [|item l IH]; intros out agg; [reflexivity|].
  rewrite double_validated_cons. unfold accepted. cbn [fold_left process_item].
  destruct (validate py_double item) as [warn [x|e]]; apply IH.
Qed.

(** What [process_data] hands back, in terms of the validated expenses. *)
Lemma double_process_data_result (DEBUG : bool) (all_data : list raw_record) :
  snd (process_data py_double DEBUG all_data)
  = match validated py_double all_data with
    | [] => Raise ValueError
    | _ :: _ => Ok (record_all (validated py_double all_data) empty_aggregates)
    end.
Proof.
  destruct all_data as [|item rest]; [reflexivity|].
  unfold process_data, process_loop.
  pose proof (double_process_items_validated DEBUG (item :: rest) [] empty_aggregates) as Hagg.
  destruct (double_record_all_spec (validated py_double (item :: rest))) as (Hd & _).
  rewrite <- Hagg in Hd |- *.
  destruct (fold_left (process_item py_double DEBUG) (item :: rest) ([], empty_aggregates))
    as [out agg].
  cbn [snd] in *. rewrite Hd.
  destruct (validated py_double (item :: rest)); reflexivity.
Qed.

(** C1, as it holds of the program. Whenever at least one record of the
    batch validates, [process_data] returns; its amounts are the validated
    amounts in order; [category_totals] has one entry per category of a
    validated record, in the order the categories first occur, worth the sum
    of the validated amounts of that category, added in order of arrival
    from [0.0]; [monthly_totals] has the same of every month. If no record
    validates it raises. The sums of the two maps and of the amounts thus add
    up the same doubles, grouped by category, by month, or not at all. *)
Theorem totals_add_up_their_own_amounts (DEBUG : bool) (all_data : list raw_record) :
  match snd (process_data py_double DEBUG all_data) with
  | Ok agg =>
      validated py_double all_data <> []
      /\ amounts agg = map e_amount (validated py_double all_data)
      /\ category_totals agg = buckets e_category (validated py_double all_data)
      /\ monthly_totals agg
         = buckets (fun x => strftime_Ym (e_date x)) (validated py_double all_data)
  | Raise _ => validated py_double all_data = []
  end.
Proof.
  rewrite double_process_data_result.
  destruct (validated py_double all_data) as [|x xs] eqn:Hv; [reflexivity|].
  destruct (double_record_all_spec (x :: xs)) as (_ & Ha & _ & Hct & Hmt).
  split; [discriminate|]. split; [exact Ha|]. split; [exact Hct|exact Hmt].
Qed.

End DoubleAggregation.

Section DoubleCharts.
Import PrimFloat Doubles.

Lemma double_insert_desc_perm (x : string * float) (l : totals) :
  Permutation (x :: l) (insert_desc x l).
Proof.
  induction l as [|y l IH]; cbn [insert_desc]; [reflexivity|].
  destruct (snd y <=? snd x)%float; [reflexivity|].
  rewrite perm_swap. apply perm_skip, IH.
Qed.

Lemma double_sorted_desc_perm (d : totals) : Permutation d (sorted_desc d).
Proof.
  induction d as [|x d IH]; cbn [sorted_desc]; [reflexivity|].
  rewrite <- double_insert_desc_perm. apply perm_skip, IH.
Qed.

Lemma no_nan_perm (d s : totals) : Permutation d s -> no_nan d = true -> no_nan s = true.
Proof.
  unfold no_nan. intros Hperm Hd. rewrite forallb_forall in *. intros p Hp.
  apply Hd. eapply Permutation_in; [symmetry; exact Hperm|exact Hp].
Qed.

Lemma double_insert_desc_sorted (x : string * float) (l : totals) :
  (snd x =? snd x)%float = true -> no_nan l = true ->
  Sorted (fun a b => (snd b <=? snd a)%float = true) l ->
  Sorted (fun a b => (snd b <=? snd a)%float = true) (insert_desc x l).
Proof.
  intros Hx Hl. induction 1 as [|y l Hs IH Hhd]; cbn [insert_desc]; [repeat constructor|].
  cbn [no_nan forallb] in Hl. apply andb_true_iff in Hl as [Hy Hl].
  destruct (snd y <=? snd x)%float eqn:E.
  - repeat constructor; auto.
  - assert (Hxy : (snd x <=? snd y)%float = true).
    { destruct (double_leb_total (snd x) (snd y) Hx Hy) as [Hle|Hle]; [exact Hle|].
      congruence. }
    constructor; [apply IH, Hl|].
    destruct Hhd as [|z l Hz]; cbn [insert_desc]; [constructor; exact Hxy|].
    destruct (snd z <=? snd x)%float; constructor; auto.
Qed.

Lemma double_sorted_desc_sorted (d : totals) :
  no_nan d = true ->
  StronglySorted (fun a b => (snd b <=? snd a)%float = true) (sorted_desc d).
Proof.
  intros Hd. apply Sorted_StronglySorted.
  - intros a b c Hab Hbc. eapply double_leb_trans; eauto.
  - induction d as [|x d IH]; cbn [sorted_desc]; [constructor|].
    cbn [no_nan forallb] in Hd. apply andb_true_iff in Hd as [Hx Hd].
    apply double_insert_desc_sorted; [exact Hx| |apply IH, Hd].
    eapply no_nan_perm; [apply double_sorted_desc_perm|exact Hd].
Qed.

(** Insertion never moves an entry past one with the same total. *)
Lemma double_insert_desc_stable (v : float) (x : string * float) (l : totals) :
  List.filter (fun p => (snd p =? v)%float) (insert_desc x l)
  = List.filter (fun p => (snd p =? v)%float) (x :: l).
Proof.
  induction l as [|y l IH]; [reflexivity|].
  cbn [insert_desc]. destruct (snd y <=? snd x)%float eqn:E; [reflexivity|].
  cbn [List.filter] in *. rewrite IH.
  destruct (snd y =? v)%float eqn:Ey, (snd x =? v)%float eqn:Ex; try reflexivity.
  rewrite double_eqb_leb in Ey, Ex.
  apply andb_true_iff in Ey as [Hyv _]. apply andb_true_iff in Ex as [_ Hvx].
  rewrite (double_leb_trans _ _ _ Hyv Hvx) in E. discriminate.
Qed.

Lemma double_sorted_desc_stable (v : float) (d : totals) :
  List.filter (fun p => (snd p =? v)%float) (sorted_desc d)
  = List.filter (fun p => (snd p =? v)%float) d.
Proof.
  induction d as [|x d IH]; [reflexivity|].
  cbn [sorted_desc]. rewrite double_insert_desc_stable. cbn [List.filter].
  rewrite IH. reflexivity.
Qed.

Lemma double_sorted_desc_ranks (d : totals) : no_nan d = true -> ranks d (sorted_desc d).
Proof.
  intros Hd. split; [apply double_sorted_desc_perm|].
  split; [apply double_sorted_desc_sorted, Hd|].
  intros v. apply double_sorted_desc_stable.
Qed.

(** No entry left after the first [K] of a ranking is larger than a kept
    one. *)
Lemma double_ranks_split (K : nat) (d s : totals) :
  ranks d s ->
  Forall (fun a => Forall (fun b => (snd b <=? snd a)%float = true) (drop K s)) (take K s).
Proof.
  intros (_ & Hsorted & _).
  rewrite <- (take_drop K s) in Hsorted.
  apply List.Forall_forall. intros a Ha. apply List.Forall_forall. intros b Hb.
  eapply (StronglySorted_app_1_elem_of _ _ _ a b Hsorted);
    apply list_elem_of_In; assumption.
Qed.

(** C7, as it holds of the program. Both charts reduce category totals none
    of which is nan to their largest entries, 3 for the pie of [ana.py] and 5
    for the chart of [bot.py]: the entries are ranked by descending total,
    equal totals keeping their insertion order; with more than K entries the
    first K are shown, followed by one "Other" slice whose value is the sum
    of the totals that are not shown, added in the order of the ranking; with
    at most K entries all are shown and no "Other" slice is added. *)
Theorem charts_keep_the_largest_and_sum_the_rest (category_totals : totals) :
  no_nan category_totals = true ->
  top_k_reduction 3 category_totals
    (fst (plot_category_pie category_totals)) (snd (plot_category_pie category_totals))
  /\ top_k_reduction 5 category_totals
    (fst (send_category_chart category_totals))
    (snd (send_category_chart category_totals)).
Proof.
  intros Hnan.
  pose proof (double_sorted_desc_ranks category_totals Hnan) as Hr.
  assert (Hlen : length (sorted_desc category_totals) = length category_totals).
  { symmetry. apply Permutation_length, double_sorted_desc_perm. }
  split; exists (sorted_desc category_totals); (split; [exact Hr|]).
  - unfold plot_category_pie. rewrite Hlen.
    destruct (3 <? length category_totals)%nat eqn:E; [|split; reflexivity].
    apply Nat.ltb_lt in E. cbn [fst snd]. split; [reflexivity|]. split; [reflexivity|].
    split; [rewrite length_take; lia|]. exact (double_ranks_split 3 _ _ Hr).
  - unfold send_category_chart. rewrite Hlen.
    destruct (5 <? length category_totals)%nat eqn:E.
    + apply Nat.ltb_lt in E. cbn [fst snd]. split; [reflexivity|]. split; [reflexivity|].
      split; [rewrite length_take; lia|]. exact (double_ranks_split 5 _ _ Hr).
    + apply Nat.ltb_ge in E. cbn [fst snd].
      rewrite take_ge by lia. split; reflexivity.
Qed.

(** Both charts hand the plotting backend as many labels as sizes, and
    never more slices than their palette has colours: four for the pie of
    [ana.py], six for the chart of [bot.py]. With at most 3, respectively 5,
    categories there is a slice for each. *)
Theorem charts_never_outrun_their_palette (category_totals : totals) :
  let pie := plot_category_pie category_totals in
  let chat := send_category_chart category_totals in
  length (fst pie) = length (snd pie)
  /\ length (snd pie) = Nat.min (length category_totals) 4
  /\ length (fst chat) = length (snd chat)
  /\ length (snd chat) = Nat.min (length category_totals) 6.
Proof.
  cbv zeta. unfold plot_category_pie, send_category_chart.
  assert (Hlen : length (sorted_desc category_totals) = length category_totals).
  { symmetry. apply Permutation_length, double_sorted_desc_perm. }
  rewrite Hlen.
  destruct (3 <? length category_totals)%nat eqn:E3;
    destruct (5 <? length category_totals)%nat eqn:E5;
    cbn [fst snd]; rewrite ?length_app, ?length_map, ?length_take, ?Hlen; cbn [length];
    first [apply Nat.ltb_ge in E3 | apply Nat.ltb_lt in E3];
    first [apply Nat.ltb_ge in E5 | apply Nat.ltb_lt in E5];
    repeat split; lia.
Qed.

End DoubleCharts.

Section DoubleScenarios.
Import PrimFloat.

(** [float] rounds and overflows. Three expenses of one month, 1e308 twice
    under "A" and -1e308 under "B" between them, all validate; the total of
    "A" overflows, so the category totals sum to infinity, while the monthly
    total and the sum of the amounts are 1e308. *)
Lemma totals_disagree_on_doubles :
  match snd (@Doubles.process_data Plain.builtins Plain.double_of false Plain.overflowing) with
  | Ok agg =>
      Doubles.amounts agg = [Plain.huge; (- Plain.huge)%float; Plain.huge]
      /\ Doubles.py_sum (Doubles.total_values (Doubles.category_totals agg)) = infinity
      /\ Doubles.py_sum (Doubles.total_values (Doubles.monthly_totals agg)) = Plain.huge
      /\ Doubles.py_sum (Doubles.amounts agg) = Plain.huge
      /\ Plain.huge <> infinity
  | Raise _ => False
  end.
Proof. vm_compute. repeat split; discriminate. Qed.

(** Rounding separates the sum of the rest from the total minus the sum of
    the largest. With three totals of 1e16 and two of 1 the pie shows the
    three, and an "Other" slice of 2; the sum of all five totals is 3e16,
    and so is the sum of the three shown: their difference is 0. *)
Lemma other_is_not_the_total_minus_the_largest :
  let ranking := Doubles.sorted_desc Plain.five_totals in
  Doubles.plot_category_pie Plain.five_totals
  = (["A"; "B"; "C"; "Other"], [1e16; 1e16; 1e16; 2]%float)
  /\ (Doubles.py_sum (Doubles.total_values Plain.five_totals)
      - Doubles.py_sum (Doubles.total_values (take 3 ranking)))%float = 0%float
  /\ 2%float <> 0%float.
Proof. vm_compute. repeat split; discriminate. Qed.

(** C7 at five totals without nan. *)
Lemma charts_keep_the_largest_and_sum_the_rest_witness :
  Doubles.no_nan Plain.five_totals = true
  /\ Doubles.top_k_reduction 3 Plain.five_totals
       (fst (Doubles.plot_category_pie Plain.five_totals))
       (snd (Doubles.plot_category_pie Plain.five_totals))
  /\ Doubles.top_k_reduction 5 Plain.five_totals
       (fst (Doubles.send_category_chart Plain.five_totals))
       (snd (Doubles.send_category_chart Plain.five_totals)).
Proof.
  split; [vm_compute; reflexivity|].
  apply (charts_keep_the_largest_and_sum_the_rest Plain.five_totals).
  vm_compute. reflexivity.
Defined.

End DoubleScenarios.
